(** * The cryptobox JNI bridge (src/cryptobox-jni.c)

    A shallow embedding of the bridge between the Java runtime and the
    native cryptobox engine.  The bridge itself is straight-line C with
    early returns and one [for] loop; everything of interest happens at
    its two boundaries:

    - the JNI environment ([JNIEnv]): allocation of managed objects, the
      pending-exception flag, borrowing of array and string contents;
    - the native engine ([cbox.h]): result codes, out-parameters holding
      freshly allocated [CBoxVec] buffers and session handles.

    Both are modelled as part of an explicit [World] that is threaded
    through every call.  What the two collaborators answer is not under
    the bridge's control, so each of them is a script in the world:
    every fallible JNI call consumes the next [JvmReply], every engine
    call the next [Reply].  Theorems quantify over all worlds, hence over
    all behaviours of the collaborators.  Dereferencing a null or freed
    native pointer is undefined behaviour in C; the model makes it an
    explicit [Crash]. *)

From Stdlib Require Import ZArith Lia Bool.
From Stdlib.Strings Require Import Byte.
From stdpp Require Import base option list strings.

Local Open Scope Z_scope.

(** ** Machine integers *)

Module Int.

Definition min_jint : Z := -2147483648.
Definition max_jint : Z := 2147483647.

(** [jint], [jsize], C [int]: 32 bits, two's complement. *)
Definition to_jint (z : Z) : Z := (z + 2147483648) mod 4294967296 - 2147483648.

Definition to_uint32 (z : Z) : Z := z mod 4294967296.

Definition to_uint16 (z : Z) : Z := z mod 65536.

Definition is_jint (z : Z) : Prop := min_jint <= z <= max_jint.

Lemma to_jint_id z : is_jint z -> to_jint z = z.
Proof.
  unfold is_jint, to_jint, min_jint, max_jint. intros Hz.
  rewrite Z.mod_small by lia. lia.
Qed.

Lemma to_jint_range z : is_jint (to_jint z).
Proof.
  unfold is_jint, to_jint, min_jint, max_jint.
  pose proof (Z.mod_pos_bound (z + 2147483648) 4294967296). lia.
Qed.

Lemma to_uint32_id z : 0 <= z < 4294967296 -> to_uint32 z = z.
Proof. intros Hz. unfold to_uint32. now rewrite Z.mod_small. Qed.

Lemma to_uint16_range z : 0 <= to_uint16 z < 65536.
Proof. unfold to_uint16. apply Z.mod_pos_bound. lia. Qed.

Lemma to_uint16_id z : 0 <= z < 65536 -> to_uint16 z = z.
Proof. intros Hz. unfold to_uint16. now rewrite Z.mod_small. Qed.

End Int.

(** ** Constants of jni.h and cbox.h *)

Definition JNI_OK : Z := 0.
Definition JNI_ERR : Z := -1.
Definition JNI_EVERSION : Z := -3.
Definition JNI_VERSION_1_6 : Z := 65542.
Definition JNI_COMMIT : Z := 1.
Definition JNI_ABORT : Z := 2.

(** cbox.h is not among the sources.  [CBOX_SUCCESS] is the first
    enumerator of [CBoxResult]; the bridge only ever compares a result
    code with it, so no theorem depends on the value. *)
Definition CBOX_SUCCESS : Z := 0.

(** ** References

    A JNI reference and a native pointer are both opaque to the bridge,
    which only tests them against [NULL].  A reference is the position
    of its target in the store it points into, plus one; [NULL] is [0]
    and points nowhere. *)

Definition jref := nat.
Definition ptr := nat.
Definition NULL : nat := 0%nat.

Definition is_null (r : nat) : bool := Nat.eqb r NULL.

Definition deref {A : Type} (r : nat) (store : list A) : option A :=
  match r with
  | O => None
  | S k => store !! k
  end.

Definition store_set {A : Type} (r : nat) (x : A) (store : list A) : list A :=
  match r with
  | O => store
  | S k => <[k := x]> store
  end.

Definition fresh_ref {A : Type} (store : list A) : nat := S (length store).

(** ** The managed heap *)

(** The objects the bridge builds or is handed.  [NewObject] is always
    called with one of the cached class/constructor pairs; the object it
    builds is determined by the pair and the arguments. *)
Inductive JObj : Type :=
  | OString (chars : string)
  | OByteArray (bytes : list byte)
  | OObjArray (elems : list jref)
  | OException (code : Z)                  (* CryptoException(int) *)
  | OBox (handle : Z)                      (* CryptoBox(long) *)
  | OSession (handle : Z) (sid : jref)     (* CryptoSession(long, String) *)
  | OSessionMessage (sess : jref) (plain : jref)  (* SessionMessage(CryptoSession, byte[]) *)
  | OPreKey (id : Z) (key : jref).         (* PreKey(int, byte[]) *)

(** What is pending in the JNI environment: an object raised with
    [Throw], or an exception of the runtime's own making (out of memory,
    negative array size, index out of bounds, ...). *)
Inductive Throwable : Type :=
  | Thrown (ex : jref)
  | RuntimeFailure.

(** ** Borrowed array contents

    [GetByteArrayElements] hands out either a copy of the array or the
    pinned array itself; which one is the runtime's choice. *)
Record Borrow : Type := mkBorrow {
  b_array : jref;
  b_bytes : list byte;     (* the copy; unused when pinned *)
  b_pinned : bool
}.

(** ** Scripts of the two collaborators *)

(** Answer of the runtime to one fallible JNI call.  A failing call
    returns [NULL]; most leave an exception pending ([JFail true]), a few
    may fail silently ([JFail false]).  A [void] JNI function can only
    report failure by raising. *)
Inductive JvmReply : Type :=
  | JOk
  | JFail (raises : bool).

(** Answer of the engine to one call: the result code, what it stored
    through its out-parameters, and what it wrote into the input buffer
    it was given (nothing, for a well-behaved engine). *)
Record Reply : Type := mkReply {
  rc : Z;
  out_vec : option (list byte);   (* [None]: the CBoxVec out-pointer stays NULL *)
  out_sess : Z;                   (* the CBoxSession out-pointer, as an integer *)
  scribble : option (list byte)
}.

(** An exhausted engine script answers with a plain success. *)
Definition default_reply : Reply := mkReply CBOX_SUCCESS (Some []) 1 None.

(** ** Observable events *)

Inductive NativeCall : Type :=
  | CallNewPrekey (cbox : Z) (id : Z)
  | CallFingerprintLocal (cbox : Z)
  | CallFingerprintRemote (csess : Z)
  | CallInitFromPrekey (cbox : Z) (sid : ptr) (prekey : ptr) (prekey_len : Z)
  | CallInitFromMessage (cbox : Z) (sid : ptr) (message : ptr) (message_len : Z)
  | CallEncrypt (csess : Z) (plain : ptr) (plain_len : Z)
  | CallDecrypt (csess : Z) (cipher : ptr) (cipher_len : Z).

Inductive Event : Type :=
  | EvNative (call : NativeCall)
  | EvVecFree (v : ptr)
  | EvGetElements (arr : jref) (elems : ptr)
  | EvReleaseElements (arr : jref) (elems : ptr) (mode : Z)
  | EvGetChars (s : jref) (chars : ptr)
  | EvReleaseChars (s : jref) (chars : ptr)
  | EvThrow (ex : jref).

(** ** The world *)

Record World : Type := mkWorld {
  w_pending : option Throwable;         (* what ExceptionCheck looks at *)
  w_heap : list JObj;                   (* managed objects *)
  w_vecs : list (option (list byte));   (* CBoxVec buffers; [None] once freed *)
  w_elems : list (option Borrow);       (* byte-array borrows; [None] once released *)
  w_chars : list (option jref);         (* string borrows; [None] once released *)
  w_pinning : bool;                     (* does GetByteArrayElements pin? *)
  w_jvm : list JvmReply;
  w_engine : list Reply;
  w_trace : list Event                  (* newest event first *)
}.

Definition set_pending (p : option Throwable) (w : World) : World :=
  mkWorld p (w_heap w) (w_vecs w) (w_elems w) (w_chars w) (w_pinning w)
          (w_jvm w) (w_engine w) (w_trace w).

Definition set_heap (h : list JObj) (w : World) : World :=
  mkWorld (w_pending w) h (w_vecs w) (w_elems w) (w_chars w) (w_pinning w)
          (w_jvm w) (w_engine w) (w_trace w).

Definition set_vecs (v : list (option (list byte))) (w : World) : World :=
  mkWorld (w_pending w) (w_heap w) v (w_elems w) (w_chars w) (w_pinning w)
          (w_jvm w) (w_engine w) (w_trace w).

Definition set_elems (e : list (option Borrow)) (w : World) : World :=
  mkWorld (w_pending w) (w_heap w) (w_vecs w) e (w_chars w) (w_pinning w)
          (w_jvm w) (w_engine w) (w_trace w).

Definition set_chars (c : list (option jref)) (w : World) : World :=
  mkWorld (w_pending w) (w_heap w) (w_vecs w) (w_elems w) c (w_pinning w)
          (w_jvm w) (w_engine w) (w_trace w).

Definition set_jvm (j : list JvmReply) (w : World) : World :=
  mkWorld (w_pending w) (w_heap w) (w_vecs w) (w_elems w) (w_chars w) (w_pinning w)
          j (w_engine w) (w_trace w).

Definition set_engine (e : list Reply) (w : World) : World :=
  mkWorld (w_pending w) (w_heap w) (w_vecs w) (w_elems w) (w_chars w) (w_pinning w)
          (w_jvm w) e (w_trace w).

Definition log (e : Event) (w : World) : World :=
  mkWorld (w_pending w) (w_heap w) (w_vecs w) (w_elems w) (w_chars w) (w_pinning w)
          (w_jvm w) (w_engine w) (e :: w_trace w).

(** The runtime raises an exception of its own. *)
Definition raise (w : World) : World := set_pending (Some RuntimeFailure) w.

(** ** Outcomes and the bridge monad *)

Inductive Fault : Type :=
  | NullDeref          (* a NULL native pointer is dereferenced *)
  | UseAfterFree       (* a freed or unknown native buffer is used or freed again *)
  | BadReference.      (* a JNI call is given a reference of the wrong kind *)

Inductive Outcome (A : Type) : Type :=
  | Done (a : A) (w : World)
  | Crash (f : Fault) (w : World).

Arguments Done {A} a w.
Arguments Crash {A} f w.

Definition M (A : Type) : Type := World -> Outcome A.

Definition ret {A : Type} (a : A) : M A := fun w => Done a w.

Definition bind {A B : Type} (m : M A) (k : A -> M B) : M B :=
  fun w => match m w with
           | Done a w' => k a w'
           | Crash f w' => Crash f w'
           end.

Declare Scope bridge_scope.
Delimit Scope bridge_scope with bridge.

Notation "'let*' x ':=' c 'in' k" := (bind c (fun x => k))
  (at level 10, x name, c at level 100, k at level 200) : bridge_scope.
Notation "'do*' c 'in' k" := (bind c (fun _ => k))
  (at level 10, c at level 100, k at level 200) : bridge_scope.

Local Open Scope bridge_scope.

Definition crash {A : Type} (f : Fault) : M A := fun w => Crash f w.

(** The world an outcome ends in, and the value it returns. *)
Definition final {A : Type} (o : Outcome A) : World :=
  match o with Done _ w => w | Crash _ w => w end.

Definition returned {A : Type} (o : Outcome A) : option A :=
  match o with Done a _ => Some a | Crash _ _ => None end.

(** ** The JNI environment

    Each definition is one function of [JNIEnv], with the effect the JNI
    specification gives it.  Fallible calls take the runtime's next
    answer from the script. *)

(** The next answer of the runtime; an exhausted script answers [JOk]. *)
Definition pop_jvm (w : World) : JvmReply * World :=
  (hd JOk (w_jvm w), set_jvm (tl (w_jvm w)) w).

Definition fail_with (raises : bool) (w : World) : World :=
  if raises then raise w else w.

Definition has_pending (w : World) : bool :=
  match w_pending w with
  | Some _ => true
  | None => false
  end.

Definition ExceptionCheck : M bool := fun w => Done (has_pending w) w.

Definition alloc_obj (o : JObj) : M jref :=
  fun w => Done (fresh_ref (w_heap w)) (set_heap (w_heap w ++ [o]) w).

Definition NewObject (o : JObj) : M jref := fun w =>
  let (r, w1) := pop_jvm w in
  match r with
  | JOk => alloc_obj o w1
  | JFail raises => Done NULL (fail_with raises w1)
  end.

Definition NewByteArray (len : Z) : M jref := fun w =>
  let (r, w1) := pop_jvm w in
  match r with
  | JOk => if len <? 0 then Done NULL (raise w1)
           else alloc_obj (OByteArray (replicate (Z.to_nat len) x00)) w1
  | JFail raises => Done NULL (fail_with raises w1)
  end.

Definition NewObjectArray (len : Z) : M jref := fun w =>
  let (r, w1) := pop_jvm w in
  match r with
  | JOk => if len <? 0 then Done NULL (raise w1)
           else alloc_obj (OObjArray (replicate (Z.to_nat len) NULL)) w1
  | JFail raises => Done NULL (fail_with raises w1)
  end.

(** Bytes [new] written over the start of [old], within its bounds. *)
Definition overwrite (new old : list byte) : list byte :=
  take (length old) (new ++ drop (length new) old).

Definition SetByteArrayRegion (arr : jref) (start len : Z) (buf : list byte) : M unit :=
  fun w =>
  let (r, w1) := pop_jvm w in
  match r with
  | JFail _ => Done tt (raise w1)
  | JOk =>
      match deref arr (w_heap w1) with
      | Some (OByteArray old) =>
          if (0 <=? start) && (0 <=? len) && (start + len <=? Z.of_nat (length old))
          then Done tt (set_heap
                 (store_set arr
                    (OByteArray (take (Z.to_nat start) old
                                 ++ overwrite (take (Z.to_nat len) buf)
                                              (drop (Z.to_nat start) old)))
                    (w_heap w1)) w1)
          else Done tt (raise w1)
      | _ => Crash BadReference w1
      end
  end.

Definition SetObjectArrayElement (arr : jref) (i : Z) (v : jref) : M unit :=
  fun w =>
  let (r, w1) := pop_jvm w in
  match r with
  | JFail _ => Done tt (raise w1)
  | JOk =>
      match deref arr (w_heap w1) with
      | Some (OObjArray elems) =>
          if (0 <=? i) && (i <? Z.of_nat (length elems))
          then Done tt (set_heap
                 (store_set arr (OObjArray (<[Z.to_nat i := v]> elems)) (w_heap w1)) w1)
          else Done tt (raise w1)
      | _ => Crash BadReference w1
      end
  end.

Definition Throw (ex : jref) : M unit :=
  fun w => Done tt (log (EvThrow ex) (set_pending (Some (Thrown ex)) w)).

Definition GetStringUTFChars (s : jref) : M ptr := fun w =>
  match deref s (w_heap w) with
  | Some (OString _) =>
      let (r, w1) := pop_jvm w in
      match r with
      | JOk => let p := fresh_ref (w_chars w1) in
               Done p (log (EvGetChars s p) (set_chars (w_chars w1 ++ [Some s]) w1))
      | JFail raises => Done NULL (fail_with raises w1)
      end
  | _ => Crash BadReference w
  end.

Definition ReleaseStringUTFChars (s : jref) (chars : ptr) : M unit := fun w =>
  match deref chars (w_chars w) with
  | Some (Some _) =>
      Done tt (log (EvReleaseChars s chars)
                   (set_chars (store_set chars None (w_chars w)) w))
  | _ => Crash UseAfterFree w
  end.

Definition GetArrayLength (arr : jref) : M Z := fun w =>
  match deref arr (w_heap w) with
  | Some (OByteArray bytes) => Done (Z.of_nat (length bytes)) w
  | Some (OObjArray elems) => Done (Z.of_nat (length elems)) w
  | _ => Crash BadReference w
  end.

Definition GetByteArrayElements (arr : jref) : M ptr := fun w =>
  match deref arr (w_heap w) with
  | Some (OByteArray bytes) =>
      let (r, w1) := pop_jvm w in
      match r with
      | JOk => let p := fresh_ref (w_elems w1) in
               Done p (log (EvGetElements arr p)
                         (set_elems (w_elems w1 ++ [Some (mkBorrow arr bytes (w_pinning w1))]) w1))
      | JFail raises => Done NULL (fail_with raises w1)
      end
  | _ => Crash BadReference w
  end.

(** Mode [0] copies the buffer back and frees it, [JNI_COMMIT] copies
    back and keeps it, [JNI_ABORT] frees it without copying back.  For a
    pinned array there is nothing to copy. *)
Definition ReleaseByteArrayElements (arr : jref) (elems : ptr) (mode : Z) : M unit :=
  fun w =>
  match deref elems (w_elems w) with
  | Some (Some b) =>
      let w1 :=
        if b_pinned b || (mode =? JNI_ABORT) then w
        else set_heap (store_set (b_array b) (OByteArray (b_bytes b)) (w_heap w)) w in
      let w2 :=
        if mode =? JNI_COMMIT then w1
        else set_elems (store_set elems None (w_elems w1)) w1 in
      Done tt (log (EvReleaseElements arr elems mode) w2)
  | _ => Crash UseAfterFree w
  end.

(** ** The native engine

    [cbox_vec_len], [cbox_vec_data] and [cbox_vec_free] take the buffer
    by pointer and dereference it; none of them accepts [NULL]. *)

Definition vec_fault (v : ptr) : Fault :=
  if is_null v then NullDeref else UseAfterFree.

Definition cbox_vec_len (v : ptr) : M Z := fun w =>
  match deref v (w_vecs w) with
  | Some (Some bytes) => Done (Z.of_nat (length bytes)) w
  | _ => Crash (vec_fault v) w
  end.

Definition cbox_vec_data (v : ptr) : M (list byte) := fun w =>
  match deref v (w_vecs w) with
  | Some (Some bytes) => Done bytes w
  | _ => Crash (vec_fault v) w
  end.

Definition cbox_vec_free (v : ptr) : M unit := fun w =>
  match deref v (w_vecs w) with
  | Some (Some _) => Done tt (log (EvVecFree v) (set_vecs (store_set v None (w_vecs w)) w))
  | _ => Crash (vec_fault v) w
  end.

Definition pop_engine (w : World) : Reply * World :=
  (hd default_reply (w_engine w), set_engine (tl (w_engine w)) w).

(** What the engine wrote into the buffer it was handed ends up in the
    copy, or straight in the managed array when the runtime pinned it. *)
Definition scribbled_heap (new : option (list byte)) (buf : ptr)
    (elems : list (option Borrow)) (heap : list JObj) : list JObj :=
  match new, deref buf elems with
  | Some new, Some (Some b) =>
      if b_pinned b then
        match deref (b_array b) heap with
        | Some (OByteArray old) =>
            store_set (b_array b) (OByteArray (overwrite new old)) heap
        | _ => heap
        end
      else heap
  | _, _ => heap
  end.

Definition scribbled_elems (new : option (list byte)) (buf : ptr)
    (elems : list (option Borrow)) : list (option Borrow) :=
  match new, deref buf elems with
  | Some new, Some (Some b) =>
      if b_pinned b then elems
      else store_set buf (Some (mkBorrow (b_array b) (overwrite new (b_bytes b)) false)) elems
  | _, _ => elems
  end.

(** One call into the engine: the call is logged, the engine's answer is
    taken from the script, and a buffer it returns is allocated on the
    native side if the function has a [CBoxVec] out-parameter at all.
    Returns the result code and the two out-parameters. *)
Definition engine_call (call : NativeCall) (buf : ptr) (has_vec : bool)
    : M (Z * ptr * Z) := fun w =>
  let (r, w1) := pop_engine w in
  let w2 := log (EvNative call) w1 in
  let w3 := set_heap (scribbled_heap (scribble r) buf (w_elems w2) (w_heap w2))
              (set_elems (scribbled_elems (scribble r) buf (w_elems w2)) w2) in
  match (if has_vec then out_vec r else None) with
  | Some bytes =>
      Done (rc r, fresh_ref (w_vecs w3), out_sess r)
           (set_vecs (w_vecs w3 ++ [Some bytes]) w3)
  | None => Done (rc r, NULL, out_sess r) w3
  end.

Definition cbox_new_prekey (cbox id : Z) : M (Z * ptr) :=
  let* r := engine_call (CallNewPrekey cbox id) NULL true in
  ret (r.1.1, r.1.2).

Definition cbox_fingerprint_local (cbox : Z) : M (Z * ptr) :=
  let* r := engine_call (CallFingerprintLocal cbox) NULL true in
  ret (r.1.1, r.1.2).

Definition cbox_fingerprint_remote (csess : Z) : M (Z * ptr) :=
  let* r := engine_call (CallFingerprintRemote csess) NULL true in
  ret (r.1.1, r.1.2).

Definition cbox_session_init_from_prekey
    (cbox : Z) (sid : ptr) (prekey : ptr) (prekey_len : Z) : M (Z * Z) :=
  let* r := engine_call (CallInitFromPrekey cbox sid prekey prekey_len) prekey false in
  ret (r.1.1, r.2).

Definition cbox_session_init_from_message
    (cbox : Z) (sid : ptr) (message : ptr) (message_len : Z) : M (Z * Z * ptr) :=
  let* r := engine_call (CallInitFromMessage cbox sid message message_len) message true in
  ret (r.1.1, r.2, r.1.2).

Definition cbox_encrypt (csess : Z) (plain : ptr) (plain_len : Z) : M (Z * ptr) :=
  let* r := engine_call (CallEncrypt csess plain plain_len) plain true in
  ret (r.1.1, r.1.2).

Definition cbox_decrypt (csess : Z) (cipher : ptr) (cipher_len : Z) : M (Z * ptr) :=
  let* r := engine_call (CallDecrypt csess cipher cipher_len) cipher true in
  ret (r.1.1, r.1.2).

(** ** The bridge: utilities *)

Definition cboxjni_throw (code : Z) : M unit :=
  let* j_ex := NewObject (OException code) in
  let* exc := ExceptionCheck in
  if exc || is_null j_ex then ret tt
  else Throw j_ex.

Definition cboxjni_check_error (val : nat) : M bool :=
  let* exc := ExceptionCheck in
  ret (exc || is_null val).

Definition cboxjni_vec2arr (v : ptr) : M jref :=
  let* len := cbox_vec_len v in
  let v_len := Int.to_uint32 len in
  let* j_arr := NewByteArray (Int.to_jint v_len) in
  let* err := cboxjni_check_error j_arr in
  if err then
    do* cbox_vec_free v in
    ret NULL
  else
    let* data := cbox_vec_data v in
    do* SetByteArrayRegion j_arr 0 (Int.to_jint v_len) data in
    do* cbox_vec_free v in
    let* exc := ExceptionCheck in
    if exc then ret NULL
    else ret j_arr.

Definition cboxjni_new_session (csess : Z) (j_sid : jref) : M jref :=
  let* j_sess := NewObject (OSession csess j_sid) in
  let* err := cboxjni_check_error j_sess in
  if err then ret NULL
  else ret j_sess.

(** ** The bridge: entry points of CryptoBox *)

(** The [for] loop of [cboxjni_new_prekeys], by the number of iterations
    still to run: [i < j_num] holds exactly while [todo] is not zero.
    The bundle is built by [NewObject] with the cached pair
    [cboxjni_pkbundle_class], [cboxjni_pkbundle_ctor].  The world does
    not hold the cache: what the runtime does with the pair is its
    answer in the script.  A constructor id that is null, which
    [JNI_OnLoad] can leave behind for this one constructor, makes the
    call undefined in JNI; such a call has no answer in the script, and
    the outcomes of the loop are those of calls that were answered. *)
Fixpoint new_prekeys_loop (todo : nat) (cbox j_start : Z) (bundles : jref) (i : Z)
    : M jref :=
  match todo with
  | O => ret bundles
  | S todo' =>
      let j_id := Int.to_jint (j_start + i) in
      let* r := cbox_new_prekey cbox j_id in
      let '(rc, prekey) := r in
      if negb (rc =? CBOX_SUCCESS) then
        do* cboxjni_throw rc in
        ret NULL
      else
        let* j_prekey := cboxjni_vec2arr prekey in
        if is_null j_prekey then ret NULL
        else
          let* j_pkb := NewObject (OPreKey j_id j_prekey) in
          let* err := cboxjni_check_error j_pkb in
          if err then ret NULL
          else
            do* SetObjectArrayElement bundles i j_pkb in
            let* exc := ExceptionCheck in
            if exc then ret NULL
            else new_prekeys_loop todo' cbox j_start bundles (i + 1)
  end.

Definition cboxjni_new_prekeys (j_ptr j_start j_num : Z) : M jref :=
  let cbox := j_ptr in
  let* bundles := NewObjectArray j_num in
  let* err := cboxjni_check_error bundles in
  if err then ret NULL
  else new_prekeys_loop (Z.to_nat j_num) cbox j_start bundles 0.

Definition cboxjni_local_fingerprint (j_ptr : Z) : M jref :=
  let cbox := j_ptr in
  let* r := cbox_fingerprint_local cbox in
  let '(_, fp) := r in
  cboxjni_vec2arr fp.

Definition cboxjni_init_from_prekey (j_ptr : Z) (j_sid j_prekey : jref) : M jref :=
  let* sid := GetStringUTFChars j_sid in
  let* err := cboxjni_check_error sid in
  if err then ret NULL
  else
    let cbox := j_ptr in
    let* len := GetArrayLength j_prekey in
    let prekey_len := Int.to_uint16 len in
    let* prekey := GetByteArrayElements j_prekey in
    if is_null prekey then
      do* ReleaseStringUTFChars j_sid sid in
      ret NULL
    else
      let* r := cbox_session_init_from_prekey cbox sid prekey prekey_len in
      let '(rc, sess) := r in
      do* ReleaseByteArrayElements j_prekey prekey JNI_ABORT in
      do* ReleaseStringUTFChars j_sid sid in
      if negb (rc =? CBOX_SUCCESS) then
        do* cboxjni_throw rc in
        ret NULL
      else cboxjni_new_session sess j_sid.

Definition cboxjni_init_from_message (j_ptr : Z) (j_sid j_message : jref) : M jref :=
  let* sid := GetStringUTFChars j_sid in
  let* err := cboxjni_check_error sid in
  if err then ret NULL
  else
    let cbox := j_ptr in
    let* len := GetArrayLength j_message in
    let message_len := Int.to_uint32 len in
    let* message := GetByteArrayElements j_message in
    if is_null message then
      do* ReleaseStringUTFChars j_sid sid in
      ret NULL
    else
      let* r := cbox_session_init_from_message cbox sid message message_len in
      let '(rc, sess, plain) := r in
      do* ReleaseByteArrayElements j_message message JNI_ABORT in
      do* ReleaseStringUTFChars j_sid sid in
      if negb (rc =? CBOX_SUCCESS) then
        do* cboxjni_throw rc in
        ret NULL
      else
        let* j_sess := cboxjni_new_session sess j_sid in
        let* j_plaintext := cboxjni_vec2arr plain in
        if is_null j_plaintext then ret NULL
        else
          let* j_swm := NewObject (OSessionMessage j_sess j_plaintext) in
          ret j_swm.

(** ** The bridge: entry points of CryptoSession *)

Definition cboxjni_session_encrypt (j_ptr : Z) (j_plain : jref) : M jref :=
  let csess := j_ptr in
  let* len := GetArrayLength j_plain in
  let plain_len := Int.to_uint32 len in
  let* plain := GetByteArrayElements j_plain in
  let* err := cboxjni_check_error plain in
  if err then ret NULL
  else
    let* r := cbox_encrypt csess plain plain_len in
    let '(_, cipher) := r in
    do* ReleaseByteArrayElements j_plain plain JNI_ABORT in
    cboxjni_vec2arr cipher.

Definition cboxjni_session_decrypt (j_ptr : Z) (j_cipher : jref) : M jref :=
  let csess := j_ptr in
  let* len := GetArrayLength j_cipher in
  let cipher_len := Int.to_uint32 len in
  let* cipher := GetByteArrayElements j_cipher in
  let* err := cboxjni_check_error cipher in
  if err then ret NULL
  else
    let* r := cbox_decrypt csess cipher cipher_len in
    let '(rc, plain) := r in
    do* ReleaseByteArrayElements j_cipher cipher JNI_ABORT in
    if negb (rc =? CBOX_SUCCESS) then
      do* cboxjni_throw rc in
      ret NULL
    else cboxjni_vec2arr plain.

Definition cboxjni_remote_fingerprint (j_ptr : Z) : M jref :=
  let csess := j_ptr in
  let* r := cbox_fingerprint_remote csess in
  let '(_, fp) := r in
  cboxjni_vec2arr fp.

(** ** Bookkeeping: the binding cache and [JNI_OnLoad]

    At load time the only collaborator is the runtime, asked to resolve
    classes and constructors and to register the entry points.  Its
    answers are the fields of [Runtime]. *)

Module Load.

Local Open Scope string_scope.

(** The global variables of the cache. *)
Inductive ClassVar : Type :=
  | cboxjni_ex_class
  | cboxjni_box_class
  | cboxjni_sess_class
  | cboxjni_sessmsg_class
  | cboxjni_bytearr_class
  | cboxjni_pkbundle_class.

Inductive CtorVar : Type :=
  | cboxjni_ex_ctor
  | cboxjni_sess_ctor
  | cboxjni_box_ctor
  | cboxjni_sessmsg_ctor
  | cboxjni_pkbundle_ctor.

#[global] Instance ClassVar_eq_dec : EqDecision ClassVar.
Proof. solve_decision. Defined.

#[global] Instance CtorVar_eq_dec : EqDecision CtorVar.
Proof. solve_decision. Defined.

(** A [jclass] is the name of the class it refers to, a [jmethodID]
    the class, name and signature of its method; [None] is [NULL]. *)
Definition jclass := option string.
Definition jmethodID := option (string * string * string).

Record Runtime : Type := mkRuntime {
  rt_get_env : Z;                                   (* what GetEnv returns *)
  rt_find_class : string -> bool;                   (* does FindClass resolve the name? *)
  rt_new_global_ref : string -> bool;               (* is there memory for the global reference? *)
  rt_get_method : string -> string -> string -> bool;  (* does GetMethodID resolve? *)
  rt_register : string -> bool                      (* does RegisterNatives accept the table? *)
}.

(** The functions behind the entry points. *)
Inductive EntryPoint : Type :=
  | cboxjni_open | cboxjni_close | cboxjni_new_prekeys | cboxjni_local_fingerprint
  | cboxjni_init_from_prekey | cboxjni_init_from_message | cboxjni_session_get
  | cboxjni_session_encrypt | cboxjni_session_decrypt | cboxjni_session_save
  | cboxjni_session_close | cboxjni_remote_fingerprint.

Definition JNINativeMethod : Type := string * string * EntryPoint.

Definition cboxjni_box_methods : list JNINativeMethod :=
  [ ("jniOpen", "(Ljava/lang/String;)Lorg/pkaboo/cryptobox/CryptoBox;", cboxjni_open);
    ("jniClose", "(J)V", cboxjni_close);
    ("jniNewPreKeys", "(JII)[Lorg/pkaboo/cryptobox/PreKey;", cboxjni_new_prekeys);
    ("jniGetLocalFingerprint", "(J)[B", cboxjni_local_fingerprint);
    ("jniInitSessionFromPreKey",
     "(JLjava/lang/String;[B)Lorg/pkaboo/cryptobox/CryptoSession;",
     cboxjni_init_from_prekey);
    ("jniInitSessionFromMessage",
     "(JLjava/lang/String;[B)Lorg/pkaboo/cryptobox/SessionMessage;",
     cboxjni_init_from_message);
    ("jniGetSession", "(JLjava/lang/String;)Lorg/pkaboo/cryptobox/CryptoSession;",
     cboxjni_session_get) ].

Definition cboxjni_sess_methods : list JNINativeMethod :=
  [ ("jniEncrypt", "(J[B)[B", cboxjni_session_encrypt);
    ("jniDecrypt", "(J[B)[B", cboxjni_session_decrypt);
    ("jniSave", "(J)V", cboxjni_session_save);
    ("jniClose", "(J)V", cboxjni_session_close);
    ("jniGetRemoteFingerprint", "(J)[B", cboxjni_remote_fingerprint) ].

Record State : Type := mkState {
  s_pending : bool;                              (* is an exception pending? *)
  s_class : ClassVar -> jclass;
  s_ctor : CtorVar -> jmethodID;
  s_registered : list (string * JNINativeMethod)   (* class, entry point *)
}.

(** Before the library is loaded: C zero-initialises the globals. *)
Definition unloaded : State :=
  mkState false (fun _ => None) (fun _ => None) [].

Definition assign_class (x : ClassVar) (c : jclass) (s : State) : State :=
  mkState (s_pending s)
          (fun y => if decide (y = x) then c else s_class s y)
          (s_ctor s) (s_registered s).

Definition assign_ctor (x : CtorVar) (m : jmethodID) (s : State) : State :=
  mkState (s_pending s) (s_class s)
          (fun y => if decide (y = x) then m else s_ctor s y)
          (s_registered s).

Definition set_pending (s : State) : State :=
  mkState true (s_class s) (s_ctor s) (s_registered s).

(** [FindClass]: the class, or [NULL] with an exception pending. *)
Definition FindClass (rt : Runtime) (name : string) (s : State) : jclass * State :=
  if rt_find_class rt name then (Some name, s) else (None, set_pending s).

(** [NewGlobalRef]: [NULL] when out of memory, without an exception. *)
Definition NewGlobalRef (rt : Runtime) (c : jclass) : jclass :=
  match c with
  | Some name => if rt_new_global_ref rt name then Some name else None
  | None => None
  end.

(** [GetMethodID]: the method, or [NULL] with an exception pending. *)
Definition GetMethodID (rt : Runtime) (cls : jclass) (name sig : string) (s : State)
    : jmethodID * State :=
  match cls with
  | Some c => if rt_get_method rt c name sig then (Some (c, name, sig), s)
              else (None, set_pending s)
  | None => (None, set_pending s)
  end.

(** [RegisterNatives]: [0] and the table is bound, or a negative value. *)
Definition RegisterNatives (rt : Runtime) (cls : jclass)
    (methods : list JNINativeMethod) (s : State) : Z * State :=
  match cls with
  | Some c =>
      if rt_register rt c
      then (0, mkState (s_pending s) (s_class s) (s_ctor s)
                       (s_registered s ++ map (fun m => (c, m)) methods))
      else (JNI_ERR, s)
  | None => (JNI_ERR, s)
  end.

Definition cboxjni_find_method (rt : Runtime) (cls : jclass) (name sig : string)
    (s : State) : jmethodID * State :=
  let (mtd, s1) := GetMethodID rt cls name sig s in
  if s_pending s1 then (None, s1) else (mtd, s1).

Definition cboxjni_find_class (rt : Runtime) (name : string) (s : State)
    : jclass * State :=
  let (j_class, s1) := FindClass rt name s in
  if s_pending s1 then (None, s1)
  else (NewGlobalRef rt j_class, s1).

(** One resolution step of [JNI_OnLoad] for a class: assign the global,
    then test the global. *)
Definition load_class (rt : Runtime) (x : ClassVar) (name : string) (s : State) : State :=
  let (c, s1) := cboxjni_find_class rt name s in
  assign_class x c s1.

Definition load_ctor (rt : Runtime) (x : CtorVar) (cls : ClassVar) (sig : string)
    (s : State) : State :=
  let (m, s1) := cboxjni_find_method rt (s_class s cls) "<init>" sig s in
  assign_ctor x m s1.

Definition JNI_OnLoad (rt : Runtime) (s0 : State) : Z * State :=
  if negb (rt_get_env rt =? JNI_OK)%Z then (JNI_EVERSION, s0) else
  let s1 := load_class rt cboxjni_ex_class "org/pkaboo/cryptobox/CryptoException" s0 in
  if bool_decide (s_class s1 cboxjni_ex_class = None) then (JNI_ERR, s1) else
  let s2 := load_class rt cboxjni_box_class "org/pkaboo/cryptobox/CryptoBox" s1 in
  if bool_decide (s_class s2 cboxjni_box_class = None) then (JNI_ERR, s2) else
  let s3 := load_class rt cboxjni_sess_class "org/pkaboo/cryptobox/CryptoSession" s2 in
  if bool_decide (s_class s3 cboxjni_sess_class = None) then (JNI_ERR, s3) else
  let s4 := load_class rt cboxjni_sessmsg_class "org/pkaboo/cryptobox/SessionMessage" s3 in
  if bool_decide (s_class s4 cboxjni_sessmsg_class = None) then (JNI_ERR, s4) else
  let s5 := load_class rt cboxjni_bytearr_class "[B" s4 in
  if bool_decide (s_class s5 cboxjni_bytearr_class = None) then (JNI_ERR, s5) else
  let s6 := load_class rt cboxjni_pkbundle_class "org/pkaboo/cryptobox/PreKey" s5 in
  if bool_decide (s_class s6 cboxjni_pkbundle_class = None) then (JNI_ERR, s6) else
  let s7 := load_ctor rt cboxjni_ex_ctor cboxjni_ex_class "(I)V" s6 in
  if bool_decide (s_ctor s7 cboxjni_ex_ctor = None) then (JNI_ERR, s7) else
  let s8 := load_ctor rt cboxjni_sess_ctor cboxjni_sess_class "(JLjava/lang/String;)V" s7 in
  if bool_decide (s_ctor s8 cboxjni_sess_ctor = None) then (JNI_ERR, s8) else
  let s9 := load_ctor rt cboxjni_box_ctor cboxjni_box_class "(J)V" s8 in
  if bool_decide (s_ctor s9 cboxjni_box_ctor = None) then (JNI_ERR, s9) else
  let s10 := load_ctor rt cboxjni_sessmsg_ctor cboxjni_sessmsg_class
               "(Lorg/pkaboo/cryptobox/CryptoSession;[B)V" s9 in
  if bool_decide (s_ctor s10 cboxjni_sessmsg_ctor = None) then (JNI_ERR, s10) else
  let s11 := load_ctor rt cboxjni_pkbundle_ctor cboxjni_pkbundle_class "(I[B)V" s10 in
  if bool_decide (s_ctor s11 cboxjni_sessmsg_ctor = None) then (JNI_ERR, s11) else
  let (rc1, s12) := RegisterNatives rt (s_class s11 cboxjni_box_class)
                      cboxjni_box_methods s11 in
  if (rc1 <? 0)%Z then (JNI_ERR, s12) else
  let (rc2, s13) := RegisterNatives rt (s_class s12 cboxjni_sess_class)
                      cboxjni_sess_methods s12 in
  if (rc2 <? 0)%Z then (JNI_ERR, s13) else
  (JNI_VERSION_1_6, s13).

(** A runtime that resolves everything the bridge asks for. *)
Definition complete_runtime : Runtime :=
  mkRuntime JNI_OK (fun _ => true) (fun _ => true) (fun _ _ _ => true) (fun _ => true).

(** The same runtime with a [PreKey] class that has no [(I[B)V]
    constructor. *)
Definition runtime_without_prekey_ctor : Runtime :=
  mkRuntime JNI_OK (fun _ => true) (fun _ => true)
    (fun c _ sig => negb (String.eqb c "org/pkaboo/cryptobox/PreKey" && String.eqb sig "(I[B)V"))
    (fun _ => true).

(** Does the runtime resolve the ten identifiers whose resolution
    [JNI_OnLoad] tests: the six classes, with their global references,
    and the constructors of the exception, the session, the box and
    the session message? *)
Definition resolves_checked (rt : Runtime) : bool :=
  forallb (fun name => rt_find_class rt name && rt_new_global_ref rt name)
    [ "org/pkaboo/cryptobox/CryptoException"; "org/pkaboo/cryptobox/CryptoBox";
      "org/pkaboo/cryptobox/CryptoSession"; "org/pkaboo/cryptobox/SessionMessage";
      "[B"; "org/pkaboo/cryptobox/PreKey" ]
  && rt_get_method rt "org/pkaboo/cryptobox/CryptoException" "<init>" "(I)V"
  && rt_get_method rt "org/pkaboo/cryptobox/CryptoSession" "<init>" "(JLjava/lang/String;)V"
  && rt_get_method rt "org/pkaboo/cryptobox/CryptoBox" "<init>" "(J)V"
  && rt_get_method rt "org/pkaboo/cryptobox/SessionMessage" "<init>"
       "(Lorg/pkaboo/cryptobox/CryptoSession;[B)V".

(** What fail-fast asks of a load: the error status, and nothing
    registered. *)
Definition aborted (o : Z * State) : Prop :=
  fst o = JNI_ERR /\ s_registered (snd o) = [].

(** Every entry point of both tables, bound to its class. *)
Definition all_entry_points : list (string * JNINativeMethod) :=
  map (fun m => ("org/pkaboo/cryptobox/CryptoBox", m)) cboxjni_box_methods
  ++ map (fun m => ("org/pkaboo/cryptobox/CryptoSession", m)) cboxjni_sess_methods.

End Load.

(** ** Observations

    What the theorems below say about a world or an outcome. *)

(** Nothing allocated, nothing pending, a copying runtime and two empty
    scripts: every collaborator answers with success. *)
Definition world0 : World := mkWorld None [] [] [] [] false [] [] [].

Definition is_done {A : Type} (o : Outcome A) : bool :=
  match o with
  | Done _ _ => true
  | Crash _ _ => false
  end.

(** The code carried by the Failure Object that is pending, if one is. *)
Definition failure_code (w : World) : option Z :=
  match w_pending w with
  | Some (Thrown ex) =>
      match deref ex (w_heap w) with
      | Some (OException code) => Some code
      | _ => None
      end
  | _ => None
  end.

Definition array_bytes (arr : jref) (w : World) : option (list byte) :=
  match deref arr (w_heap w) with
  | Some (OByteArray bytes) => Some bytes
  | _ => None
  end.

Definition is_string (s : jref) (w : World) : bool :=
  match deref s (w_heap w) with
  | Some (OString _) => true
  | _ => false
  end.

Definition prekey_id (w : World) (r : jref) : option Z :=
  match deref r (w_heap w) with
  | Some (OPreKey id _) => Some id
  | _ => None
  end.

(** The ids of the bundles in an array of [PreKey]s, in array order. *)
Definition bundle_ids (arr : jref) (w : World) : option (list Z) :=
  match deref arr (w_heap w) with
  | Some (OObjArray elems) => mapM (prekey_id w) elems
  | _ => None
  end.

(** [start], [start + 1], ..., [start + count - 1]. *)
Definition ids_from (start : Z) (count : nat) : list Z :=
  map (fun k => start + Z.of_nat k) (seq 0 count).

Definition is_ok (r : JvmReply) : bool :=
  match r with
  | JOk => true
  | JFail _ => false
  end.

(** The next [n] JNI calls succeed. *)
Fixpoint next_ok (n : nat) (script : list JvmReply) : bool :=
  match n with
  | O => true
  | S n' => is_ok (hd JOk script) && next_ok n' (tl script)
  end.

(** A buffer that a Java array can hold. *)
Definition fits_array (bytes : list byte) : bool :=
  Z.of_nat (length bytes) <=? Int.max_jint.

(** The engine reports success and hands back a buffer. *)
Definition yields_buffer (r : Reply) : bool :=
  (rc r =? CBOX_SUCCESS) &&
  match out_vec r with
  | Some bytes => fits_array bytes
  | None => false
  end.

Fixpoint engine_next_ok (n : nat) (script : list Reply) : bool :=
  match n with
  | O => true
  | S n' => yields_buffer (hd default_reply script) && engine_next_ok n' (tl script)
  end.

(** Every step of generating [count] prekeys succeeds: nothing is
    pending on entry, the array allocation and the four JNI calls of
    each iteration succeed, and so does each call of the engine. *)
Definition all_succeed (count : nat) (w : World) : bool :=
  negb (has_pending w)
  && next_ok (1 + 4 * count) (w_jvm w)
  && engine_next_ok count (w_engine w).

(** The array can be borrowed: it is a byte array, nothing is pending,
    and the runtime grants the borrow. *)
Definition borrowable (arr : jref) (w : World) : bool :=
  negb (has_pending w)
  && bool_decide (is_Some (array_bytes arr w))
  && is_ok (hd JOk (w_jvm w)).

(** The events that concern a borrowed byte array: the borrow, the
    engine call that reads it, the release. *)
Fixpoint borrow_view (evs : list Event) : list Event :=
  match evs with
  | [] => []
  | EvGetElements a p :: rest => EvGetElements a p :: borrow_view rest
  | EvReleaseElements a p m :: rest => EvReleaseElements a p m :: borrow_view rest
  | EvNative c :: rest => EvNative c :: borrow_view rest
  | _ :: rest => borrow_view rest
  end.

Fixpoint native_calls (evs : list Event) : list NativeCall :=
  match evs with
  | [] => []
  | EvNative c :: rest => c :: native_calls rest
  | _ :: rest => native_calls rest
  end.

Fixpoint frees_of (v : ptr) (evs : list Event) : nat :=
  match evs with
  | [] => 0%nat
  | EvVecFree v' :: rest => ((if Nat.eqb v v' then 1 else 0) + frees_of v rest)%nat
  | _ :: rest => frees_of v rest
  end.

(** Worlds for the examples: a session id and a three-byte array. *)
Definition world_bob : World :=
  set_heap [OString "bob"; OByteArray [x01; x02; x03]] world0.
(** [w'] is [w] after work on the managed side that leaves borrows and
    the engine alone and changes no object that existed in [w]. *)
Record frame (w w' : World) : Prop := mkFrame {
  fr_elems : w_elems w' = w_elems w;
  fr_chars : w_chars w' = w_chars w;
  fr_engine : w_engine w' = w_engine w;
  fr_pinning : w_pinning w' = w_pinning w;
  fr_trace : exists evs, w_trace w' = evs ++ w_trace w /\ borrow_view evs = [];
  fr_heap : forall r o, deref r (w_heap w) = Some o -> deref r (w_heap w') = Some o
}.

(** A world holding one native buffer, and the same world with a
    runtime that lets the array allocation succeed and the copy fail. *)
Definition world_vec : World := set_vecs [Some [x68; x69]] world0.
Definition world_copy_fails : World := set_jvm [JOk; JFail true] world_vec.

(** What an outcome shows to the caller: the value returned or the
    fault, and the world without the two scripts. *)
Definition verdict {A : Type} (o : Outcome A) : A + Fault :=
  match o with
  | Done a _ => inl a
  | Crash f _ => inr f
  end.

Definition visible (w : World)
    : option Throwable * list JObj * list (option (list byte))
      * list (option Borrow) * list (option jref) * list Event :=
  (w_pending w, w_heap w, w_vecs w, w_elems w, w_chars w, w_trace w).

(** An engine that fails with code 7 and still hands back a buffer; the
    byte array is object 2 of [world_bob]. *)
Definition world_encrypt_fails : World :=
  set_engine [mkReply 7 (Some [x68; x69]) 0 None] world_bob.

(** The engine rejects the ciphertext with code 9; the runtime grants
    the borrow and then has no memory left for the exception object. *)
Definition decrypt_rejected : Reply := mkReply 9 None 0 None.

Definition world_no_memory : World :=
  set_jvm [JOk; JFail true] world_bob.

(** ** Fragments of the session entry points, named for the proofs *)

(** What both session entry points do after the engine returned and the
    borrows were released, when the engine failed. *)
Definition raise_and_fail (code : Z) : M jref :=
  do* cboxjni_throw code in
  ret NULL.

(** The rest of session-from-message after a successful engine call. *)
Definition build_session_message (sess : Z) (j_sid : jref) (plain : ptr) : M jref :=
  let* j_sess := cboxjni_new_session sess j_sid in
  let* j_plaintext := cboxjni_vec2arr plain in
  if is_null j_plaintext then ret NULL
  else
    let* j_swm := NewObject (OSessionMessage j_sess j_plaintext) in
    ret j_swm.

(** The runtime lets the string be read and refuses the byte array. *)
Definition world_borrow_refused : World := set_jvm [JOk; JFail false] world_bob.

(** ** The discipline of borrowed arrays *)

(** What an entry point did with the bytes of [arr], read off the events
    [evs] it added: it never borrowed them; or it borrowed them and
    returned at once because an exception was already pending on entry;
    or it borrowed them, called the engine, and released them with
    [JNI_ABORT] right after the call, leaving no borrow behind. *)
Definition borrow_discipline (arr : jref) (w : World) (o : Outcome jref) : Prop :=
  let p := fresh_ref (w_elems w) in
  exists evs,
    w_trace (final o) = evs ++ w_trace w
    /\ ((borrow_view evs = [] /\ w_elems (final o) = w_elems w)
        \/ (borrow_view evs = [EvGetElements arr p] /\ has_pending w = true)
        \/ (exists call,
              borrow_view evs
              = [EvReleaseElements arr p JNI_ABORT; EvNative call; EvGetElements arr p]
              /\ w_elems (final o) = w_elems w ++ [None])).

(** The engine cannot reach the array itself: the runtime copies, or
    the engine leaves its input alone. *)
Definition input_protected (w : World) : Prop :=
  w_pinning w = false \/ scribble (hd default_reply (w_engine w)) = None.

(** The contents of [arr] are the same before and after. *)
Definition array_untouched (arr : jref) (w : World) (o : Outcome jref) : Prop :=
  forall bytes,
    array_bytes arr w = Some bytes ->
    input_protected w ->
    array_bytes arr (final o) = Some bytes.

(** A copying runtime and an engine that overwrites its input. *)
Definition world_scribbling : World :=
  set_engine [mkReply 0 (Some [x68; x69]) 42 (Some [xff; xff; xff])] world_bob.

(** The engine opens the session and returns the plaintext "hi"; the
    runtime then fails to construct the session wrapper, raising (as a
    failing [NewObject] does) or, in [world_session_null], silently. *)
Definition session_opened : Reply := mkReply CBOX_SUCCESS (Some [x68; x69]) 42 None.

Definition world_session_fails : World :=
  set_engine [session_opened] (set_jvm [JOk; JOk; JFail true] world_bob).

Definition world_session_null : World :=
  set_jvm [JOk; JOk; JFail false] world_bob.

(** ** The engine: calls without a byte buffer

    [cbox_file_open] and [cbox_session_get] read a C string and answer
    with a result code and, through their out-parameter, a handle;
    [cbox_session_save] answers with a result code only.  The engine
    reads the string, so the characters must still be borrowed when it
    is called.  A reply carries the handle of either kind in
    [out_sess].  These calls are handed no borrowed array and are not
    logged; they show in the answer they take from the engine's
    script. *)

Definition chars_fault (p : ptr) : Fault :=
  if is_null p then NullDeref else UseAfterFree.

Definition string_call (str : ptr) : M (Z * Z) := fun w =>
  match deref str (w_chars w) with
  | Some (Some _) =>
      let (r, w1) := pop_engine w in
      Done (rc r, out_sess r) w1
  | _ => Crash (chars_fault str) w
  end.

Definition cbox_file_open (dir : ptr) : M (Z * Z) := string_call dir.

Definition cbox_session_get (cbox : Z) (sid : ptr) : M (Z * Z) := string_call sid.

Definition cbox_session_save (csess : Z) : M Z := fun w =>
  let (r, w1) := pop_engine w in
  Done (rc r) w1.

(** ** The bridge: the remaining entry points

    [cboxjni_close] and [cboxjni_session_close] hand the handle they
    are given to the engine and do nothing else.  The world does not
    follow the lifetime of the engine's handles, which are plain
    integers to the bridge, so the two have no counterpart here. *)

(** [j_class] is the class the static native method belongs to,
    [CryptoBox]; the object is built with [cboxjni_box_ctor]. *)
Definition cboxjni_open (j_dir : jref) : M jref :=
  let* dir := GetStringUTFChars j_dir in
  let* err := cboxjni_check_error dir in
  if err then ret NULL
  else
    let* r := cbox_file_open dir in
    let '(rc, cbox) := r in
    do* ReleaseStringUTFChars j_dir dir in
    if negb (rc =? CBOX_SUCCESS) then
      do* cboxjni_throw rc in
      ret NULL
    else
      let ptr := cbox in
      let* obj := NewObject (OBox ptr) in
      let* err := cboxjni_check_error obj in
      if err then ret NULL
      else ret obj.

Definition cboxjni_session_get (j_ptr : Z) (j_sid : jref) : M jref :=
  let* sid := GetStringUTFChars j_sid in
  let* err := cboxjni_check_error sid in
  if err then ret NULL
  else
    let cbox := j_ptr in
    let* r := cbox_session_get cbox sid in
    let '(rc, csess) := r in
    do* ReleaseStringUTFChars j_sid sid in
    if negb (rc =? CBOX_SUCCESS) then
      do* cboxjni_throw rc in
      ret NULL
    else cboxjni_new_session csess j_sid.

Definition cboxjni_session_save (j_ptr : Z) : M unit :=
  let csess := j_ptr in
  let* rc := cbox_session_save csess in
  if negb (rc =? CBOX_SUCCESS) then cboxjni_throw rc
  else ret tt.

(** The end of [cboxjni_open] after a successful engine call. *)
Definition wrap_box (cbox : Z) : M jref :=
  let* obj := NewObject (OBox cbox) in
  let* err := cboxjni_check_error obj in
  if err then ret NULL
  else ret obj.

(** Worlds for the examples of the string entry points: the engine
    opens the store (or finds the session) and hands out handle 77, or
    fails with code 4. *)
Definition handle_granted : Reply := mkReply CBOX_SUCCESS None 77 None.
Definition handle_refused : Reply := mkReply 4 None 0 None.

(** The runtime refuses the characters of the string. *)
Definition world_string_refused : World := set_jvm [JFail true] world_bob.

(** An exception is already pending when the entry point is called. *)
Definition world_pending : World := set_pending (Some RuntimeFailure) world_bob.

(** ** The discipline of borrowed strings *)

(** What an entry point did with the characters of [s]: it never got
    them and never called the engine; or it got them and released them;
    or it got them and returned at once, without releasing them,
    because an exception was already pending on entry. *)
Definition string_discipline (s : jref) (w : World) (o : Outcome jref) : Prop :=
  (w_chars (final o) = w_chars w /\ w_engine (final o) = w_engine w)
  \/ w_chars (final o) = w_chars w ++ [None]
  \/ (has_pending w = true
      /\ w_chars (final o) = w_chars w ++ [Some s]
      /\ w_engine (final o) = w_engine w
      /\ returned o = Some NULL).

(** ** Generating prekeys, encrypting, decrypting: observations *)

(** The engine fails with code 7 and leaves the out-pointer null. *)
Definition encrypt_failed : Reply := mkReply 7 None 0 None.

(** The engine reports success and leaves the out-pointer null. *)
Definition success_without_buffer : Reply := mkReply CBOX_SUCCESS None 0 None.

(** The calls generate-prekeys makes into the engine for [n] prekeys,
    oldest first: one per id, the id computed in 32 bits. *)
Definition prekey_calls (cbox start : Z) (n : nat) : list NativeCall :=
  map (fun k => CallNewPrekey cbox (Int.to_jint (start + Z.of_nat k))) (seq 0 n).

(** What is left of a buffer the engine hands back with a failure
    code. *)
Definition stray_buffer (r : Reply) : list (option (list byte)) :=
  match out_vec r with
  | Some bytes => [Some bytes]
  | None => []
  end.

(** The engine generates two prekeys and fails on the third with
    code 3. *)
Definition prekey_reply : Reply := mkReply CBOX_SUCCESS (Some [x68; x69]) 0 None.
Definition prekey_failure : Reply := mkReply 3 None 0 None.
Definition world_third_prekey_fails : World :=
  set_engine [prekey_reply; prekey_reply; prekey_failure] world0.

(** ** Bookkeeping: registration and [JNI_OnUnload] *)

Module Bookkeeping.

Import Load.
Local Open Scope string_scope.

(** The cache once the ten identifiers whose resolution [JNI_OnLoad]
    tests have been resolved, in the order of the assignments. *)
Definition checked_cache : State :=
  assign_ctor cboxjni_sessmsg_ctor
    (Some ("org/pkaboo/cryptobox/SessionMessage", "<init>",
           "(Lorg/pkaboo/cryptobox/CryptoSession;[B)V"))
  (assign_ctor cboxjni_box_ctor (Some ("org/pkaboo/cryptobox/CryptoBox", "<init>", "(J)V"))
  (assign_ctor cboxjni_sess_ctor
     (Some ("org/pkaboo/cryptobox/CryptoSession", "<init>", "(JLjava/lang/String;)V"))
  (assign_ctor cboxjni_ex_ctor
     (Some ("org/pkaboo/cryptobox/CryptoException", "<init>", "(I)V"))
  (assign_class cboxjni_pkbundle_class (Some "org/pkaboo/cryptobox/PreKey")
  (assign_class cboxjni_bytearr_class (Some "[B")
  (assign_class cboxjni_sessmsg_class (Some "org/pkaboo/cryptobox/SessionMessage")
  (assign_class cboxjni_sess_class (Some "org/pkaboo/cryptobox/CryptoSession")
  (assign_class cboxjni_box_class (Some "org/pkaboo/cryptobox/CryptoBox")
  (assign_class cboxjni_ex_class (Some "org/pkaboo/cryptobox/CryptoException")
     unloaded))))))))).

(** The end of [JNI_OnLoad]: the two registrations. *)
Definition register_tables (rt : Runtime) (s11 : State) : Z * State :=
  let (rc1, s12) := RegisterNatives rt (s_class s11 cboxjni_box_class)
                      cboxjni_box_methods s11 in
  if (rc1 <? 0)%Z then (JNI_ERR, s12) else
  let (rc2, s13) := RegisterNatives rt (s_class s12 cboxjni_sess_class)
                      cboxjni_sess_methods s12 in
  if (rc2 <? 0)%Z then (JNI_ERR, s13) else
  (JNI_VERSION_1_6, s13).

(** [DeleteGlobalRef] removes a reference from the runtime's table of
    global references; [deleted] lists the references deleted so far,
    oldest first. *)
Definition DeleteGlobalRef (c : jclass) (deleted : list string) : list string :=
  match c with
  | Some name => deleted ++ [name]
  | None => deleted
  end.

(** One guarded deletion of [JNI_OnUnload]. *)
Definition unload_class (s : State) (x : ClassVar) (deleted : list string) : list string :=
  if bool_decide (s_class s x <> None) then DeleteGlobalRef (s_class s x) deleted
  else deleted.

(** [JNI_OnUnload] returns nothing; what it does is delete global
    references.  The result is the list of the references it deleted. *)
Definition JNI_OnUnload (rt : Runtime) (s : State) : list string :=
  if negb (rt_get_env rt =? JNI_OK)%Z then [] else
  let d1 := unload_class s cboxjni_ex_class [] in
  let d2 := unload_class s cboxjni_box_class d1 in
  let d3 := unload_class s cboxjni_sess_class d2 in
  let d4 := unload_class s cboxjni_sessmsg_class d3 in
  let d5 := unload_class s cboxjni_bytearr_class d4 in
  let d6 := unload_class s cboxjni_pkbundle_class d5 in
  d6.

(** The names of the six cached classes, in the order in which
    [JNI_OnLoad] creates their global references. *)
Definition class_names : list string :=
  [ "org/pkaboo/cryptobox/CryptoException"; "org/pkaboo/cryptobox/CryptoBox";
    "org/pkaboo/cryptobox/CryptoSession"; "org/pkaboo/cryptobox/SessionMessage";
    "[B"; "org/pkaboo/cryptobox/PreKey" ].

(** The constructors other than that of [PreKey], by class and
    signature. *)
Definition checked_ctors : list (string * string) :=
  [ ("org/pkaboo/cryptobox/CryptoException", "(I)V");
    ("org/pkaboo/cryptobox/CryptoSession", "(JLjava/lang/String;)V");
    ("org/pkaboo/cryptobox/CryptoBox", "(J)V");
    ("org/pkaboo/cryptobox/SessionMessage", "(Lorg/pkaboo/cryptobox/CryptoSession;[B)V") ].

(** The variables of the six cached classes, in the order of
    [class_names]. *)
Definition class_vars : list ClassVar :=
  [ cboxjni_ex_class; cboxjni_box_class; cboxjni_sess_class;
    cboxjni_sessmsg_class; cboxjni_bytearr_class; cboxjni_pkbundle_class ].

(** A runtime that resolves everything and accepts the table of
    [CryptoBox] but not the table of [CryptoSession]. *)
Definition runtime_rejecting_session_table : Runtime :=
  mkRuntime JNI_OK (fun _ => true) (fun _ => true) (fun _ _ _ => true)
    (fun c => String.eqb c "org/pkaboo/cryptobox/CryptoBox").

(** A runtime without the class [SessionMessage]. *)
Definition runtime_without_sessmsg_class : Runtime :=
  mkRuntime JNI_OK (fun c => negb (String.eqb c "org/pkaboo/cryptobox/SessionMessage"))
    (fun _ => true) (fun _ _ _ => true) (fun _ => true).

(** A runtime whose [GetEnv] does not know version 1.6. *)
Definition runtime_wrong_version : Runtime :=
  mkRuntime JNI_EVERSION (fun _ => true) (fun _ => true) (fun _ _ _ => true) (fun _ => true).

End Bookkeeping.

(** ** Native buffers *)

(** The engine hands back a buffer exactly when it reports success. *)
Definition reply_consistent (r : Reply) : bool :=
  match out_vec r with
  | Some _ => rc r =? CBOX_SUCCESS
  | None => negb (rc r =? CBOX_SUCCESS)
  end.

(** Every native buffer that appeared during the call has been freed:
    the buffers of [w] are as they were, followed by [n] dead ones. *)
Definition buffers_freed (n : nat) (w : World) (o : Outcome jref) : Prop :=
  w_vecs (final o) = w_vecs w ++ replicate n None.

(** A runtime that fails the fifth call it is asked for, and an engine
    that generates prekeys. *)
Definition world_runtime_gives_up : World :=
  set_jvm [JOk; JOk; JOk; JOk; JFail true]
    (set_engine [prekey_reply; prekey_reply; prekey_reply] world0).

(** The end of one iteration of the loop of generate-prekeys, once the
    prekey is a managed array; [continue] is the rest of the loop. *)
Definition store_prekey (bundles : jref) (i j_id : Z) (j_prekey : jref)
    (continue : M jref) : M jref :=
  let* j_pkb := NewObject (OPreKey j_id j_prekey) in
  let* err := cboxjni_check_error j_pkb in
  if err then ret NULL
  else
    do* SetObjectArrayElement bundles i j_pkb in
    let* exc := ExceptionCheck in
    if exc then ret NULL
    else continue.

(** * Proofs *)

Arguments deref : simpl never.
Arguments fresh_ref : simpl never.
Arguments store_set : simpl never.
Arguments overwrite : simpl never.
Arguments scribbled_heap : simpl never.
Arguments scribbled_elems : simpl never.
Arguments Int.to_jint : simpl never.
Arguments Int.to_uint32 : simpl never.
Arguments Int.to_uint16 : simpl never.
Arguments Z.of_nat : simpl never.
Arguments Z.to_nat : simpl never.
Arguments Z.ltb : simpl never.
Arguments Z.leb : simpl never.
Arguments Z.eqb : simpl never.
Arguments Z.add : simpl never.
Arguments Z.mul : simpl never.

(** ** Stores *)

Section Stores.
Context {A : Type}.
Implicit Types (store : list A) (r : nat) (x y : A).

Lemma deref_fresh store x : deref (fresh_ref store) (store ++ [x]) = Some x.
Proof. unfold deref, fresh_ref. now apply list_lookup_middle. Qed.

Lemma deref_null store : deref NULL store = None.
Proof. reflexivity. Qed.

Lemma deref_Some_lt store r x : deref r store = Some x -> (0 < r <= length store)%nat.
Proof.
  destruct r as [|k]; unfold deref; [discriminate|].
  intros H. apply lookup_lt_Some in H. lia.
Qed.

Lemma deref_Some_not_fresh store r x : deref r store = Some x -> r <> fresh_ref store.
Proof. intros H%deref_Some_lt. unfold fresh_ref. lia. Qed.

Lemma deref_app store r x y : deref r store = Some x -> deref r (store ++ [y]) = Some x.
Proof.
  destruct r as [|k]; unfold deref; [discriminate|].
  intros H. now apply lookup_app_l_Some.
Qed.

Lemma deref_store_set_ne store r r' y :
  r <> r' -> deref r (store_set r' y store) = deref r store.
Proof.
  destruct r as [|k], r' as [|k']; unfold deref, store_set; try reflexivity.
  intros Hne. apply list_lookup_insert_ne. congruence.
Qed.

Lemma deref_store_set_eq store r x y :
  deref r store = Some x -> deref r (store_set r y store) = Some y.
Proof.
  destruct r as [|k]; unfold deref, store_set; [discriminate|].
  intros H. apply list_lookup_insert_eq. now apply lookup_lt_Some in H.
Qed.

Lemma store_set_fresh store x y : store_set (fresh_ref store) y (store ++ [x]) = store ++ [y].
Proof.
  unfold store_set, fresh_ref.
  replace (length store) with (length store + 0)%nat by lia.
  now rewrite insert_app_r.
Qed.

Lemma length_store_set store r y : length (store_set r y store) = length store.
Proof. destruct r; unfold store_set; [reflexivity | apply length_insert]. Qed.
End Stores.

Lemma overwrite_all (new old : list byte) : length new = length old -> overwrite new old = new.
Proof.
  intros H. unfold overwrite. rewrite H, drop_all, app_nil_r, <- H. apply firstn_all.
Qed.

Lemma borrow_view_app evs1 evs2 :
  borrow_view (evs1 ++ evs2) = borrow_view evs1 ++ borrow_view evs2.
Proof. induction evs1 as [|[] evs1 IH]; simpl; rewrite ?IH; reflexivity. Qed.

Lemma native_calls_app evs1 evs2 :
  native_calls (evs1 ++ evs2) = native_calls evs1 ++ native_calls evs2.
Proof. induction evs1 as [|[] evs1 IH]; simpl; rewrite ?IH; reflexivity. Qed.

Lemma native_calls_borrow_view evs : native_calls (borrow_view evs) = native_calls evs.
Proof. induction evs as [|[] evs IH]; simpl; rewrite ?IH; reflexivity. Qed.

(** ** One step of each collaborator, on an explicit world *)

(** Both sides compute to the same outcome once the answer of the
    collaborator is known. *)
Ltac by_cases :=
  cbv delta [NewObject NewByteArray NewObjectArray SetByteArrayRegion
             SetObjectArrayElement GetStringUTFChars GetByteArrayElements
             ReleaseByteArrayElements ReleaseStringUTFChars GetArrayLength
             ExceptionCheck Throw cbox_vec_len cbox_vec_data cbox_vec_free
             engine_call alloc_obj pop_jvm pop_engine];
  cbv beta iota zeta delta
    [w_pending w_heap w_vecs w_elems w_chars w_pinning w_jvm w_engine w_trace
     set_pending set_heap set_vecs set_elems set_chars set_jvm set_engine log
     fail_with raise has_pending];
  repeat first
    [ reflexivity
    | match goal with
      | |- context [match ?x with _ => _ end] => destruct x
      end ].

Section Steps.
Variables (pend : option Throwable) (heap : list JObj)
  (vecs : list (option (list byte))) (elems : list (option Borrow))
  (chars : list (option jref)) (pin : bool)
  (jvm : list JvmReply) (eng : list Reply) (tr : list Event).

Local Abbreviation W := (mkWorld pend heap vecs elems chars pin jvm eng tr).

(** The world after a failed JNI call. *)
Local Abbreviation failed raises :=
  (mkWorld (if raises then Some RuntimeFailure else pend)
           heap vecs elems chars pin (tl jvm) eng tr).

Lemma ExceptionCheck_run :
  ExceptionCheck W = Done (match pend with Some _ => true | None => false end) W.
Proof. by_cases. Qed.

Lemma NewObject_run o :
  NewObject o W =
  match hd JOk jvm with
  | JOk => Done (fresh_ref heap)
             (mkWorld pend (heap ++ [o]) vecs elems chars pin (tl jvm) eng tr)
  | JFail raises => Done NULL (failed raises)
  end.
Proof. by_cases. Qed.

Lemma NewByteArray_run len :
  NewByteArray len W =
  match hd JOk jvm with
  | JOk =>
      if len <? 0 then Done NULL (failed true)
      else Done (fresh_ref heap)
             (mkWorld pend (heap ++ [OByteArray (replicate (Z.to_nat len) x00)])
                vecs elems chars pin (tl jvm) eng tr)
  | JFail raises => Done NULL (failed raises)
  end.
Proof. by_cases. Qed.

Lemma NewObjectArray_run len :
  NewObjectArray len W =
  match hd JOk jvm with
  | JOk =>
      if len <? 0 then Done NULL (failed true)
      else Done (fresh_ref heap)
             (mkWorld pend (heap ++ [OObjArray (replicate (Z.to_nat len) NULL)])
                vecs elems chars pin (tl jvm) eng tr)
  | JFail raises => Done NULL (failed raises)
  end.
Proof. by_cases. Qed.

Lemma SetByteArrayRegion_run arr start len buf :
  SetByteArrayRegion arr start len buf W =
  match hd JOk jvm with
  | JOk =>
      match deref arr heap with
      | Some (OByteArray old) =>
          if (0 <=? start) && (0 <=? len) && (start + len <=? Z.of_nat (length old))
          then Done tt
                 (mkWorld pend
                    (store_set arr
                       (OByteArray (take (Z.to_nat start) old
                                    ++ overwrite (take (Z.to_nat len) buf)
                                                 (drop (Z.to_nat start) old)))
                       heap)
                    vecs elems chars pin (tl jvm) eng tr)
          else Done tt (failed true)
      | _ => Crash BadReference (mkWorld pend heap vecs elems chars pin (tl jvm) eng tr)
      end
  | JFail _ => Done tt (failed true)
  end.
Proof. by_cases. Qed.

Lemma SetObjectArrayElement_run arr i v :
  SetObjectArrayElement arr i v W =
  match hd JOk jvm with
  | JOk =>
      match deref arr heap with
      | Some (OObjArray els) =>
          if (0 <=? i) && (i <? Z.of_nat (length els))
          then Done tt
                 (mkWorld pend
                    (store_set arr (OObjArray (<[Z.to_nat i := v]> els)) heap)
                    vecs elems chars pin (tl jvm) eng tr)
          else Done tt (failed true)
      | _ => Crash BadReference (mkWorld pend heap vecs elems chars pin (tl jvm) eng tr)
      end
  | JFail _ => Done tt (failed true)
  end.
Proof. by_cases. Qed.

Lemma Throw_run ex :
  Throw ex W =
  Done tt (mkWorld (Some (Thrown ex)) heap vecs elems chars pin jvm eng (EvThrow ex :: tr)).
Proof. by_cases. Qed.

Lemma GetStringUTFChars_run s :
  GetStringUTFChars s W =
  match deref s heap with
  | Some (OString _) =>
      match hd JOk jvm with
      | JOk =>
          Done (fresh_ref chars)
            (mkWorld pend heap vecs elems (chars ++ [Some s]) pin (tl jvm) eng
               (EvGetChars s (fresh_ref chars) :: tr))
      | JFail raises => Done NULL (failed raises)
      end
  | _ => Crash BadReference W
  end.
Proof. by_cases. Qed.

Lemma ReleaseStringUTFChars_run s p :
  ReleaseStringUTFChars s p W =
  match deref p chars with
  | Some (Some _) =>
      Done tt (mkWorld pend heap vecs elems (store_set p None chars) pin jvm eng
                 (EvReleaseChars s p :: tr))
  | _ => Crash UseAfterFree W
  end.
Proof. by_cases. Qed.

Lemma GetArrayLength_run arr :
  GetArrayLength arr W =
  match deref arr heap with
  | Some (OByteArray bytes) => Done (Z.of_nat (length bytes)) W
  | Some (OObjArray els) => Done (Z.of_nat (length els)) W
  | _ => Crash BadReference W
  end.
Proof. by_cases. Qed.

Lemma GetByteArrayElements_run arr :
  GetByteArrayElements arr W =
  match deref arr heap with
  | Some (OByteArray bytes) =>
      match hd JOk jvm with
      | JOk =>
          Done (fresh_ref elems)
            (mkWorld pend heap vecs (elems ++ [Some (mkBorrow arr bytes pin)]) chars pin
               (tl jvm) eng (EvGetElements arr (fresh_ref elems) :: tr))
      | JFail raises => Done NULL (failed raises)
      end
  | _ => Crash BadReference W
  end.
Proof. by_cases. Qed.

(** Releasing with [JNI_ABORT]: the buffer goes, the array stays as
    it is. *)
Lemma ReleaseByteArrayElements_abort_run arr p :
  ReleaseByteArrayElements arr p JNI_ABORT W =
  match deref p elems with
  | Some (Some _) =>
      Done tt (mkWorld pend heap vecs (store_set p None elems) chars pin jvm eng
                 (EvReleaseElements arr p JNI_ABORT :: tr))
  | _ => Crash UseAfterFree W
  end.
Proof.
  unfold ReleaseByteArrayElements.
  cbv beta iota zeta delta [w_elems w_heap set_heap set_elems log].
  destruct (deref p elems) as [[[a bs []]|]|]; reflexivity.
Qed.

Lemma cbox_vec_len_run v :
  cbox_vec_len v W =
  match deref v vecs with
  | Some (Some bytes) => Done (Z.of_nat (length bytes)) W
  | _ => Crash (vec_fault v) W
  end.
Proof. by_cases. Qed.

Lemma cbox_vec_data_run v :
  cbox_vec_data v W =
  match deref v vecs with
  | Some (Some bytes) => Done bytes W
  | _ => Crash (vec_fault v) W
  end.
Proof. by_cases. Qed.

Lemma cbox_vec_free_run v :
  cbox_vec_free v W =
  match deref v vecs with
  | Some (Some _) =>
      Done tt (mkWorld pend heap (store_set v None vecs) elems chars pin jvm eng
                 (EvVecFree v :: tr))
  | _ => Crash (vec_fault v) W
  end.
Proof. by_cases. Qed.

Lemma engine_call_run call buf has_vec :
  engine_call call buf has_vec W =
  let r := hd default_reply eng in
  let heap' := scribbled_heap (scribble r) buf elems heap in
  let elems' := scribbled_elems (scribble r) buf elems in
  match (if has_vec then out_vec r else None) with
  | Some bytes =>
      Done (rc r, fresh_ref vecs, out_sess r)
        (mkWorld pend heap' (vecs ++ [Some bytes]) elems' chars pin jvm (tl eng)
           (EvNative call :: tr))
  | None =>
      Done (rc r, NULL, out_sess r)
        (mkWorld pend heap' vecs elems' chars pin jvm (tl eng) (EvNative call :: tr))
  end.
Proof. by_cases. Qed.
End Steps.

(** The engine's scribbling on the buffer that was borrowed last. *)
Lemma scribbled_heap_fresh new arr old pinned elems heap :
  scribbled_heap new (fresh_ref elems) (elems ++ [Some (mkBorrow arr old pinned)]) heap =
  match new with
  | Some new =>
      if pinned then
        match deref arr heap with
        | Some (OByteArray old') => store_set arr (OByteArray (overwrite new old')) heap
        | _ => heap
        end
      else heap
  | None => heap
  end.
Proof. unfold scribbled_heap. rewrite deref_fresh. reflexivity. Qed.

Lemma scribbled_elems_fresh new arr old pinned elems :
  scribbled_elems new (fresh_ref elems) (elems ++ [Some (mkBorrow arr old pinned)])
  = elems ++ [Some (mkBorrow arr
                      match new with
                      | Some new => if pinned then old else overwrite new old
                      | None => old
                      end
                      pinned)].
Proof.
  unfold scribbled_elems. rewrite deref_fresh.
  destruct new as [new|], pinned; cbn [b_pinned b_array b_bytes];
    rewrite ?store_set_fresh; reflexivity.
Qed.

Lemma scribbled_heap_null new elems heap : scribbled_heap new NULL elems heap = heap.
Proof. unfold scribbled_heap. now destruct new. Qed.

Lemma scribbled_elems_null new elems : scribbled_elems new NULL elems = elems.
Proof. unfold scribbled_elems. now destruct new. Qed.

(** ** Symbolic execution

    The left-hand side of the goal is run one head step at a time: a
    [bind] is opened, the step lemma of the call in front is applied,
    and what is known about the stores and the scripts is used.  The
    continuation stays folded until it is applied. *)

Ltac whnf_lhs :=
  match goal with
  | |- ?l = _ =>
      let l' := eval lazy head beta iota zeta delta
        [bind ret crash cboxjni_check_error
         cbox_new_prekey cbox_fingerprint_local cbox_fingerprint_remote
         cbox_session_init_from_prekey cbox_session_init_from_message
         cbox_encrypt cbox_decrypt
         fst snd orb negb is_null NULL fresh_ref Nat.eqb] in l in
      progress change l with l'
  end.

Ltac use_facts :=
  repeat match goal with
         | H : deref _ _ = _ |- _ => rewrite H
         | H : hd _ _ = _ |- _ => rewrite H
         end.

Ltac rewrite_steps :=
  rewrite ?ExceptionCheck_run, ?NewObject_run, ?NewByteArray_run, ?NewObjectArray_run,
    ?SetByteArrayRegion_run, ?SetObjectArrayElement_run, ?Throw_run,
    ?GetStringUTFChars_run, ?ReleaseStringUTFChars_run, ?GetArrayLength_run,
    ?GetByteArrayElements_run, ?ReleaseByteArrayElements_abort_run,
    ?cbox_vec_len_run, ?cbox_vec_data_run, ?cbox_vec_free_run, ?engine_call_run;
  cbv zeta;
  cbn [rc out_vec out_sess scribble hd tl fst snd];
  rewrite ?scribbled_heap_fresh, ?scribbled_elems_fresh,
    ?scribbled_heap_null, ?scribbled_elems_null,
    ?deref_fresh, ?store_set_fresh, ?deref_null.

Ltac exec := repeat progress (try whnf_lhs; rewrite_steps; use_facts).

(** ** The utilities, run *)

Section Utilities.
Variables (pend : option Throwable) (heap : list JObj)
  (vecs : list (option (list byte))) (elems : list (option Borrow))
  (chars : list (option jref)) (pin : bool)
  (jvm : list JvmReply) (eng : list Reply) (tr : list Event).

Local Abbreviation W := (mkWorld pend heap vecs elems chars pin jvm eng tr).

Lemma cboxjni_throw_run code :
  cboxjni_throw code W =
  match hd JOk jvm with
  | JOk =>
      match pend with
      | Some _ =>
          Done tt (mkWorld pend (heap ++ [OException code]) vecs elems chars pin
                     (tl jvm) eng tr)
      | None =>
          Done tt (mkWorld (Some (Thrown (fresh_ref heap))) (heap ++ [OException code])
                     vecs elems chars pin (tl jvm) eng (EvThrow (fresh_ref heap) :: tr))
      end
  | JFail raises =>
      Done tt (mkWorld (if raises then Some RuntimeFailure else pend) heap
                 vecs elems chars pin (tl jvm) eng tr)
  end.
Proof.
  unfold cboxjni_throw. exec.
  destruct (hd JOk jvm) as [|[]]; exec; [destruct pend; exec; reflexivity | reflexivity |].
  destruct pend; reflexivity.
Qed.

Lemma cboxjni_new_session_run csess j_sid :
  cboxjni_new_session csess j_sid W =
  match hd JOk jvm with
  | JOk =>
      match pend with
      | Some _ =>
          Done NULL (mkWorld pend (heap ++ [OSession csess j_sid]) vecs elems chars pin
                       (tl jvm) eng tr)
      | None =>
          Done (fresh_ref heap)
            (mkWorld None (heap ++ [OSession csess j_sid]) vecs elems chars pin
               (tl jvm) eng tr)
      end
  | JFail raises =>
      Done NULL (mkWorld (if raises then Some RuntimeFailure else pend) heap
                   vecs elems chars pin (tl jvm) eng tr)
  end.
Proof.
  unfold cboxjni_new_session. exec.
  destruct (hd JOk jvm) as [|[]]; exec; [destruct pend; exec; reflexivity | reflexivity |].
  destruct pend; reflexivity.
Qed.

(** The conversion.  [zeros] is the array as [NewByteArray] returns
    it, [len] the length it is asked for. *)
Lemma cboxjni_vec2arr_run v :
  cboxjni_vec2arr v W =
  match deref v vecs with
  | Some (Some bytes) =>
      let len := Int.to_jint (Int.to_uint32 (Z.of_nat (length bytes))) in
      let zeros := replicate (Z.to_nat len) x00 in
      let vecs' := store_set v None vecs in
      let tr' := EvVecFree v :: tr in
      match hd JOk jvm with
      | JOk =>
          if len <? 0
          then Done NULL (mkWorld (Some RuntimeFailure) heap vecs' elems chars pin
                            (tl jvm) eng tr')
          else
            match pend with
            | Some _ =>
                Done NULL (mkWorld pend (heap ++ [OByteArray zeros]) vecs' elems chars pin
                             (tl jvm) eng tr')
            | None =>
                match hd JOk (tl jvm) with
                | JOk =>
                    if (0 <=? 0) && (0 <=? len) && (0 + len <=? Z.of_nat (length zeros))
                    then Done (fresh_ref heap)
                           (mkWorld None
                              (heap ++ [OByteArray
                                          (take (Z.to_nat 0) zeros
                                           ++ overwrite (take (Z.to_nat len) bytes)
                                                        (drop (Z.to_nat 0) zeros))])
                              vecs' elems chars pin (tl (tl jvm)) eng tr')
                    else Done NULL
                           (mkWorld (Some RuntimeFailure) (heap ++ [OByteArray zeros])
                              vecs' elems chars pin (tl (tl jvm)) eng tr')
                | JFail _ =>
                    Done NULL
                      (mkWorld (Some RuntimeFailure) (heap ++ [OByteArray zeros])
                         vecs' elems chars pin (tl (tl jvm)) eng tr')
                end
            end
      | JFail raises =>
          Done NULL (mkWorld (if raises then Some RuntimeFailure else pend) heap
                       vecs' elems chars pin (tl jvm) eng tr')
      end
  | _ => Crash (vec_fault v) W
  end.
Proof.
  unfold cboxjni_vec2arr. cbv zeta. exec.
  destruct (deref v vecs) as [[bytes|]|] eqn:Hv; exec; [ | reflexivity ..].
  destruct (hd JOk jvm) as [|[]] eqn:E1; exec.
  - destruct (_ <? 0); exec; [reflexivity|].
    destruct pend; exec; [reflexivity|].
    destruct (hd JOk (tl jvm)) as [|[]] eqn:E2; exec; try reflexivity.
    destruct (_ && _); exec; reflexivity.
  - reflexivity.
  - destruct pend; exec; reflexivity.
Qed.
End Utilities.

(** ** Frames *)

Lemma frame_refl w : frame w w.
Proof. split; try reflexivity; [now exists [] | auto]. Qed.

Lemma frame_trans w1 w2 w3 : frame w1 w2 -> frame w2 w3 -> frame w1 w3.
Proof.
  intros [e1 c1 g1 p1 (evs1 & t1 & v1) h1] [e2 c2 g2 p2 (evs2 & t2 & v2) h2].
  split; try congruence; [|auto].
  exists (evs2 ++ evs1). rewrite t2, t1, app_assoc, borrow_view_app, v1, v2. auto.
Qed.

Lemma frame_native_calls w w' :
  frame w w' -> native_calls (w_trace w') = native_calls (w_trace w).
Proof.
  intros [_ _ _ _ (evs & -> & Hv) _].
  now rewrite native_calls_app, <- (native_calls_borrow_view evs), Hv.
Qed.

Lemma frame_array_bytes arr bytes w w' :
  frame w w' -> array_bytes arr w = Some bytes -> array_bytes arr w' = Some bytes.
Proof.
  intros Hf. unfold array_bytes.
  destruct (deref arr (w_heap w)) as [[]|] eqn:Harr; try discriminate.
  now rewrite (fr_heap _ _ Hf _ _ Harr).
Qed.

(** A frame whose heap is the old one with objects appended, the last
    of them possibly rewritten. *)
Ltac frame_now :=
  split; cbn [final w_elems w_chars w_engine w_pinning w_trace w_heap];
  [ reflexivity | reflexivity | reflexivity | reflexivity
  | first [ now exists [] | now eexists [_] | now eexists [_; _] ]
  | intros ? ? ?; auto using deref_app ].

Lemma NewObject_frame o w : frame w (final (NewObject o w)).
Proof.
  destruct w as [pend heap vecs elems chars pin jvm eng tr]. rewrite NewObject_run.
  destruct (hd JOk jvm) as [|[]]; frame_now.
Qed.

Lemma cboxjni_throw_frame code w : frame w (final (cboxjni_throw code w)).
Proof.
  destruct w as [pend heap vecs elems chars pin jvm eng tr]. rewrite cboxjni_throw_run.
  destruct (hd JOk jvm) as [|[]], pend; frame_now.
Qed.

Lemma cboxjni_new_session_frame csess sid w :
  frame w (final (cboxjni_new_session csess sid w)).
Proof.
  destruct w as [pend heap vecs elems chars pin jvm eng tr].
  rewrite cboxjni_new_session_run.
  destruct (hd JOk jvm) as [|[]], pend; frame_now.
Qed.

Lemma cboxjni_vec2arr_frame v w : frame w (final (cboxjni_vec2arr v w)).
Proof.
  destruct w as [pend heap vecs elems chars pin jvm eng tr].
  rewrite cboxjni_vec2arr_run. cbv zeta.
  destruct (deref v vecs) as [[bytes|]|]; try apply frame_refl.
  destruct (hd JOk jvm) as [|[]]; [|frame_now..].
  destruct (_ <? 0); [frame_now|].
  destruct pend; [frame_now|].
  destruct (hd JOk (tl jvm)); [destruct (_ && _)|]; frame_now.
Qed.

Lemma frame_bind {A B : Type} (m : M A) (k : A -> M B) w :
  frame w (final (m w)) ->
  (forall a w', frame w' (final (k a w'))) ->
  frame w (final (bind m k w)).
Proof.
  intros Hm Hk. unfold bind. destruct (m w) as [a w'|f w']; [|exact Hm].
  eapply frame_trans; [exact Hm | apply Hk].
Qed.

Lemma raise_and_fail_frame code w : frame w (final (raise_and_fail code w)).
Proof.
  apply frame_bind; [apply cboxjni_throw_frame | intros; apply frame_refl].
Qed.

Lemma build_session_message_frame sess j_sid plain w :
  frame w (final (build_session_message sess j_sid plain w)).
Proof.
  apply frame_bind; [apply cboxjni_new_session_frame | intros j_sess w1].
  apply frame_bind; [apply cboxjni_vec2arr_frame | intros j_plaintext w2].
  destruct (is_null j_plaintext); [apply frame_refl|].
  apply frame_bind; [apply NewObject_frame | intros; apply frame_refl].
Qed.

(** ** The native-to-managed conversion *)

(** The conversion raises nothing of its own: afterwards the pending
    exception is the one from before or one of the runtime's. *)
Lemma cboxjni_vec2arr_pending v w :
  let w' := final (cboxjni_vec2arr v w) in
  w_pending w' = w_pending w \/ w_pending w' = Some RuntimeFailure.
Proof.
  destruct w as [pend heap vecs elems chars pin jvm eng tr].
  rewrite cboxjni_vec2arr_run. cbv zeta.
  destruct (deref v vecs) as [[bytes|]|]; cbn; auto.
  destruct (hd JOk jvm) as [|[]]; cbn; auto.
  destruct (_ <? 0); cbn; auto.
  destruct pend; cbn; auto.
  destruct (hd JOk (tl jvm)); [destruct (_ && _)|]; cbn; auto.
Qed.

Lemma failure_code_after_vec2arr v w :
  w_pending w = None -> failure_code (final (cboxjni_vec2arr v w)) = None.
Proof.
  intros Hp. unfold failure_code.
  destruct (cboxjni_vec2arr_pending v w) as [H|H]; rewrite H, ?Hp; reflexivity.
Qed.

Lemma cboxjni_vec2arr_null w : cboxjni_vec2arr NULL w = Crash NullDeref w.
Proof. destruct w. now rewrite cboxjni_vec2arr_run. Qed.

(** When the runtime cooperates, the conversion returns a fresh managed
    array holding the bytes of the buffer. *)
Lemma cboxjni_vec2arr_ok v bytes pend heap vecs elems chars pin jvm eng tr :
  deref v vecs = Some (Some bytes) ->
  fits_array bytes = true ->
  pend = None ->
  next_ok 2 jvm = true ->
  cboxjni_vec2arr v (mkWorld pend heap vecs elems chars pin jvm eng tr) =
    Done (fresh_ref heap)
         (mkWorld None (heap ++ [OByteArray bytes]) (store_set v None vecs)
            elems chars pin (tl (tl jvm)) eng (EvVecFree v :: tr)).
Proof.
  intros Hv Hfit -> Hjvm. apply Z.leb_le in Hfit.
  assert (Hmax : Int.max_jint = 2147483647) by reflexivity.
  cbn [next_ok] in Hjvm.
  apply andb_true_iff in Hjvm as [H1 H2]. apply andb_true_iff in H2 as [H2 _].
  destruct (hd JOk jvm) eqn:E1; [|discriminate].
  destruct (hd JOk (tl jvm)) eqn:E2; [|discriminate].
  rewrite cboxjni_vec2arr_run, Hv, E1, E2. cbv zeta.
  rewrite Int.to_uint32_id, Int.to_jint_id
    by (unfold Int.is_jint, Int.min_jint, Int.max_jint; lia).
  rewrite length_replicate, Nat2Z.id.
  destruct (Z.ltb_spec (Z.of_nat (length bytes)) 0) as [?|_]; [lia|].
  destruct (Z.leb_spec 0 (Z.of_nat (length bytes))); [|lia].
  destruct (Z.leb_spec (0 + Z.of_nat (length bytes)) (Z.of_nat (length bytes))); [|lia].
  change (0 <=? 0) with true. cbn [andb].
  change (Z.to_nat 0) with 0%nat. rewrite drop_0, firstn_all. cbn [take app].
  rewrite overwrite_all by (now rewrite length_replicate). reflexivity.
Qed.

(** [C3] The conversion frees the native buffer it is handed exactly
    once on every exit path: whatever the runtime answers to the array
    allocation and to the copy, the conversion returns (it does not
    fault on a second free), the only event it adds is one free of the
    buffer, the buffer is dead afterwards and no other buffer is
    touched. *)
Theorem vec2arr_frees_exactly_once (v : ptr) (bytes : list byte) (w : World) :
  deref v (w_vecs w) = Some (Some bytes) ->
  let o := cboxjni_vec2arr v w in
  is_done o = true
  /\ w_trace (final o) = EvVecFree v :: w_trace w
  /\ frees_of v (w_trace (final o)) = S (frees_of v (w_trace w))
  /\ w_vecs (final o) = store_set v None (w_vecs w)
  /\ deref v (w_vecs (final o)) = Some None.
Proof.
  intros Hlive.
  assert (Hone : forall tr, frees_of v (EvVecFree v :: tr) = S (frees_of v tr))
    by (intros; cbn [frees_of]; now rewrite Nat.eqb_refl).
  assert (Hdead : deref v (store_set v None (w_vecs w)) = Some None)
    by (eapply deref_store_set_eq; eassumption).
  destruct w as [pend heap vecs elems chars pin jvm eng tr].
  cbn [w_vecs w_trace] in *. cbv zeta.
  rewrite cboxjni_vec2arr_run, Hlive. cbv zeta.
  destruct (hd JOk jvm) as [|[]]; [|cbn [final is_done w_trace w_vecs]; auto..].
  destruct (_ <? 0); [cbn [final is_done w_trace w_vecs]; auto|].
  destruct pend; [cbn [final is_done w_trace w_vecs]; auto|].
  destruct (hd JOk (tl jvm)); [destruct (_ && _)|];
    cbn [final is_done w_trace w_vecs]; auto.
Qed.

Lemma vec2arr_frees_exactly_once_witness :
  deref 1%nat (w_vecs world_copy_fails) = Some (Some [x68; x69])
  /\ is_done (cboxjni_vec2arr 1%nat world_copy_fails) = true
  /\ w_trace (final (cboxjni_vec2arr 1%nat world_copy_fails))
     = EvVecFree 1%nat :: w_trace world_copy_fails
  /\ frees_of 1%nat (w_trace (final (cboxjni_vec2arr 1%nat world_copy_fails)))
     = S (frees_of 1%nat (w_trace world_copy_fails))
  /\ w_vecs (final (cboxjni_vec2arr 1%nat world_copy_fails))
     = store_set 1%nat None (w_vecs world_copy_fails)
  /\ deref 1%nat (w_vecs (final (cboxjni_vec2arr 1%nat world_copy_fails))) = Some None.
Proof.
  split; [reflexivity|].
  apply (vec2arr_frees_exactly_once 1%nat [x68; x69] world_copy_fails).
  reflexivity.
Defined.

(** ** Fingerprints *)

(** [C8] Both fingerprint entry points drop the engine's result code
    and hand the output pointer to the conversion as it is.  Whenever
    the engine leaves that pointer null, whatever [code] it reports,
    the entry point neither returns nor raises anything: the conversion
    reads the length of the null buffer and the process faults. *)
Theorem fingerprint_null_buffer_dereferenced
    (h code os : Z) (sc : option (list byte)) (rest : list Reply) (w : World) :
  cboxjni_local_fingerprint h (set_engine (mkReply code None os sc :: rest) w)
    = Crash NullDeref (log (EvNative (CallFingerprintLocal h)) (set_engine rest w))
  /\ cboxjni_remote_fingerprint h (set_engine (mkReply code None os sc :: rest) w)
    = Crash NullDeref (log (EvNative (CallFingerprintRemote h)) (set_engine rest w)).
Proof.
  destruct w as [pend heap vecs elems chars pin jvm eng tr].
  unfold cboxjni_local_fingerprint, cboxjni_remote_fingerprint, set_engine, log.
  cbn [w_pending w_heap w_vecs w_elems w_chars w_pinning w_jvm w_engine w_trace].
  split; exec; apply cboxjni_vec2arr_null.
Qed.

(** ** Encrypt and decrypt *)

Section Session.
Variables (h : Z) (j_sid arr : jref).
Variables (pend : option Throwable) (heap : list JObj)
  (vecs : list (option (list byte))) (elems : list (option Borrow))
  (chars : list (option jref)) (pin : bool)
  (jvm : list JvmReply) (eng : list Reply) (tr : list Event).

Local Abbreviation W := (mkWorld pend heap vecs elems chars pin jvm eng tr).
Local Abbreviation r := (hd default_reply eng).

(** The world after the engine call and the release of the borrow,
    with [old] the contents of the array on entry. *)
Local Abbreviation released call old :=
  (mkWorld None
     (if pin
      then match scribble r with
           | Some new => store_set arr (OByteArray (overwrite new old)) heap
           | None => heap
           end
      else heap)
     match out_vec r with Some bytes => vecs ++ [Some bytes] | None => vecs end
     (elems ++ [None]) chars pin (tl jvm) (tl eng)
     (EvReleaseElements arr (fresh_ref elems) JNI_ABORT
      :: EvNative call :: EvGetElements arr (fresh_ref elems) :: tr)).

(** What both entry points do when the array cannot be borrowed. *)
Local Abbreviation not_borrowed old k :=
  (match hd JOk jvm, pend with
   | JOk, None => k
   | JOk, Some _ =>
       Done NULL
         (mkWorld pend heap vecs (elems ++ [Some (mkBorrow arr old pin)]) chars pin
            (tl jvm) eng (EvGetElements arr (fresh_ref elems) :: tr))
   | JFail b, _ =>
       Done NULL
         (mkWorld (if b then Some RuntimeFailure else pend) heap vecs elems chars pin
            (tl jvm) eng tr)
   end).

(** Encrypt, run up to the conversion: the world the conversion starts
    from and the pointer it is given. *)
Lemma cboxjni_session_encrypt_run :
  cboxjni_session_encrypt h arr W
  = match deref arr heap with
    | Some (OByteArray old) =>
        not_borrowed old
          (cboxjni_vec2arr
             match out_vec r with Some _ => fresh_ref vecs | None => NULL end
             (released
                (CallEncrypt h (fresh_ref elems) (Int.to_uint32 (Z.of_nat (length old))))
                old))
    | _ => Crash BadReference W
    end.
Proof.
  unfold cboxjni_session_encrypt. cbv zeta. exec.
  destruct (deref arr heap) as [[]|] eqn:Harr; exec; [reflexivity | | reflexivity ..].
  destruct (hd JOk jvm) as [|[]] eqn:E1; exec; [ | destruct pend; reflexivity ..].
  destruct pend; exec; [reflexivity|].
  destruct (hd default_reply eng) as [rc0 [] os []] eqn:Er, pin; exec; reflexivity.
Qed.

(** Decrypt, run up to the test of the result code. *)
Lemma cboxjni_session_decrypt_run :
  cboxjni_session_decrypt h arr W
  = match deref arr heap with
    | Some (OByteArray old) =>
        let w1 :=
          released
            (CallDecrypt h (fresh_ref elems) (Int.to_uint32 (Z.of_nat (length old))))
            old in
        not_borrowed old
          (if rc r =? CBOX_SUCCESS
           then cboxjni_vec2arr
                  match out_vec r with Some _ => fresh_ref vecs | None => NULL end w1
           else raise_and_fail (rc r) w1)
    | _ => Crash BadReference W
    end.
Proof.
  unfold cboxjni_session_decrypt, raise_and_fail. cbv zeta. exec.
  destruct (deref arr heap) as [[]|] eqn:Harr; exec; [reflexivity | | reflexivity ..].
  destruct (hd JOk jvm) as [|[]] eqn:E1; exec; [ | destruct pend; reflexivity ..].
  destruct pend; exec; [reflexivity|].
  destruct (hd default_reply eng) as [rc0 [] os []] eqn:Er, pin; exec;
    destruct (rc0 =? CBOX_SUCCESS); exec; reflexivity.
Qed.

(** What the two session constructors do before they borrow the
    array: acquire the characters of the session id. *)
Local Abbreviation with_sid k :=
  (match deref j_sid heap with
   | Some (OString _) =>
       match hd JOk jvm, pend with
       | JFail b, _ =>
           Done NULL
             (mkWorld (if b then Some RuntimeFailure else pend) heap vecs elems chars pin
                (tl jvm) eng tr)
       | JOk, Some _ =>
           Done NULL
             (mkWorld pend heap vecs elems (chars ++ [Some j_sid]) pin (tl jvm) eng
                (EvGetChars j_sid (fresh_ref chars) :: tr))
       | JOk, None =>
           match deref arr heap with
           | Some (OByteArray old) =>
               match hd JOk (tl jvm) with
               | JFail b =>
                   Done NULL
                     (mkWorld (if b then Some RuntimeFailure else None) heap vecs elems
                        (chars ++ [None]) pin (tl (tl jvm)) eng
                        (EvReleaseChars j_sid (fresh_ref chars)
                         :: EvGetChars j_sid (fresh_ref chars) :: tr))
               | JOk => k old
               end
           | _ =>
               Crash BadReference
                 (mkWorld None heap vecs elems (chars ++ [Some j_sid]) pin (tl jvm) eng
                    (EvGetChars j_sid (fresh_ref chars) :: tr))
           end
       end
   | _ => Crash BadReference W
   end).

(** The world after the engine call and both releases. *)
Local Abbreviation opened call old vecs' :=
  (mkWorld None
     (if pin
      then match scribble r with
           | Some new => store_set arr (OByteArray (overwrite new old)) heap
           | None => heap
           end
      else heap)
     vecs' (elems ++ [None]) (chars ++ [None]) pin (tl (tl jvm)) (tl eng)
     (EvReleaseChars j_sid (fresh_ref chars)
      :: EvReleaseElements arr (fresh_ref elems) JNI_ABORT
      :: EvNative call
      :: EvGetElements arr (fresh_ref elems)
      :: EvGetChars j_sid (fresh_ref chars) :: tr)).

Lemma cboxjni_init_from_prekey_run :
  cboxjni_init_from_prekey h j_sid arr W
  = with_sid (fun old =>
      let w1 :=
        opened (CallInitFromPrekey h (fresh_ref chars) (fresh_ref elems)
                  (Int.to_uint16 (Z.of_nat (length old))))
               old vecs in
      if rc r =? CBOX_SUCCESS
      then cboxjni_new_session (out_sess r) j_sid w1
      else raise_and_fail (rc r) w1).
Proof.
  unfold cboxjni_init_from_prekey, raise_and_fail. cbv zeta. exec.
  destruct (deref j_sid heap) as [[]|] eqn:Hsid; exec; [ | reflexivity ..].
  destruct (hd JOk jvm) as [|[]] eqn:E1; exec; [ | destruct pend; reflexivity ..].
  destruct pend; exec; [reflexivity|].
  destruct (deref arr heap) as [[]|] eqn:Harr; exec; [reflexivity | | reflexivity ..].
  destruct (hd JOk (tl jvm)) as [|[]] eqn:E2; exec; [ | reflexivity ..].
  destruct (hd default_reply eng) as [rc0 ov os []] eqn:Er, pin; exec;
    destruct (rc0 =? CBOX_SUCCESS); exec; reflexivity.
Qed.

Lemma cboxjni_init_from_message_run :
  cboxjni_init_from_message h j_sid arr W
  = with_sid (fun old =>
      let w1 :=
        opened (CallInitFromMessage h (fresh_ref chars) (fresh_ref elems)
                  (Int.to_uint32 (Z.of_nat (length old))))
               old
               match out_vec r with Some bytes => vecs ++ [Some bytes] | None => vecs end in
      if rc r =? CBOX_SUCCESS
      then build_session_message (out_sess r) j_sid
             match out_vec r with Some _ => fresh_ref vecs | None => NULL end w1
      else raise_and_fail (rc r) w1).
Proof.
  unfold cboxjni_init_from_message, raise_and_fail, build_session_message.
  cbv zeta. exec.
  destruct (deref j_sid heap) as [[]|] eqn:Hsid; exec; [ | reflexivity ..].
  destruct (hd JOk jvm) as [|[]] eqn:E1; exec; [ | destruct pend; reflexivity ..].
  destruct pend; exec; [reflexivity|].
  destruct (deref arr heap) as [[]|] eqn:Harr; exec; [reflexivity | | reflexivity ..].
  destruct (hd JOk (tl jvm)) as [|[]] eqn:E2; exec; [ | reflexivity ..].
  destruct (hd default_reply eng) as [rc0 [] os []] eqn:Er, pin; exec;
    destruct (rc0 =? CBOX_SUCCESS); exec; reflexivity.
Qed.
End Session.

(** [C2] Encrypt does not look at the engine's result code: what it
    returns and what it leaves behind are the same whatever code the
    engine reports.  With a borrowable array, what happens is decided
    by the output pointer alone.  If the engine leaves it null, as a
    failing engine does, the borrow is released and the conversion
    reads the length of the null buffer: the call faults and returns
    nothing.  If the engine hands back a buffer that a managed array
    can hold, the buffer goes to the conversion and is freed, and the
    array holding its bytes is returned exactly when the runtime lets
    the allocation and the copy succeed, the null sentinel otherwise;
    this is so also when the code is not the success code. *)
Theorem encrypt_ignores_result_code
    (h : Z) (arr : jref) (code code' os : Z) (ov sc : option (list byte))
    (rest : list Reply) (w : World) :
  let o := cboxjni_session_encrypt h arr (set_engine (mkReply code ov os sc :: rest) w) in
  let o' := cboxjni_session_encrypt h arr (set_engine (mkReply code' ov os sc :: rest) w) in
  verdict o = verdict o'
  /\ visible (final o) = visible (final o')
  /\ (borrowable arr w = true ->
      (ov = None ->
         verdict o = inr NullDeref
         /\ w_elems (final o) = w_elems w ++ [None]
         /\ w_pending (final o) = None)
      /\ (forall bytes,
            ov = Some bytes ->
            fits_array bytes = true ->
            exists r,
              returned o = Some r
              /\ (r <> NULL <-> next_ok 2 (tl (w_jvm w)) = true)
              /\ (r <> NULL ->
                  array_bytes r (final o) = Some bytes /\ w_pending (final o) = None)
              /\ w_vecs (final o) = w_vecs w ++ [None]
              /\ w_elems (final o) = w_elems w ++ [None])).
Proof.
  destruct w as [pend heap vecs elems chars pin jvm eng tr].
  unfold set_engine.
  cbn [w_pending w_heap w_vecs w_elems w_chars w_pinning w_jvm w_engine w_trace].
  cbv zeta. rewrite !cboxjni_session_encrypt_run.
  cbn [hd rc out_vec out_sess scribble tl].
  split; [|split].
  - destruct (deref arr heap) as [[]|]; try reflexivity.
    destruct (hd JOk jvm) as [|[]], pend; reflexivity.
  - destruct (deref arr heap) as [[]|]; try reflexivity.
    destruct (hd JOk jvm) as [|[]], pend; reflexivity.
  - intros Hb.
    unfold borrowable, array_bytes, has_pending in Hb.
    cbn [w_pending w_heap w_jvm] in Hb.
    destruct pend; [discriminate|].
    destruct (deref arr heap) as [[| old | | | | | |]|] eqn:Harr; try discriminate.
    destruct (hd JOk jvm) eqn:E1; [|discriminate]. clear Hb.
    set (heap1 := if pin then _ else heap).
    split.
    + intros ->. rewrite cboxjni_vec2arr_null. cbn [verdict final w_elems w_pending]. auto.
    + intros bytes -> Hfit.
      destruct (next_ok 2 (tl jvm)) eqn:Hjvm.
      * rewrite (cboxjni_vec2arr_ok _ bytes); auto using deref_fresh.
        rewrite store_set_fresh.
        cbn [returned final w_pending w_vecs w_elems]. eexists; split; [reflexivity|].
        split; [split; [reflexivity | discriminate]|].
        split; [|auto].
        intros _. unfold array_bytes. cbn [w_heap]. rewrite deref_fresh. auto.
      * rewrite cboxjni_vec2arr_run, deref_fresh, store_set_fresh. cbv zeta.
        cbn [next_ok] in Hjvm. rewrite andb_true_r in Hjvm.
        exists NULL.
        destruct (hd JOk (tl jvm)) as [|[]]; [destruct (_ <? 0)|..];
          [ | destruct (hd JOk (tl (tl jvm))); [discriminate Hjvm|] | | ];
          cbn [returned final w_vecs w_elems];
          (split; [reflexivity|]);
          (split; [split; [intros H; now contradiction H | discriminate]|]);
          (split; [intros H; now contradiction H | auto]).
Qed.

Lemma encrypt_ignores_result_code_witness :
  borrowable 2%nat world_bob = true
  /\ fits_array [x68; x69] = true
  /\ exists r,
       returned (cboxjni_session_encrypt 5 2%nat world_encrypt_fails) = Some r
       /\ (r <> NULL <-> next_ok 2 (tl (w_jvm world_bob)) = true)
       /\ (r <> NULL ->
           array_bytes r (final (cboxjni_session_encrypt 5 2%nat world_encrypt_fails))
           = Some [x68; x69]
           /\ w_pending (final (cboxjni_session_encrypt 5 2%nat world_encrypt_fails)) = None)
       /\ w_vecs (final (cboxjni_session_encrypt 5 2%nat world_encrypt_fails))
          = w_vecs world_bob ++ [None]
       /\ w_elems (final (cboxjni_session_encrypt 5 2%nat world_encrypt_fails))
          = w_elems world_bob ++ [None].
Proof.
  repeat (split; [reflexivity|]).
  exact (proj2 (proj2 (proj2 (encrypt_ignores_result_code 5 2%nat 7 0 0
                                (Some [x68; x69]) None [] world_bob))
                      eq_refl)
               [x68; x69] eq_refl eq_refl).
Defined.

(** The claim as it stands fails: the array is borrowable, the engine
    fails with code 7 and leaves the output pointer null, and encrypt
    returns no array at all; it faults in the conversion. *)
Lemma encrypt_null_buffer_not_returned :
  let o := cboxjni_session_encrypt 5 2%nat (set_engine [encrypt_failed] world_bob) in
  borrowable 2%nat world_bob = true
  /\ rc encrypt_failed <> CBOX_SUCCESS
  /\ verdict o = inr NullDeref
  /\ returned o = None
  /\ ~ (exists a, returned o = Some a).
Proof.
  cbv zeta. split; [reflexivity|]. split; [discriminate|].
  split; [reflexivity|]. split; [reflexivity|].
  intros (a & Ha). discriminate Ha.
Qed.

(** [C5] Decrypt with a borrowable ciphertext array.  If the engine
    reports a code other than success, the null sentinel is returned,
    and a Failure Object carrying that code is raised exactly when the
    runtime constructs it; if the construction fails nothing carrying
    the code is pending.  A Failure Object is never raised on the
    success code: there the plaintext buffer goes to the conversion,
    whose array is returned when the runtime cooperates. *)
Theorem decrypt_raises_iff_native_failure
    (h : Z) (arr : jref) (r : Reply) (rest : list Reply) (w : World) :
  borrowable arr w = true ->
  let o := cboxjni_session_decrypt h arr (set_engine (r :: rest) w) in
  ((failure_code (final o) = Some (rc r) /\ returned o = Some NULL)
     <-> (rc r <> CBOX_SUCCESS /\ hd JOk (tl (w_jvm w)) = JOk))
  /\ (rc r <> CBOX_SUCCESS -> returned o = Some NULL)
  /\ (rc r <> CBOX_SUCCESS -> hd JOk (tl (w_jvm w)) <> JOk -> failure_code (final o) = None)
  /\ (rc r = CBOX_SUCCESS -> failure_code (final o) = None)
  /\ (rc r = CBOX_SUCCESS ->
      forall bytes,
        out_vec r = Some bytes ->
        fits_array bytes = true ->
        next_ok 3 (w_jvm w) = true ->
        exists a, returned o = Some a /\ a <> NULL
                  /\ array_bytes a (final o) = Some bytes
                  /\ w_pending (final o) = None).
Proof.
  destruct w as [pend heap vecs elems chars pin jvm eng tr], r as [rc0 ov os sc].
  intros Hb. unfold set_engine.
  cbn [w_pending w_heap w_vecs w_elems w_chars w_pinning w_jvm w_engine w_trace].
  cbv zeta. rewrite cboxjni_session_decrypt_run.
  cbn [hd rc out_vec out_sess scribble tl]. cbv zeta.
  unfold borrowable, array_bytes, has_pending in Hb. cbn [w_pending w_heap w_jvm] in Hb.
  destruct pend; [discriminate|].
  destruct (deref arr heap) as [[| old | | | | | |]|] eqn:Harr; try discriminate.
  destruct (hd JOk jvm) eqn:E1; [|discriminate]. clear Hb.
  destruct (Z.eqb_spec rc0 CBOX_SUCCESS) as [Heq|Hne].
  - (* success: the conversion decides *)
    split; [|split; [|split; [|split]]]; try (intros; contradiction).
    + rewrite failure_code_after_vec2arr by reflexivity.
      split; [intros [? _]; discriminate | intros [? _]; contradiction].
    + intros _. now apply failure_code_after_vec2arr.
    + intros _ bytes -> Hfit Hjvm.
      cbn [next_ok] in Hjvm. apply andb_true_iff in Hjvm as [_ Hjvm].
      rewrite (cboxjni_vec2arr_ok _ bytes); auto using deref_fresh.
      cbn [returned final w_pending]. eexists; split; [reflexivity|].
      split; [discriminate|].
      unfold array_bytes. cbn [w_heap]. rewrite deref_fresh. auto.
  - (* failure: raise and return the null sentinel *)
    unfold raise_and_fail, bind, ret. rewrite cboxjni_throw_run.
    cbn [w_jvm].
    destruct (hd JOk (tl jvm)) as [|b] eqn:E2; cbn [final returned].
    + unfold failure_code. cbn [w_pending w_heap]. rewrite deref_fresh.
      repeat split; auto; try contradiction; congruence.
    + unfold failure_code. cbn [w_pending].
      split; [|split; [|split; [|split]]]; try contradiction; auto.
      * split; [destruct b; intros [? _]; discriminate | intros [_ ?]; discriminate].
      * destruct b; reflexivity.
Qed.

Lemma decrypt_raises_iff_native_failure_witness :
  borrowable 2%nat world_bob = true
  /\ (rc decrypt_rejected <> CBOX_SUCCESS ->
      returned (cboxjni_session_decrypt 5 2%nat (set_engine [decrypt_rejected] world_bob))
      = Some NULL).
Proof.
  split; [reflexivity|].
  exact (proj1 (proj2 (decrypt_raises_iff_native_failure 5 2%nat decrypt_rejected []
                         world_bob eq_refl))).
Defined.

(** The claim without the proviso fails: the engine rejects the
    ciphertext, the runtime cannot construct the exception object, and
    decrypt returns the null sentinel with no Failure Object pending. *)
Lemma decrypt_failure_object_not_raised :
  let o := cboxjni_session_decrypt 5 2%nat (set_engine [decrypt_rejected] world_no_memory) in
  borrowable 2%nat world_no_memory = true
  /\ rc decrypt_rejected <> CBOX_SUCCESS
  /\ returned o = Some NULL
  /\ failure_code (final o) = None
  /\ ~ ((failure_code (final o) = Some (rc decrypt_rejected) /\ returned o = Some NULL)
        <-> rc decrypt_rejected <> CBOX_SUCCESS).
Proof.
  cbv zeta.
  assert (Hne : rc decrypt_rejected <> CBOX_SUCCESS) by discriminate.
  repeat split; try reflexivity; try exact Hne.
  intros [_ H]. destruct (H Hne) as [Hcode _]. discriminate Hcode.
Qed.

(** ** Opening a session *)

(** [C7] When the session id has been acquired and the runtime then
    refuses the byte-array borrow, session-from-prekey and
    session-from-message return the null sentinel, make no call into
    the engine (its script is untouched and no call is logged), and
    release the string they had acquired: the only events are the
    acquisition and the release of the string's characters, and no
    string borrow is left outstanding. *)
Theorem init_without_borrow_releases_sid
    (h : Z) (j_sid arr : jref) (raises : bool) (w : World) :
  is_string j_sid w = true ->
  is_Some (array_bytes arr w) ->
  w_pending w = None ->
  hd JOk (w_jvm w) = JOk ->
  hd JOk (tl (w_jvm w)) = JFail raises ->
  let sid := fresh_ref (w_chars w) in
  let released (o : Outcome jref) :=
    returned o = Some NULL
    /\ w_engine (final o) = w_engine w
    /\ native_calls (w_trace (final o)) = native_calls (w_trace w)
    /\ w_trace (final o) = EvReleaseChars j_sid sid :: EvGetChars j_sid sid :: w_trace w
    /\ w_chars (final o) = w_chars w ++ [None]
    /\ w_elems (final o) = w_elems w in
  released (cboxjni_init_from_prekey h j_sid arr w)
  /\ released (cboxjni_init_from_message h j_sid arr w).
Proof.
  destruct w as [pend heap vecs elems chars pin jvm eng tr].
  unfold is_string, array_bytes.
  cbn [w_pending w_heap w_vecs w_elems w_chars w_pinning w_jvm w_engine w_trace].
  intros Hsid Harr -> E1 E2. cbv zeta.
  rewrite cboxjni_init_from_prekey_run, cboxjni_init_from_message_run.
  destruct (deref j_sid heap) as [[]|]; try discriminate.
  destruct (deref arr heap) as [[]|]; try (destruct Harr; discriminate).
  rewrite E1, E2.
  cbn [final returned w_engine w_trace w_chars w_elems native_calls].
  repeat split; reflexivity.
Qed.

Lemma init_without_borrow_releases_sid_witness :
  is_string 1%nat world_borrow_refused = true
  /\ returned (cboxjni_init_from_prekey 5 1%nat 2%nat world_borrow_refused) = Some NULL
  /\ w_trace (final (cboxjni_init_from_message 5 1%nat 2%nat world_borrow_refused))
     = [EvReleaseChars 1%nat 1%nat; EvGetChars 1%nat 1%nat].
Proof.
  pose proof (init_without_borrow_releases_sid 5 1%nat 2%nat false world_borrow_refused
                eq_refl (ex_intro _ _ eq_refl) eq_refl eq_refl eq_refl) as [Hp Hm].
  split; [reflexivity|]. split.
  - exact (proj1 Hp).
  - exact (proj1 (proj2 (proj2 (proj2 Hm)))).
Defined.

(** [C10] Session-from-prekey keeps the length of the prekey array in a
    16-bit unsigned variable: the length it passes to the engine is the
    length of the array modulo 2^16, which is the length itself below
    65536 and differs from it from 65536 on.  The call is made all the
    same. *)
Theorem init_from_prekey_truncates_length
    (h : Z) (j_sid arr : jref) (bytes : list byte) (w : World) :
  is_string j_sid w = true ->
  array_bytes arr w = Some bytes ->
  w_pending w = None ->
  next_ok 2 (w_jvm w) = true ->
  let len := Z.of_nat (length bytes) in
  let o := cboxjni_init_from_prekey h j_sid arr w in
  native_calls (w_trace (final o))
  = CallInitFromPrekey h (fresh_ref (w_chars w)) (fresh_ref (w_elems w)) (len mod 65536)
    :: native_calls (w_trace w)
  /\ 0 <= len mod 65536 < 65536
  /\ (len < 65536 -> len mod 65536 = len)
  /\ (65536 <= len -> len mod 65536 <> len).
Proof.
  destruct w as [pend heap vecs elems chars pin jvm eng tr].
  unfold is_string, array_bytes.
  cbn [w_pending w_heap w_vecs w_elems w_chars w_pinning w_jvm w_engine w_trace].
  intros Hsid Harr -> Hjvm. cbv zeta.
  pose proof (Z.mod_pos_bound (Z.of_nat (length bytes)) 65536 eq_refl) as Hmod.
  split; [|split; [exact Hmod | split]].
  - rewrite cboxjni_init_from_prekey_run.
    destruct (deref j_sid heap) as [[]|]; try discriminate.
    destruct (deref arr heap) as [[| old | | | | | |]|]; try discriminate.
    injection Harr as ->.
    cbn [next_ok] in Hjvm. apply andb_true_iff in Hjvm as [H1 H2].
    apply andb_true_iff in H2 as [H2 _].
    destruct (hd JOk jvm); [|discriminate]. destruct (hd JOk (tl jvm)); [|discriminate].
    cbv zeta.
    match goal with
    | |- native_calls (w_trace (final (if _ then ?f ?w1 else ?g ?w1))) = _ =>
        assert (Hf : frame w1 (final (if rc (hd default_reply eng) =? CBOX_SUCCESS
                                      then f w1 else g w1)))
          by (destruct (_ =? _);
              [apply cboxjni_new_session_frame | apply raise_and_fail_frame])
    end.
    rewrite (frame_native_calls _ _ Hf). reflexivity.
  - intros Hlt. apply Z.mod_small. lia.
  - intros Hge. lia.
Qed.

Lemma init_from_prekey_truncates_length_witness :
  is_string 1%nat world_bob = true
  /\ array_bytes 2%nat world_bob = Some [x01; x02; x03]
  /\ native_calls (w_trace (final (cboxjni_init_from_prekey 5 1%nat 2%nat world_bob)))
     = [CallInitFromPrekey 5 1%nat 1%nat 3].
Proof.
  split; [reflexivity|]. split; [reflexivity|].
  exact (proj1 (init_from_prekey_truncates_length 5 1%nat 2%nat [x01; x02; x03] world_bob
                  eq_refl eq_refl eq_refl eq_refl)).
Defined.

(** ** Borrowed arrays *)

Lemma borrow_view_after_frame w w1 wf evs1 :
  frame w1 wf ->
  w_trace w1 = evs1 ++ w_trace w ->
  exists evs, w_trace wf = evs ++ w_trace w /\ borrow_view evs = borrow_view evs1.
Proof.
  intros [_ _ _ _ (evs' & Ht & Hv) _] H1.
  exists (evs' ++ evs1). rewrite Ht, H1, app_assoc, borrow_view_app, Hv. auto.
Qed.

(** A run that ends right away, having logged at most string events. *)
Ltac leaf_now :=
  split;
  [ unfold borrow_discipline; cbn [final w_trace w_elems];
    first [ exists []; split; [reflexivity|]
          | eexists [_]; split; [reflexivity|]
          | eexists [_; _]; split; [reflexivity|] ];
    cbn [borrow_view];
    first [ left; split; reflexivity | right; left; split; reflexivity ]
  | unfold array_untouched; cbn [final]; unfold array_bytes; cbn [w_heap]; auto ].

(** A run that called the engine, released the borrow and went on with
    work on the managed side only. *)
Lemma released_then_frame arr call old w w1 o evs1 :
  frame w1 (final o) ->
  array_bytes arr w = Some old ->
  w_trace w1 = evs1 ++ w_trace w ->
  borrow_view evs1
  = [EvReleaseElements arr (fresh_ref (w_elems w)) JNI_ABORT; EvNative call;
     EvGetElements arr (fresh_ref (w_elems w))] ->
  w_elems w1 = w_elems w ++ [None] ->
  (input_protected w -> w_heap w1 = w_heap w) ->
  borrow_discipline arr w o /\ array_untouched arr w o.
Proof.
  intros Hf Hold Htr Hview Hel Hheap. split.
  - destruct (borrow_view_after_frame _ _ _ _ Hf Htr) as (evs & He & Hv).
    exists evs. split; [exact He|]. right. right. exists call.
    now rewrite Hv, (fr_elems _ _ Hf), Hel.
  - intros bytes Hb Hprot. apply (frame_array_bytes _ _ _ _ Hf).
    unfold array_bytes in *. now rewrite (Hheap Hprot).
Qed.

Section Kept.
Variables (h : Z) (j_sid arr : jref).
Variables (pend : option Throwable) (heap : list JObj)
  (vecs : list (option (list byte))) (elems : list (option Borrow))
  (chars : list (option jref)) (pin : bool)
  (jvm : list JvmReply) (eng : list Reply) (tr : list Event).

Local Abbreviation W := (mkWorld pend heap vecs elems chars pin jvm eng tr).
Local Abbreviation kept o := (borrow_discipline arr W o /\ array_untouched arr W o).

Lemma protected_heap old :
  input_protected W ->
  (if pin
   then match scribble (hd default_reply eng) with
        | Some new => store_set arr (OByteArray (overwrite new old)) heap
        | None => heap
        end
   else heap) = heap.
Proof.
  intros [Hp|Hs]; cbn [w_pinning w_engine] in *; [now rewrite Hp|].
  rewrite Hs. now destruct pin.
Qed.

(** The tail of an entry point, after the release. *)
Ltac tail_now call framed :=
  eapply (released_then_frame arr call);
  [ framed
  | unfold array_bytes; cbn [w_heap];
    match goal with H : deref arr heap = _ |- _ => rewrite H end; reflexivity
  | cbn [w_trace];
    first [ instantiate (1 := [_; _; _]); reflexivity
          | instantiate (1 := [_; _; _; _; _]); reflexivity ]
  | reflexivity
  | reflexivity
  | cbn [w_heap]; apply protected_heap ].

Lemma encrypt_kept : kept (cboxjni_session_encrypt h arr W).
Proof.
  rewrite cboxjni_session_encrypt_run.
  destruct (deref arr heap) as [[| old | | | | | |]|] eqn:Harr; try leaf_now.
  destruct (hd JOk jvm) as [|[]] eqn:E1; [destruct pend as [t|] | leaf_now ..].
  - leaf_now.
  - tail_now (CallEncrypt h (fresh_ref elems) (Int.to_uint32 (Z.of_nat (length old))))
             ltac:(apply cboxjni_vec2arr_frame).
Qed.

Lemma decrypt_kept : kept (cboxjni_session_decrypt h arr W).
Proof.
  rewrite cboxjni_session_decrypt_run. cbv zeta.
  destruct (deref arr heap) as [[| old | | | | | |]|] eqn:Harr; try leaf_now.
  destruct (hd JOk jvm) as [|[]] eqn:E1; [destruct pend as [t|] | leaf_now ..].
  - leaf_now.
  - tail_now (CallDecrypt h (fresh_ref elems) (Int.to_uint32 (Z.of_nat (length old))))
             ltac:(destruct (_ =? _);
                   [apply cboxjni_vec2arr_frame | apply raise_and_fail_frame]).
Qed.

Lemma init_from_prekey_kept : kept (cboxjni_init_from_prekey h j_sid arr W).
Proof.
  rewrite cboxjni_init_from_prekey_run. cbv zeta.
  destruct (deref j_sid heap) as [[]|] eqn:Hsid; try leaf_now.
  destruct (hd JOk jvm) as [|[]] eqn:E1; [destruct pend as [t|] | leaf_now ..].
  - leaf_now.
  - destruct (deref arr heap) as [[| old | | | | | |]|] eqn:Harr; try leaf_now.
    destruct (hd JOk (tl jvm)) as [|[]] eqn:E2; [ | leaf_now ..].
    tail_now (CallInitFromPrekey h (fresh_ref chars) (fresh_ref elems)
                (Int.to_uint16 (Z.of_nat (length old))))
             ltac:(destruct (_ =? _);
                   [apply cboxjni_new_session_frame | apply raise_and_fail_frame]).
Qed.

Lemma init_from_message_kept : kept (cboxjni_init_from_message h j_sid arr W).
Proof.
  rewrite cboxjni_init_from_message_run. cbv zeta.
  destruct (deref j_sid heap) as [[]|] eqn:Hsid; try leaf_now.
  destruct (hd JOk jvm) as [|[]] eqn:E1; [destruct pend as [t|] | leaf_now ..].
  - leaf_now.
  - destruct (deref arr heap) as [[| old | | | | | |]|] eqn:Harr; try leaf_now.
    destruct (hd JOk (tl jvm)) as [|[]] eqn:E2; [ | leaf_now ..].
    tail_now (CallInitFromMessage h (fresh_ref chars) (fresh_ref elems)
                (Int.to_uint32 (Z.of_nat (length old))))
             ltac:(destruct (_ =? _);
                   [apply build_session_message_frame | apply raise_and_fail_frame]).
Qed.
End Kept.

(** [C6] Encrypt, decrypt, session-from-prekey and session-from-message
    borrow the caller's byte array at most once; whenever they call the
    engine, they release the borrow right after the call with
    [JNI_ABORT], so nothing the engine wrote into the buffer is copied
    back, and no borrow is left outstanding.  The contents of the
    caller's array are the same afterwards, provided the engine could
    not reach the array itself (the runtime copied, or the engine left
    its input alone). *)
Theorem borrow_released_without_write_back (h : Z) (j_sid arr : jref) (w : World) :
  (borrow_discipline arr w (cboxjni_session_encrypt h arr w)
   /\ array_untouched arr w (cboxjni_session_encrypt h arr w))
  /\ (borrow_discipline arr w (cboxjni_session_decrypt h arr w)
      /\ array_untouched arr w (cboxjni_session_decrypt h arr w))
  /\ (borrow_discipline arr w (cboxjni_init_from_prekey h j_sid arr w)
      /\ array_untouched arr w (cboxjni_init_from_prekey h j_sid arr w))
  /\ (borrow_discipline arr w (cboxjni_init_from_message h j_sid arr w)
      /\ array_untouched arr w (cboxjni_init_from_message h j_sid arr w)).
Proof.
  destruct w as [pend heap vecs elems chars pin jvm eng tr].
  split; [apply encrypt_kept|].
  split; [apply decrypt_kept|].
  split; [apply init_from_prekey_kept | apply init_from_message_kept].
Qed.

(** The engine overwrites the buffer it is given; the caller's array
    still holds its three bytes after encrypt. *)
Lemma borrow_released_without_write_back_witness :
  array_bytes 2%nat world_scribbling = Some [x01; x02; x03]
  /\ input_protected world_scribbling
  /\ array_bytes 2%nat (final (cboxjni_session_encrypt 5 2%nat world_scribbling))
     = Some [x01; x02; x03].
Proof.
  split; [reflexivity|]. split; [left; reflexivity|].
  exact (proj2 (proj1 (borrow_released_without_write_back 5 1%nat 2%nat world_scribbling))
               [x01; x02; x03] eq_refl (or_introl eq_refl)).
Defined.

(** ** Session from message: the unchecked session wrapper *)

(** An object found at a reference that pointed nowhere before one
    object was appended is that object. *)
Lemma deref_snoc_new {A : Type} (r : nat) (store : list A) (x y : A) :
  deref r store = None -> deref r (store ++ [x]) = Some y -> y = x.
Proof.
  destruct r as [|k]; unfold deref; [discriminate|].
  intros Hn Hs. apply lookup_ge_None in Hn.
  rewrite lookup_app_r in Hs by exact Hn.
  destruct (k - length store)%nat; cbn in Hs; [congruence | discriminate].
Qed.

(** [C9] In session-from-message, after the engine succeeded, the result
    of constructing the session wrapper is not checked before the
    plaintext goes to the conversion.  If the construction fails and
    leaves an exception pending, as a failing [NewObject] does, the
    conversion sees the pending exception: the plaintext buffer is
    freed, exactly once, without being copied, and the entry point
    returns the null sentinel.  The runtime is asked for the array and
    for nothing after it, and no array that is new holds anything but
    the zeros it was allocated with.  Only if the construction
    returned null with nothing pending does the entry point convert
    the plaintext and return a Session-and-Plaintext pair whose
    session component is null. *)
Theorem init_from_message_session_unchecked
    (h : Z) (j_sid arr : jref) (bytes : list byte) (r : Reply) (rest : list Reply)
    (w : World) :
  is_string j_sid w = true ->
  is_Some (array_bytes arr w) ->
  w_pending w = None ->
  next_ok 2 (w_jvm w) = true ->
  rc r = CBOX_SUCCESS ->
  out_vec r = Some bytes ->
  let o := cboxjni_init_from_message h j_sid arr (set_engine (r :: rest) w) in
  let plain := fresh_ref (w_vecs w) in
  let construction := hd JOk (tl (tl (w_jvm w))) in
  (construction = JFail true ->
     returned o = Some NULL
     /\ w_pending (final o) = Some RuntimeFailure
     /\ w_vecs (final o) = w_vecs w ++ [None]
     /\ frees_of plain (w_trace (final o)) = S (frees_of plain (w_trace w))
     /\ w_jvm (final o) = tl (tl (tl (tl (w_jvm w))))
     /\ (forall a bs,
           deref a (w_heap w) = None ->
           array_bytes a (final o) = Some bs ->
           bs = replicate (length bs) x00))
  /\ (construction = JFail false ->
      fits_array bytes = true ->
      next_ok 3 (tl (tl (tl (w_jvm w)))) = true ->
      exists pair j_plaintext,
        returned o = Some pair
        /\ deref pair (w_heap (final o)) = Some (OSessionMessage NULL j_plaintext)
        /\ array_bytes j_plaintext (final o) = Some bytes
        /\ w_vecs (final o) = w_vecs w ++ [None]
        /\ w_pending (final o) = None).
Proof.
  destruct w as [pend heap vecs elems chars pin jvm eng tr], r as [rc0 ov os sc].
  unfold is_string, array_bytes, set_engine.
  cbn [w_pending w_heap w_vecs w_elems w_chars w_pinning w_jvm w_engine w_trace
       rc out_vec].
  intros Hsid Harr -> Hjvm -> ->. cbv zeta.
  rewrite cboxjni_init_from_message_run.
  destruct (deref j_sid heap) as [[]|]; try discriminate.
  destruct (deref arr heap) as [[| old | | | | | |]|] eqn:Hd; try (destruct Harr; discriminate).
  cbn [next_ok] in Hjvm. apply andb_true_iff in Hjvm as [H1 H2].
  apply andb_true_iff in H2 as [H2 _].
  destruct (hd JOk jvm); [|discriminate]. destruct (hd JOk (tl jvm)); [|discriminate].
  cbn [hd tl rc out_vec out_sess scribble]. cbv zeta.
  change (CBOX_SUCCESS =? CBOX_SUCCESS) with true. cbv iota.
  set (heap1 := if pin then _ else heap).
  assert (Hnew : forall a, deref a heap = None -> deref a heap1 = None).
  { intros a Ha. subst heap1. destruct pin, sc; try exact Ha.
    rewrite deref_store_set_ne; [exact Ha | congruence]. }
  unfold build_session_message, bind.
  rewrite cboxjni_new_session_run.
  split.
  - intros ->. rewrite cboxjni_vec2arr_run, deref_fresh, store_set_fresh. cbv zeta.
    assert (Hfree : forall t0, frees_of (fresh_ref vecs) (EvVecFree (fresh_ref vecs) :: 
                      EvReleaseChars j_sid (fresh_ref chars)
                       :: EvReleaseElements arr (fresh_ref elems) JNI_ABORT
                       :: t0) = S (frees_of (fresh_ref vecs) t0))
      by (intros; cbn [frees_of]; now rewrite Nat.eqb_refl).
    assert (Hold : forall a bs,
              deref a heap = None ->
              match deref a heap1 with Some (OByteArray b) => Some b | _ => None end = Some bs ->
              bs = replicate (length bs) x00).
    { intros a bs Ha. rewrite (Hnew a Ha). discriminate. }
    assert (Hzero : forall n a bs,
              deref a heap = None ->
              match deref a (heap1 ++ [OByteArray (replicate n x00)]) with
              | Some (OByteArray b) => Some b
              | _ => None
              end = Some bs ->
              bs = replicate (length bs) x00).
    { intros n a bs Ha Hb.
      destruct (deref a (heap1 ++ [OByteArray (replicate n x00)])) as [ob|] eqn:Hob;
        [|discriminate].
      apply (deref_snoc_new _ _ _ _ (Hnew a Ha)) in Hob. subst ob.
      injection Hb as <-. now rewrite length_replicate. }
    destruct (hd JOk (tl (tl (tl jvm)))) as [|[]]; [destruct (_ <? 0)|..];
      cbn [is_null NULL Nat.eqb ret final returned w_pending w_vecs w_trace w_jvm w_heap];
      rewrite Hfree; cbn [frees_of];
      repeat (split; [reflexivity|]); first [exact Hold | apply Hzero].
  - intros -> Hfit Hjvm.
    rewrite (cboxjni_vec2arr_ok _ bytes);
      [ | apply deref_fresh | assumption | reflexivity
        | cbn [next_ok] in Hjvm |- *;
          apply andb_true_iff in Hjvm as [Ha Hb]; apply andb_true_iff in Hb as [Hb _];
          now rewrite Ha, Hb ].
    change (is_null (fresh_ref heap1)) with false. cbv beta iota.
    rewrite NewObject_run, store_set_fresh.
    cbn [next_ok] in Hjvm.
    apply andb_true_iff in Hjvm as [_ Hjvm]. apply andb_true_iff in Hjvm as [_ Hjvm].
    apply andb_true_iff in Hjvm as [Hc _].
    destruct (hd JOk (tl (tl (tl (tl (tl jvm)))))); [|discriminate].
    cbn [ret final returned w_heap w_vecs w_pending].
    eexists _, _. split; [reflexivity|].
    split; [apply deref_fresh|].
    unfold array_bytes. cbn [w_heap].
    rewrite (deref_app _ _ (OByteArray bytes)) by apply deref_fresh. auto.
Qed.

Lemma init_from_message_session_unchecked_witness :
  is_string 1%nat world_session_null = true
  /\ next_ok 2 (w_jvm world_session_null) = true
  /\ hd JOk (tl (tl (w_jvm world_session_null))) = JFail false
  /\ exists pair j_plaintext,
       returned (cboxjni_init_from_message 5 1%nat 2%nat
                   (set_engine [session_opened] world_session_null)) = Some pair
       /\ deref pair
            (w_heap (final (cboxjni_init_from_message 5 1%nat 2%nat
                              (set_engine [session_opened] world_session_null))))
          = Some (OSessionMessage NULL j_plaintext)
       /\ array_bytes j_plaintext
            (final (cboxjni_init_from_message 5 1%nat 2%nat
                      (set_engine [session_opened] world_session_null)))
          = Some [x68; x69]
       /\ w_vecs (final (cboxjni_init_from_message 5 1%nat 2%nat
                           (set_engine [session_opened] world_session_null)))
          = w_vecs world_session_null ++ [None]
       /\ w_pending (final (cboxjni_init_from_message 5 1%nat 2%nat
                              (set_engine [session_opened] world_session_null)))
          = None.
Proof.
  repeat (split; [reflexivity|]).
  exact (proj2 (init_from_message_session_unchecked 5 1%nat 2%nat [x68; x69]
                  session_opened [] world_session_null
                  eq_refl (ex_intro _ _ eq_refl) eq_refl eq_refl eq_refl eq_refl)
               eq_refl eq_refl eq_refl).
Defined.

(** The claim that a pair with a null session is returned whenever the
    construction of the session wrapper fails does not hold: the
    construction fails by raising, everything after it would succeed,
    and the entry point returns the null sentinel, not a pair. *)
Lemma init_from_message_returns_null_not_pair :
  let o := cboxjni_init_from_message 5 1%nat 2%nat world_session_fails in
  hd JOk (tl (tl (w_jvm world_session_fails))) = JFail true
  /\ next_ok 3 (tl (tl (tl (w_jvm world_session_fails)))) = true
  /\ returned o = Some NULL
  /\ ~ (exists pair j_plaintext,
          returned o = Some pair
          /\ deref pair (w_heap (final o)) = Some (OSessionMessage NULL j_plaintext)).
Proof.
  cbv zeta. repeat (split; [reflexivity|]).
  intros (pair & j_plaintext & Hret & Hpair).
  injection Hret as <-. discriminate Hpair.
Qed.

(** ** Generating prekeys *)

Lemma next_ok_hd n script : next_ok (S n) script = true -> hd JOk script = JOk.
Proof.
  cbn [next_ok]. intros H. apply andb_true_iff in H as [H _].
  now destruct (hd JOk script).
Qed.

Lemma next_ok_tl n script : next_ok (S n) script = true -> next_ok n (tl script) = true.
Proof. cbn [next_ok]. intros H. now apply andb_true_iff in H as [_ H]. Qed.

Lemma next_ok_le n m script : (m <= n)%nat -> next_ok n script = true -> next_ok m script = true.
Proof.
  revert n script. induction m as [|m IH]; intros n script Hle H; [reflexivity|].
  destruct n as [|n]; [lia|]. cbn [next_ok] in *.
  apply andb_true_iff in H as [H1 H2]. rewrite H1. cbn [andb].
  apply (IH n); [lia | exact H2].
Qed.

Section PrekeyLoop.
Variables (cbox j_start : Z) (bundles : jref).
Variables (elems : list (option Borrow)) (chars : list (option jref)) (pin : bool).

(** One iteration of the loop when every step succeeds: the buffer of
    the engine becomes a managed array, the bundle is built around it
    and stored at index [i]. *)
Lemma new_prekeys_loop_step todo i els heap vecs jvm eng tr :
  next_ok 4 jvm = true ->
  yields_buffer (hd default_reply eng) = true ->
  deref bundles heap = Some (OObjArray els) ->
  0 <= i < Z.of_nat (length els) ->
  exists bytes,
    new_prekeys_loop (S todo) cbox j_start bundles i
      (mkWorld None heap vecs elems chars pin jvm eng tr)
    = new_prekeys_loop todo cbox j_start bundles (i + 1)
        (mkWorld None
           (store_set bundles
              (OObjArray (<[Z.to_nat i := fresh_ref (heap ++ [OByteArray bytes])]> els))
              ((heap ++ [OByteArray bytes])
               ++ [OPreKey (Int.to_jint (j_start + i)) (fresh_ref heap)]))
           (vecs ++ [None]) elems chars pin (tl (tl (tl (tl jvm)))) (tl eng)
           (EvVecFree (fresh_ref vecs)
            :: EvNative (CallNewPrekey cbox (Int.to_jint (j_start + i))) :: tr)).
Proof.
  intros Hjvm Heng Hb Hi.
  unfold yields_buffer in Heng. apply andb_true_iff in Heng as [Hrc Hvec].
  destruct (hd default_reply eng) as [rc0 [bytes|] os sc] eqn:Er;
    cbn [rc out_vec] in Hrc, Hvec; [|discriminate].
  exists bytes.
  pose proof (next_ok_hd _ _ Hjvm) as E1.
  pose proof (next_ok_hd _ _ (next_ok_tl _ _ Hjvm)) as E2.
  pose proof (next_ok_hd _ _ (next_ok_tl _ _ (next_ok_tl _ _ Hjvm))) as E3.
  pose proof (next_ok_hd _ _ (next_ok_tl _ _ (next_ok_tl _ _ (next_ok_tl _ _ Hjvm)))) as E4.
  cbn [new_prekeys_loop]. cbv zeta. exec.
  rewrite Hrc. exec.
  rewrite (cboxjni_vec2arr_ok _ bytes);
    [ | apply deref_fresh | assumption | reflexivity
      | cbn [next_ok]; now rewrite E1, E2 ].
  exec.
  rewrite (deref_app _ _ (OObjArray els))
    by (apply deref_app; exact Hb).
  destruct (Z.leb_spec 0 i); [|lia].
  destruct (Z.ltb_spec i (Z.of_nat (length els))); [|lia].
  cbn [andb]. exec. reflexivity.
Qed.

(** The loop invariant: once [todo] iterations have run from index
    [i], the array holds, from [i] on, bundles with the ids
    [j_start + i], [j_start + i + 1], ...; what was stored before [i]
    and every other object is as before. *)
Lemma new_prekeys_loop_ok todo :
  forall i els heap vecs jvm eng tr,
    next_ok (4 * todo) jvm = true ->
    engine_next_ok todo eng = true ->
    deref bundles heap = Some (OObjArray els) ->
    0 <= i ->
    (Z.to_nat i + todo <= length els)%nat ->
    (forall k, (k < todo)%nat -> Int.is_jint (j_start + i + Z.of_nat k)) ->
    exists w' els',
      new_prekeys_loop todo cbox j_start bundles i
        (mkWorld None heap vecs elems chars pin jvm eng tr) = Done bundles w'
      /\ w_pending w' = None
      /\ deref bundles (w_heap w') = Some (OObjArray els')
      /\ length els' = length els
      /\ (forall k, (k < Z.to_nat i)%nat -> els' !! k = els !! k)
      /\ (forall k, (k < todo)%nat ->
           exists ref key,
             els' !! (Z.to_nat i + k)%nat = Some ref
             /\ deref ref (w_heap w') = Some (OPreKey (j_start + i + Z.of_nat k) key))
      /\ (forall ref o, ref <> bundles ->
           deref ref heap = Some o -> deref ref (w_heap w') = Some o).
Proof.
  induction todo as [|todo IH]; intros i els heap vecs jvm eng tr Hjvm Heng Hb Hi Hlen Hid.
  - exists (mkWorld None heap vecs elems chars pin jvm eng tr), els.
    cbn [new_prekeys_loop ret w_pending w_heap].
    repeat split; auto. intros k Hk. lia.
  - assert (Hjvm4 : next_ok 4 jvm = true) by (apply (next_ok_le (4 * S todo)); [lia | exact Hjvm]).
    cbn [engine_next_ok] in Heng. apply andb_true_iff in Heng as [Heng1 Heng2].
    destruct (new_prekeys_loop_step todo i els heap vecs jvm eng tr Hjvm4 Heng1 Hb)
      as (bytes & Hstep); [lia|].
    rewrite Hstep. clear Hstep.
    set (key := fresh_ref heap).
    set (ref := fresh_ref (heap ++ [OByteArray bytes])).
    set (heap2 := (heap ++ [OByteArray bytes]) ++ [OPreKey (Int.to_jint (j_start + i)) key]).
    assert (Hb2 : deref bundles heap2 = Some (OObjArray els))
      by (apply deref_app, deref_app, Hb).
    assert (Hne : ref <> bundles).
    { intros Heq. apply deref_Some_lt in Hb. unfold ref, fresh_ref in Heq.
      rewrite length_app in Heq. cbn [length] in Heq. lia. }
    assert (Hjvm' : next_ok (4 * todo) (tl (tl (tl (tl jvm)))) = true).
    { replace (4 * S todo)%nat with (S (S (S (S (4 * todo))))) in Hjvm by lia.
      now do 4 apply next_ok_tl in Hjvm. }
    destruct (IH (i + 1) (<[Z.to_nat i := ref]> els)
                (store_set bundles (OObjArray (<[Z.to_nat i := ref]> els)) heap2)
                (vecs ++ [None]) (tl (tl (tl (tl jvm)))) (tl eng)
                (EvVecFree (fresh_ref vecs)
                 :: EvNative (CallNewPrekey cbox (Int.to_jint (j_start + i))) :: tr))
      as (w' & els' & Hrun & Hpend & Hb' & Hlen' & Hpre & Hnew & Hmono).
    + exact Hjvm'.
    + exact Heng2.
    + eapply deref_store_set_eq. exact Hb2.
    + lia.
    + rewrite length_insert. lia.
    + intros k Hk. replace (j_start + (i + 1) + Z.of_nat k)
        with (j_start + i + Z.of_nat (S k)) by lia. apply Hid. lia.
    + exists w', els'. split; [exact Hrun|]. split; [exact Hpend|].
      split; [exact Hb'|]. split; [now rewrite Hlen', length_insert|].
      assert (Hsucc : Z.to_nat (i + 1) = S (Z.to_nat i)) by lia.
      split; [|split].
      * intros k Hk. rewrite Hpre by lia. apply list_lookup_insert_ne. lia.
      * intros [|k] Hk.
        -- exists ref, key. split.
           ++ rewrite Nat.add_0_r, Hpre by lia.
              apply list_lookup_insert_eq. unfold jref in *. lia.
           ++ apply Hmono; [exact Hne|].
              rewrite deref_store_set_ne by exact Hne.
              unfold ref, heap2. rewrite deref_fresh.
              rewrite Int.to_jint_id, Z.add_0_r; [reflexivity|].
              specialize (Hid 0%nat ltac:(lia)). now rewrite Z.add_0_r in Hid.
        -- destruct (Hnew k ltac:(lia)) as (ref' & key' & Hl & Hd).
           exists ref', key'. split.
           ++ rewrite <- Hl. f_equal. lia.
           ++ rewrite Hd. do 2 f_equal. lia.
      * intros ref0 o Hne0 Hd0. apply Hmono; [exact Hne0|].
        rewrite deref_store_set_ne by exact Hne0.
        apply deref_app, deref_app, Hd0.
Qed.
End PrekeyLoop.

Lemma ids_from_lookup start count k :
  (k < count)%nat -> ids_from start count !! k = Some (start + Z.of_nat k).
Proof.
  intros Hk. unfold ids_from. rewrite list_lookup_fmap, lookup_seq_lt by exact Hk.
  reflexivity.
Qed.

Lemma length_ids_from start count : length (ids_from start count) = count.
Proof. unfold ids_from. now rewrite length_map, length_seq. Qed.

Lemma ids_from_ascending start count i j x y :
  (i < j)%nat ->
  ids_from start count !! i = Some x ->
  ids_from start count !! j = Some y ->
  x < y.
Proof.
  intros Hij Hx Hy.
  assert (Hj : (j < count)%nat)
    by (apply lookup_lt_Some in Hy; now rewrite length_ids_from in Hy).
  rewrite ids_from_lookup in Hx, Hy by lia.
  injection Hx as <-. injection Hy as <-. lia.
Qed.

(** [C4] Generate-prekeys, when every step succeeds and the last id
    [start + count - 1] is still a 32-bit id: the entry point returns an
    array of exactly [count] bundles whose ids are [start],
    [start + 1], ..., [start + count - 1], in this order, which is
    ascending; for [count = 0] the array is empty, and it is an array,
    not the null sentinel. *)
Theorem new_prekeys_ids (cbox start count : Z) (w : World) :
  0 <= count ->
  Int.is_jint start ->
  start + count - 1 <= Int.max_jint ->
  all_succeed (Z.to_nat count) w = true ->
  exists arr w',
    cboxjni_new_prekeys cbox start count w = Done arr w'
    /\ arr <> NULL
    /\ w_pending w' = None
    /\ bundle_ids arr w' = Some (ids_from start (Z.to_nat count))
    /\ length (ids_from start (Z.to_nat count)) = Z.to_nat count
    /\ (forall i j x y,
          (i < j)%nat ->
          ids_from start (Z.to_nat count) !! i = Some x ->
          ids_from start (Z.to_nat count) !! j = Some y ->
          x < y)
    /\ (count = 0 -> bundle_ids arr w' = Some []).
Proof.
  intros Hcount Hstart Hlast Hok.
  destruct w as [pend heap vecs elems chars pin jvm eng tr].
  unfold all_succeed, has_pending in Hok. cbn [w_pending w_jvm w_engine] in Hok.
  apply andb_true_iff in Hok as [Hok Heng]. apply andb_true_iff in Hok as [Hpend Hjvm].
  destruct pend; [discriminate|]. clear Hpend.
  pose proof (next_ok_hd _ _ Hjvm) as E1.
  apply next_ok_tl in Hjvm.
  assert (Hentry :
    cboxjni_new_prekeys cbox start count
      (mkWorld None heap vecs elems chars pin jvm eng tr)
    = new_prekeys_loop (Z.to_nat count) cbox start (fresh_ref heap) 0
        (mkWorld None (heap ++ [OObjArray (replicate (Z.to_nat count) NULL)])
           vecs elems chars pin (tl jvm) eng tr)).
  { unfold cboxjni_new_prekeys. cbv zeta. exec.
    destruct (Z.ltb_spec count 0) as [?|_]; [lia|]. exec. reflexivity. }
  rewrite Hentry. clear Hentry.
  set (n := Z.to_nat count) in *.
  set (bundles := fresh_ref heap).
  destruct (new_prekeys_loop_ok cbox start bundles elems chars pin n 0
              (replicate n NULL) (heap ++ [OObjArray (replicate n NULL)])
              vecs (tl jvm) eng tr)
    as (w' & els' & Hrun & Hpend & Hb' & Hlen' & _ & Hnew & _).
  - exact Hjvm.
  - exact Heng.
  - apply deref_fresh.
  - lia.
  - rewrite length_replicate. change (Z.to_nat 0) with 0%nat. lia.
  - intros k Hk. unfold Int.is_jint, Int.min_jint, Int.max_jint in *. lia.
  - exists bundles, w'. split; [exact Hrun|]. split; [discriminate|].
    split; [exact Hpend|].
    assert (Hids : bundle_ids bundles w' = Some (ids_from start n)).
    { unfold bundle_ids. rewrite Hb'. apply mapM_Some.
      apply Forall2_same_length_lookup_2.
      - now rewrite Hlen', length_replicate, length_ids_from.
      - intros k ref id Hk Hid.
        assert (Hkn : (k < n)%nat)
          by (apply lookup_lt_Some in Hid; now rewrite length_ids_from in Hid).
        destruct (Hnew k Hkn) as (ref' & key & Hk' & Hd).
        replace (Z.to_nat 0 + k)%nat with k in Hk' by lia.
        unfold jref in *. rewrite Hk in Hk'. injection Hk' as <-.
        rewrite ids_from_lookup in Hid by exact Hkn. injection Hid as <-.
        unfold prekey_id. rewrite Hd. f_equal. lia. }
    split; [exact Hids|]. split; [apply length_ids_from|].
    split; [apply ids_from_ascending|].
    intros ->. exact Hids.
Qed.

Lemma new_prekeys_ids_witness :
  0 <= 3
  /\ Int.is_jint 1
  /\ 1 + 3 - 1 <= Int.max_jint
  /\ all_succeed (Z.to_nat 3) world0 = true
  /\ exists arr w',
       cboxjni_new_prekeys 7 1 3 world0 = Done arr w'
       /\ arr <> NULL
       /\ w_pending w' = None
       /\ bundle_ids arr w' = Some (ids_from 1 (Z.to_nat 3))
       /\ length (ids_from 1 (Z.to_nat 3)) = Z.to_nat 3
       /\ (forall i j x y,
             (i < j)%nat ->
             ids_from 1 (Z.to_nat 3) !! i = Some x ->
             ids_from 1 (Z.to_nat 3) !! j = Some y ->
             x < y)
       /\ (3 = 0 -> bundle_ids arr w' = Some []).
Proof.
  assert (H0 : 0 <= 3) by lia.
  assert (H1 : Int.is_jint 1) by (unfold Int.is_jint, Int.min_jint, Int.max_jint; lia).
  assert (H2 : 1 + 3 - 1 <= Int.max_jint) by (unfold Int.max_jint; lia).
  split; [exact H0|]. split; [exact H1|]. split; [exact H2|]. split; [reflexivity|].
  exact (new_prekeys_ids 7 1 3 world0 H0 H1 H2 eq_refl).
Defined.

(** The bound on the last id cannot be dropped: past the largest 32-bit
    id the addition [j_start + i] wraps, and the second of two bundles
    generated from [2147483647] carries the id [-2147483648]. *)
Lemma new_prekeys_ids_wrap_around :
  let o := cboxjni_new_prekeys 7 2147483647 2 world0 in
  0 <= 2
  /\ Int.is_jint 2147483647
  /\ all_succeed (Z.to_nat 2) world0 = true
  /\ exists arr,
       returned o = Some arr
       /\ bundle_ids arr (final o) = Some [2147483647; -2147483648]
       /\ bundle_ids arr (final o) <> Some (ids_from 2147483647 (Z.to_nat 2)).
Proof.
  cbv zeta. split; [lia|].
  split; [unfold Int.is_jint, Int.min_jint, Int.max_jint; lia|].
  split; [reflexivity|].
  exists 1%nat. split; [reflexivity|]. split; [reflexivity|].
  vm_compute. discriminate.
Qed.

(** ** Loading the library *)

Section OnLoad.
Import Load.
Local Open Scope string_scope.

Variable rt : Runtime.

Lemma load_class_resolved x name s :
  s_pending s = false ->
  rt_find_class rt name && rt_new_global_ref rt name = true ->
  load_class rt x name s = assign_class x (Some name) s.
Proof.
  intros Hp H. apply andb_true_iff in H as [Hf Hg].
  unfold load_class, cboxjni_find_class, FindClass, NewGlobalRef.
  now rewrite Hf, Hp, Hg.
Qed.

Lemma load_class_unresolved x name s :
  s_pending s = false ->
  rt_find_class rt name && rt_new_global_ref rt name = false ->
  s_class (load_class rt x name s) x = None
  /\ s_registered (load_class rt x name s) = s_registered s.
Proof.
  intros Hp H.
  unfold load_class, cboxjni_find_class, FindClass, NewGlobalRef.
  destruct (rt_find_class rt name); cbn [andb] in H.
  - rewrite Hp, H. cbn. now destruct (decide (x = x)).
  - cbn. now destruct (decide (x = x)).
Qed.

Lemma load_ctor_resolved x cls c sig s :
  s_pending s = false ->
  s_class s cls = Some c ->
  rt_get_method rt c "<init>" sig = true ->
  load_ctor rt x cls sig s = assign_ctor x (Some (c, "<init>", sig)) s.
Proof.
  intros Hp Hc H. unfold load_ctor, cboxjni_find_method, GetMethodID.
  now rewrite Hc, H, Hp.
Qed.

Lemma load_ctor_unresolved x cls c sig s :
  s_pending s = false ->
  s_class s cls = Some c ->
  rt_get_method rt c "<init>" sig = false ->
  s_ctor (load_ctor rt x cls sig s) x = None
  /\ s_registered (load_ctor rt x cls sig s) = s_registered s.
Proof.
  intros Hp Hc H. unfold load_ctor, cboxjni_find_method, GetMethodID.
  rewrite Hc, H. cbn. now destruct (decide (x = x)).
Qed.

Ltac whnf_load :=
  match goal with
  | |- aborted ?t =>
      let t' := eval lazy head beta iota zeta delta [JNI_OnLoad] in t in
      change (aborted t')
  end.

Ltac eval_test :=
  match goal with
  | |- context [bool_decide ?p] =>
      let b := eval vm_compute in (bool_decide p) in
      change (bool_decide p) with b
  end.

Ltac class_step name :=
  whnf_load;
  destruct (rt_find_class rt name && rt_new_global_ref rt name) eqn:?;
  [ rewrite (load_class_resolved _ name) by (first [reflexivity | assumption]);
    eval_test
  | match goal with
    | H : _ && _ = false |- aborted (if bool_decide (s_class (load_class rt ?x _ ?s) _ = _) then _ else _) =>
        destruct (load_class_unresolved x name s eq_refl H) as [Hnone Hreg];
        rewrite Hnone; split; [reflexivity | exact Hreg]
    end ].

Ltac ctor_step c sig :=
  whnf_load;
  destruct (rt_get_method rt c "<init>" sig) eqn:?;
  [ rewrite (load_ctor_resolved _ _ c sig) by (first [reflexivity | assumption]);
    eval_test
  | match goal with
    | H : rt_get_method rt c _ sig = false
      |- aborted (if bool_decide (s_ctor (load_ctor rt ?x ?cls _ ?s) _ = _) then _ else _) =>
        destruct (load_ctor_unresolved x cls c sig s eq_refl eq_refl H) as [Hnone Hreg];
        rewrite Hnone; split; [reflexivity | exact Hreg]
    end ].

(** The sibling paths: a failed resolution of any of the ten
    identifiers whose resolution [JNI_OnLoad] tests aborts the load
    with [JNI_ERR] before anything is registered. *)
Lemma JNI_OnLoad_fail_fast_when_checked :
  rt_get_env rt = JNI_OK ->
  resolves_checked rt = false ->
  aborted (JNI_OnLoad rt unloaded).
Proof.
  intros Henv Hres.
  unfold resolves_checked in Hres. cbn [forallb] in Hres.
  whnf_load. rewrite Henv. change (negb (JNI_OK =? JNI_OK)%Z) with false.
  class_step "org/pkaboo/cryptobox/CryptoException".
  class_step "org/pkaboo/cryptobox/CryptoBox".
  class_step "org/pkaboo/cryptobox/CryptoSession".
  class_step "org/pkaboo/cryptobox/SessionMessage".
  class_step "[B".
  class_step "org/pkaboo/cryptobox/PreKey".
  ctor_step "org/pkaboo/cryptobox/CryptoException" "(I)V".
  ctor_step "org/pkaboo/cryptobox/CryptoSession" "(JLjava/lang/String;)V".
  ctor_step "org/pkaboo/cryptobox/CryptoBox" "(J)V".
  ctor_step "org/pkaboo/cryptobox/SessionMessage" "(Lorg/pkaboo/cryptobox/CryptoSession;[B)V".
  repeat match goal with
         | H : _ = true |- _ => rewrite H in Hres; clear H
         end.
  discriminate Hres.
Qed.
End OnLoad.

Section OnLoadBug.
Import Load.
Local Open Scope string_scope.

(** [C1] The eleventh resolution is the exception to fail-fast.  With
    a runtime that resolves everything except the constructor of
    [PreKey], [JNI_OnLoad] does not abort: the test after the
    resolution looks at [cboxjni_sessmsg_ctor] again, so the load
    returns [JNI_VERSION_1_6] with all twelve entry points registered
    and [cboxjni_pkbundle_ctor] left [NULL]. *)
Theorem JNI_OnLoad_accepts_missing_prekey_ctor :
  rt_get_method runtime_without_prekey_ctor "org/pkaboo/cryptobox/PreKey" "<init>" "(I[B)V"
  = false
  /\ fst (JNI_OnLoad runtime_without_prekey_ctor unloaded) = JNI_VERSION_1_6
  /\ s_ctor (snd (JNI_OnLoad runtime_without_prekey_ctor unloaded)) cboxjni_pkbundle_ctor
     = None
  /\ s_registered (snd (JNI_OnLoad runtime_without_prekey_ctor unloaded))
     = all_entry_points
  /\ length all_entry_points = 12%nat.
Proof. repeat split; vm_compute; reflexivity. Qed.

(** With a runtime that resolves everything the load succeeds and the
    cache is complete. *)
Lemma JNI_OnLoad_complete :
  fst (JNI_OnLoad complete_runtime unloaded) = JNI_VERSION_1_6
  /\ s_ctor (snd (JNI_OnLoad complete_runtime unloaded)) cboxjni_pkbundle_ctor
     = Some ("org/pkaboo/cryptobox/PreKey", "<init>", "(I[B)V")
  /\ s_registered (snd (JNI_OnLoad complete_runtime unloaded)) = all_entry_points.
Proof. repeat split; vm_compute; reflexivity. Qed.
End OnLoadBug.

(** * The rest of the bridge *)

(** ** The string entry points, run *)

Ltac whnf_lhs2 :=
  match goal with
  | |- ?l = _ =>
      let l' := eval lazy head beta iota zeta delta
        [bind ret crash cboxjni_check_error
         cbox_file_open cbox_session_get
         fst snd orb negb is_null NULL fresh_ref Nat.eqb] in l in
      progress change l with l'
  end.

Section HandleSteps.
Variables (pend : option Throwable) (heap : list JObj)
  (vecs : list (option (list byte))) (elems : list (option Borrow))
  (chars : list (option jref)) (pin : bool)
  (jvm : list JvmReply) (eng : list Reply) (tr : list Event).

Local Abbreviation W := (mkWorld pend heap vecs elems chars pin jvm eng tr).

Lemma string_call_run str :
  string_call str W =
  match deref str chars with
  | Some (Some _) =>
      Done (rc (hd default_reply eng), out_sess (hd default_reply eng))
        (mkWorld pend heap vecs elems chars pin jvm (tl eng) tr)
  | _ => Crash (chars_fault str) W
  end.
Proof.
  unfold string_call, pop_engine, set_engine.
  cbn [w_pending w_heap w_vecs w_elems w_chars w_pinning w_jvm w_engine w_trace].
  destruct (deref str chars) as [[]|]; reflexivity.
Qed.

Lemma cbox_session_save_run csess :
  cbox_session_save csess W =
  Done (rc (hd default_reply eng)) (mkWorld pend heap vecs elems chars pin jvm (tl eng) tr).
Proof. reflexivity. Qed.
End HandleSteps.

Ltac exec2 :=
  repeat progress (try whnf_lhs2; rewrite ?string_call_run, ?cbox_session_save_run;
                   rewrite_steps; use_facts).

Section Handles.
Variables (h : Z) (j_sid : jref).
Variables (pend : option Throwable) (heap : list JObj)
  (vecs : list (option (list byte))) (elems : list (option Borrow))
  (chars : list (option jref)) (pin : bool)
  (jvm : list JvmReply) (eng : list Reply) (tr : list Event).

Local Abbreviation W := (mkWorld pend heap vecs elems chars pin jvm eng tr).
Local Abbreviation r := (hd default_reply eng).

Lemma wrap_box_run cbox :
  wrap_box cbox W =
  match hd JOk jvm with
  | JOk =>
      match pend with
      | Some _ =>
          Done NULL (mkWorld pend (heap ++ [OBox cbox]) vecs elems chars pin
                       (tl jvm) eng tr)
      | None =>
          Done (fresh_ref heap)
            (mkWorld None (heap ++ [OBox cbox]) vecs elems chars pin (tl jvm) eng tr)
      end
  | JFail raises =>
      Done NULL (mkWorld (if raises then Some RuntimeFailure else pend) heap
                   vecs elems chars pin (tl jvm) eng tr)
  end.
Proof.
  unfold wrap_box. exec.
  destruct (hd JOk jvm) as [|[]]; exec; [destruct pend; exec; reflexivity | reflexivity |].
  destruct pend; reflexivity.
Qed.

(** What both entry points do with the string: acquire its characters,
    call the engine, release them. *)
Local Abbreviation with_string k :=
  (match deref j_sid heap with
   | Some (OString _) =>
       match hd JOk jvm, pend with
       | JFail b, _ =>
           Done NULL
             (mkWorld (if b then Some RuntimeFailure else pend) heap vecs elems chars pin
                (tl jvm) eng tr)
       | JOk, Some _ =>
           Done NULL
             (mkWorld pend heap vecs elems (chars ++ [Some j_sid]) pin (tl jvm) eng
                (EvGetChars j_sid (fresh_ref chars) :: tr))
       | JOk, None =>
           k (mkWorld None heap vecs elems (chars ++ [None]) pin (tl jvm) (tl eng)
                (EvReleaseChars j_sid (fresh_ref chars)
                 :: EvGetChars j_sid (fresh_ref chars) :: tr))
       end
   | _ => Crash BadReference W
   end).

Lemma cboxjni_open_run :
  cboxjni_open j_sid W
  = with_string (fun w1 =>
      if rc r =? CBOX_SUCCESS then wrap_box (out_sess r) w1
      else raise_and_fail (rc r) w1).
Proof.
  unfold cboxjni_open, raise_and_fail, wrap_box. cbv zeta. exec2.
  destruct (deref j_sid heap) as [[]|] eqn:Hsid; exec2; [ | reflexivity ..].
  destruct (hd JOk jvm) as [|[]] eqn:E1; exec2; [ | destruct pend; reflexivity ..].
  destruct pend; exec2; [reflexivity|].
  destruct (hd default_reply eng) as [rc0 ov os sc] eqn:Er; exec2.
  destruct (rc0 =? CBOX_SUCCESS); exec2; reflexivity.
Qed.

Lemma cboxjni_session_get_run :
  cboxjni_session_get h j_sid W
  = with_string (fun w1 =>
      if rc r =? CBOX_SUCCESS then cboxjni_new_session (out_sess r) j_sid w1
      else raise_and_fail (rc r) w1).
Proof.
  unfold cboxjni_session_get, raise_and_fail. cbv zeta. exec2.
  destruct (deref j_sid heap) as [[]|] eqn:Hsid; exec2; [ | reflexivity ..].
  destruct (hd JOk jvm) as [|[]] eqn:E1; exec2; [ | destruct pend; reflexivity ..].
  destruct pend; exec2; [reflexivity|].
  destruct (hd default_reply eng) as [rc0 ov os sc] eqn:Er; exec2.
  destruct (rc0 =? CBOX_SUCCESS); exec2; reflexivity.
Qed.

Lemma cboxjni_session_save_run :
  cboxjni_session_save h W
  = let w1 := mkWorld pend heap vecs elems chars pin jvm (tl eng) tr in
    if rc r =? CBOX_SUCCESS then Done tt w1 else cboxjni_throw (rc r) w1.
Proof.
  unfold cboxjni_session_save. cbv zeta. exec2.
  destruct (rc (hd default_reply eng) =? CBOX_SUCCESS); reflexivity.
Qed.
End Handles.

Lemma cboxjni_vec2arr_done v bytes w :
  deref v (w_vecs w) = Some (Some bytes) -> is_done (cboxjni_vec2arr v w) = true.
Proof.
  destruct w as [pend heap vecs elems chars pin jvm eng tr]. cbn [w_vecs]. intros Hv.
  rewrite cboxjni_vec2arr_run, Hv. cbv zeta.
  destruct (hd JOk jvm) as [|[]]; [|reflexivity..].
  destruct (_ <? 0); [reflexivity|].
  destruct pend; [reflexivity|].
  destruct (hd JOk (tl jvm)); [destruct (_ && _)|]; reflexivity.
Qed.

Lemma raise_and_fail_run code pend heap vecs elems chars pin jvm eng tr :
  raise_and_fail code (mkWorld pend heap vecs elems chars pin jvm eng tr) =
  match hd JOk jvm with
  | JOk =>
      match pend with
      | Some _ =>
          Done NULL (mkWorld pend (heap ++ [OException code]) vecs elems chars pin
                       (tl jvm) eng tr)
      | None =>
          Done NULL (mkWorld (Some (Thrown (fresh_ref heap))) (heap ++ [OException code])
                       vecs elems chars pin (tl jvm) eng (EvThrow (fresh_ref heap) :: tr))
      end
  | JFail raises =>
      Done NULL (mkWorld (if raises then Some RuntimeFailure else pend) heap
                   vecs elems chars pin (tl jvm) eng tr)
  end.
Proof.
  unfold raise_and_fail, bind, ret. rewrite cboxjni_throw_run.
  destruct (hd JOk jvm) as [|[]], pend; reflexivity.
Qed.

(** ** Raising the Failure Object *)

(** [X1] [cboxjni_throw] always returns.  It calls [Throw] exactly when
    no exception is pending on entry and the runtime constructs the
    exception object; the object pending afterwards then carries the
    code.  In every other case the bridge raises nothing: an exception
    that is already pending is not replaced by the bridge, and a failed
    construction leaves no Failure Object. *)
Theorem throw_raises_iff_constructed (code : Z) (w : World) :
  let o := cboxjni_throw code w in
  let raises := negb (has_pending w) && is_ok (hd JOk (w_jvm w)) in
  is_done o = true
  /\ w_trace (final o)
     = (if raises then [EvThrow (fresh_ref (w_heap w))] else []) ++ w_trace w
  /\ (raises = true -> failure_code (final o) = Some code)
  /\ (raises = false -> w_pending (final o) = w_pending w
                        \/ w_pending (final o) = Some RuntimeFailure)
  /\ (forall r ob, deref r (w_heap w) = Some ob -> deref r (w_heap (final o)) = Some ob).
Proof.
  destruct w as [pend heap vecs elems chars pin jvm eng tr]. cbv zeta.
  unfold has_pending, failure_code.
  cbn [w_pending w_heap w_jvm w_trace]. rewrite cboxjni_throw_run.
  destruct (hd JOk jvm) as [|[]], pend as [t|];
    cbn [final is_done w_trace w_pending w_heap negb andb is_ok app];
    rewrite ?deref_fresh;
    (split; [reflexivity|]); (split; [reflexivity|]);
    (split; [try discriminate; reflexivity|]);
    (split; [|intros r ob Hr; auto using deref_app]);
    try discriminate; intros _; auto.
Qed.

Lemma throw_raises_iff_constructed_witness :
  failure_code (final (cboxjni_throw 9 world_bob)) = Some 9.
Proof.
  exact (proj1 (proj2 (proj2 (throw_raises_iff_constructed 9 world_bob))) eq_refl).
Defined.

(** [X2] The conversion of a live native buffer that a Java array can
    hold always returns.  It returns an array exactly when no exception
    is pending on entry and the runtime lets both the allocation and the
    copy succeed; the array is then a new object holding exactly the
    bytes of the buffer, and nothing is pending.  In every other case it
    returns the null sentinel.  No object that existed before is
    changed. *)
Theorem vec2arr_returns_copy_or_null (v : ptr) (bytes : list byte) (w : World) :
  deref v (w_vecs w) = Some (Some bytes) ->
  fits_array bytes = true ->
  let o := cboxjni_vec2arr v w in
  exists a,
    returned o = Some a
    /\ (a <> NULL <-> w_pending w = None /\ next_ok 2 (w_jvm w) = true)
    /\ (a <> NULL ->
        array_bytes a (final o) = Some bytes
        /\ deref a (w_heap w) = None
        /\ w_pending (final o) = None)
    /\ (forall r ob, deref r (w_heap w) = Some ob -> deref r (w_heap (final o)) = Some ob).
Proof.
  intros Hv Hfit. cbv zeta.
  pose proof (fr_heap _ _ (cboxjni_vec2arr_frame v w)) as Hframe.
  destruct w as [pend heap vecs elems chars pin jvm eng tr].
  cbn [w_vecs w_pending w_jvm w_heap] in *.
  destruct pend as [t|].
  - (* an exception is pending on entry *)
    revert Hframe. rewrite cboxjni_vec2arr_run, Hv. cbv zeta. intros Hframe.
    exists NULL.
    destruct (hd JOk jvm) as [|[]]; [destruct (_ <? 0)|..];
      cbn [returned final] in *;
      (split; [reflexivity|]);
      (split; [split; [intros H; now contradiction H | intros [H _]; discriminate H]|]);
      (split; [intros H; now contradiction H | exact Hframe]).
  - destruct (next_ok 2 jvm) eqn:Hjvm.
    + revert Hframe.
      rewrite (cboxjni_vec2arr_ok _ bytes) by auto. intros Hframe.
      exists (fresh_ref heap). cbn [returned final w_pending w_heap] in *.
      split; [reflexivity|]. split; [split; [auto | discriminate]|].
      split; [|exact Hframe].
      intros _. unfold array_bytes. cbn [w_heap]. rewrite deref_fresh.
      split; [reflexivity|]. split; [|reflexivity].
      destruct (deref (fresh_ref heap) heap) eqn:Hd; [|reflexivity].
      now apply deref_Some_not_fresh in Hd.
    + revert Hframe. rewrite cboxjni_vec2arr_run, Hv. cbv zeta. intros Hframe.
      cbn [next_ok] in Hjvm. rewrite andb_true_r in Hjvm.
      exists NULL.
      destruct (hd JOk jvm) as [|[]]; [destruct (_ <? 0)|..];
        [ | destruct (hd JOk (tl jvm)); [discriminate Hjvm|] | | ];
        cbn [returned final] in *;
        (split; [reflexivity|]);
        (split; [split; [intros H; now contradiction H | intros [_ H]; discriminate H]|]);
        (split; [intros H; now contradiction H | exact Hframe]).
Qed.

Lemma vec2arr_returns_copy_or_null_witness :
  deref 1%nat (w_vecs world_vec) = Some (Some [x68; x69])
  /\ fits_array [x68; x69] = true
  /\ exists a,
       returned (cboxjni_vec2arr 1%nat world_vec) = Some a
       /\ (a <> NULL <-> w_pending world_vec = None /\ next_ok 2 (w_jvm world_vec) = true)
       /\ (a <> NULL ->
           array_bytes a (final (cboxjni_vec2arr 1%nat world_vec)) = Some [x68; x69]
           /\ deref a (w_heap world_vec) = None
           /\ w_pending (final (cboxjni_vec2arr 1%nat world_vec)) = None)
       /\ (forall r ob, deref r (w_heap world_vec) = Some ob ->
                        deref r (w_heap (final (cboxjni_vec2arr 1%nat world_vec))) = Some ob).
Proof.
  split; [reflexivity|]. split; [reflexivity|].
  exact (vec2arr_returns_copy_or_null 1%nat [x68; x69] world_vec eq_refl eq_refl).
Defined.

(** ** Opening the store, loading and saving a session *)

(** The state of an entry point once the string has been read by the
    engine and released. *)
Ltac string_entry Hsid Hjvm :=
  match goal with
  | |- context [deref ?s ?heap] =>
      destruct (deref s heap) as [[]|]; try discriminate Hsid
  end;
  pose proof (next_ok_hd _ _ Hjvm) as E1;
  pose proof (next_ok_hd _ _ (next_ok_tl _ _ Hjvm)) as E2;
  rewrite E1; cbn [hd tl rc out_sess].

(** [X3] Opening a store.  When the directory string can be read and
    the runtime constructs what it is asked for, the engine is called
    once and the characters of the string are released.  On the success
    code the entry point returns a new [CryptoBox] object that wraps the
    handle the engine handed out, with nothing pending; on any other
    code it returns the null sentinel with a Failure Object carrying the
    code pending, and no [CryptoBox] object is built. *)
Theorem open_wraps_handle_or_raises (j_dir : jref) (r : Reply) (rest : list Reply) (w : World) :
  is_string j_dir w = true ->
  w_pending w = None ->
  next_ok 2 (w_jvm w) = true ->
  let o := cboxjni_open j_dir (set_engine (r :: rest) w) in
  w_engine (final o) = rest
  /\ w_chars (final o) = w_chars w ++ [None]
  /\ (rc r = CBOX_SUCCESS ->
      exists obj,
        returned o = Some obj /\ obj <> NULL
        /\ deref obj (w_heap (final o)) = Some (OBox (out_sess r))
        /\ deref obj (w_heap w) = None
        /\ w_pending (final o) = None)
  /\ (rc r <> CBOX_SUCCESS ->
      returned o = Some NULL
      /\ failure_code (final o) = Some (rc r)
      /\ w_heap (final o) = w_heap w ++ [OException (rc r)]).
Proof.
  destruct w as [pend heap vecs elems chars pin jvm eng tr], r as [rc0 ov os sc].
  unfold is_string, set_engine.
  cbn [w_pending w_heap w_vecs w_elems w_chars w_pinning w_jvm w_engine w_trace rc out_sess].
  intros Hsid -> Hjvm. cbv zeta. rewrite cboxjni_open_run.
  string_entry Hsid Hjvm.
  destruct (Z.eqb_spec rc0 CBOX_SUCCESS) as [Heq|Hne].
  - rewrite wrap_box_run. cbn [w_jvm hd tl]. rewrite E2.
    cbn [final returned w_engine w_chars w_heap w_pending].
    split; [reflexivity|]. split; [reflexivity|]. split; [|intros H; contradiction].
    intros _. exists (fresh_ref heap). split; [reflexivity|]. split; [discriminate|].
    split; [apply deref_fresh|]. split; [|reflexivity].
    destruct (deref (fresh_ref heap) heap) eqn:Hd; [|reflexivity].
    now apply deref_Some_not_fresh in Hd.
  - rewrite raise_and_fail_run. cbn [w_jvm hd tl]. rewrite E2.
    unfold failure_code. cbn [final returned w_engine w_chars w_heap w_pending].
    rewrite deref_fresh.
    split; [reflexivity|]. split; [reflexivity|]. split; [intros H; contradiction|].
    intros _. auto.
Qed.

Lemma open_wraps_handle_or_raises_witness :
  is_string 1%nat world_bob = true
  /\ w_pending world_bob = None
  /\ next_ok 2 (w_jvm world_bob) = true
  /\ exists obj,
       returned (cboxjni_open 1%nat (set_engine [handle_granted] world_bob)) = Some obj
       /\ obj <> NULL
       /\ deref obj (w_heap (final (cboxjni_open 1%nat (set_engine [handle_granted] world_bob))))
          = Some (OBox 77)
       /\ deref obj (w_heap world_bob) = None
       /\ w_pending (final (cboxjni_open 1%nat (set_engine [handle_granted] world_bob))) = None.
Proof.
  repeat (split; [reflexivity|]).
  exact (proj1 (proj2 (proj2 (open_wraps_handle_or_raises 1%nat handle_granted [] world_bob
                                eq_refl eq_refl eq_refl)))
               eq_refl).
Defined.

(** [X4] Loading a session.  When the session id can be read and the
    runtime constructs what it is asked for, the engine is called once
    and the characters of the id are released.  On the success code the
    entry point returns a new [CryptoSession] object that wraps the
    handle the engine handed out together with the id string it was
    given; on any other code it returns the null sentinel with a
    Failure Object carrying the code pending, and no session object is
    built. *)
Theorem session_get_wraps_handle_or_raises
    (h : Z) (j_sid : jref) (r : Reply) (rest : list Reply) (w : World) :
  is_string j_sid w = true ->
  w_pending w = None ->
  next_ok 2 (w_jvm w) = true ->
  let o := cboxjni_session_get h j_sid (set_engine (r :: rest) w) in
  w_engine (final o) = rest
  /\ w_chars (final o) = w_chars w ++ [None]
  /\ (rc r = CBOX_SUCCESS ->
      exists obj,
        returned o = Some obj /\ obj <> NULL
        /\ deref obj (w_heap (final o)) = Some (OSession (out_sess r) j_sid)
        /\ deref obj (w_heap w) = None
        /\ w_pending (final o) = None)
  /\ (rc r <> CBOX_SUCCESS ->
      returned o = Some NULL
      /\ failure_code (final o) = Some (rc r)
      /\ w_heap (final o) = w_heap w ++ [OException (rc r)]).
Proof.
  destruct w as [pend heap vecs elems chars pin jvm eng tr], r as [rc0 ov os sc].
  unfold is_string, set_engine.
  cbn [w_pending w_heap w_vecs w_elems w_chars w_pinning w_jvm w_engine w_trace rc out_sess].
  intros Hsid -> Hjvm. cbv zeta. rewrite cboxjni_session_get_run.
  string_entry Hsid Hjvm.
  destruct (Z.eqb_spec rc0 CBOX_SUCCESS) as [Heq|Hne].
  - rewrite cboxjni_new_session_run. cbn [w_jvm hd tl]. rewrite E2.
    cbn [final returned w_engine w_chars w_heap w_pending].
    split; [reflexivity|]. split; [reflexivity|]. split; [|intros H; contradiction].
    intros _. exists (fresh_ref heap). split; [reflexivity|]. split; [discriminate|].
    split; [apply deref_fresh|]. split; [|reflexivity].
    destruct (deref (fresh_ref heap) heap) eqn:Hd; [|reflexivity].
    now apply deref_Some_not_fresh in Hd.
  - rewrite raise_and_fail_run. cbn [w_jvm hd tl]. rewrite E2.
    unfold failure_code. cbn [final returned w_engine w_chars w_heap w_pending].
    rewrite deref_fresh.
    split; [reflexivity|]. split; [reflexivity|]. split; [intros H; contradiction|].
    intros _. auto.
Qed.

Lemma session_get_wraps_handle_or_raises_witness :
  is_string 1%nat world_bob = true
  /\ w_pending world_bob = None
  /\ next_ok 2 (w_jvm world_bob) = true
  /\ rc handle_refused <> CBOX_SUCCESS
  /\ returned (cboxjni_session_get 5 1%nat (set_engine [handle_refused] world_bob))
     = Some NULL
  /\ failure_code (final (cboxjni_session_get 5 1%nat (set_engine [handle_refused] world_bob)))
     = Some 4.
Proof.
  assert (Hne : rc handle_refused <> CBOX_SUCCESS) by discriminate.
  repeat (split; [reflexivity|]). split; [exact Hne|].
  pose proof (proj2 (proj2 (proj2 (session_get_wraps_handle_or_raises 5 1%nat handle_refused []
                                     world_bob eq_refl eq_refl eq_refl))) Hne) as [H1 [H2 _]].
  split; [exact H1 | exact H2].
Defined.

(** [X5] Saving a session calls the engine once.  On the success code
    the entry point does nothing else: no JNI function is called and
    the world is otherwise as before, whatever was pending.  On any
    other code, when nothing is pending and the runtime constructs the
    exception object, a Failure Object carrying the code is pending
    afterwards; so a Failure Object carrying the engine's code is
    raised exactly when the engine fails. *)
Theorem session_save_raises_iff_engine_fails
    (h : Z) (r : Reply) (rest : list Reply) (w : World) :
  let o := cboxjni_session_save h (set_engine (r :: rest) w) in
  is_done o = true
  /\ w_engine (final o) = rest
  /\ (rc r = CBOX_SUCCESS -> o = Done tt (set_engine rest w))
  /\ (w_pending w = None ->
      hd JOk (w_jvm w) = JOk ->
      (failure_code (final o) = Some (rc r) <-> rc r <> CBOX_SUCCESS)).
Proof.
  destruct w as [pend heap vecs elems chars pin jvm eng tr], r as [rc0 ov os sc].
  unfold set_engine.
  cbn [w_pending w_heap w_vecs w_elems w_chars w_pinning w_jvm w_engine w_trace rc].
  cbv zeta. rewrite cboxjni_session_save_run. cbn [hd tl rc]. cbv zeta.
  destruct (Z.eqb_spec rc0 CBOX_SUCCESS) as [Heq|Hne].
  - cbn [final is_done w_engine]. split; [reflexivity|]. split; [reflexivity|].
    split; [reflexivity|]. intros -> _.
    unfold failure_code. cbn [w_pending].
    split; [discriminate | intros H; contradiction].
  - rewrite cboxjni_throw_run.
    split; [destruct (hd JOk jvm), pend; reflexivity|].
    split; [destruct (hd JOk jvm), pend; reflexivity|].
    split; [intros H; contradiction|].
    intros -> ->. unfold failure_code. cbn [final w_pending w_heap].
    rewrite deref_fresh. split; auto.
Qed.

Lemma session_save_raises_iff_engine_fails_witness :
  rc handle_refused <> CBOX_SUCCESS
  /\ failure_code (final (cboxjni_session_save 5 (set_engine [handle_refused] world_bob)))
     = Some 4.
Proof.
  assert (Hne : rc handle_refused <> CBOX_SUCCESS) by discriminate.
  split; [exact Hne|].
  exact (proj2 (proj2 (proj2 (proj2 (session_save_raises_iff_engine_fails 5 handle_refused []
                                       world_bob))) eq_refl eq_refl) Hne).
Defined.

Lemma wrap_box_frame cbox w : frame w (final (wrap_box cbox w)).
Proof.
  destruct w as [pend heap vecs elems chars pin jvm eng tr]. rewrite wrap_box_run.
  destruct (hd JOk jvm) as [|[]], pend; frame_now.
Qed.

(** ** Borrowed strings *)

(** [X6] When the runtime refuses the characters of the string, each of
    the four entry points that take a string returns the null sentinel
    at once: the engine is not called, nothing is borrowed or logged,
    and no object is built.  The byte array of the two session
    constructors is not even looked at. *)
Theorem string_refused_no_engine_call
    (h : Z) (s arr : jref) (raises : bool) (w : World) :
  is_string s w = true ->
  hd JOk (w_jvm w) = JFail raises ->
  let refused (o : Outcome jref) :=
    returned o = Some NULL
    /\ w_engine (final o) = w_engine w
    /\ w_trace (final o) = w_trace w
    /\ w_chars (final o) = w_chars w
    /\ w_elems (final o) = w_elems w
    /\ w_heap (final o) = w_heap w in
  refused (cboxjni_open s w)
  /\ refused (cboxjni_session_get h s w)
  /\ refused (cboxjni_init_from_prekey h s arr w)
  /\ refused (cboxjni_init_from_message h s arr w).
Proof.
  destruct w as [pend heap vecs elems chars pin jvm eng tr].
  unfold is_string.
  cbn [w_pending w_heap w_vecs w_elems w_chars w_pinning w_jvm w_engine w_trace].
  intros Hsid E1. cbv zeta.
  rewrite cboxjni_open_run, cboxjni_session_get_run,
    cboxjni_init_from_prekey_run, cboxjni_init_from_message_run.
  destruct (deref s heap) as [[]|]; try discriminate Hsid.
  rewrite E1. cbn [final returned w_engine w_trace w_chars w_elems w_heap].
  repeat split; reflexivity.
Qed.

Lemma string_refused_no_engine_call_witness :
  is_string 1%nat world_string_refused = true
  /\ hd JOk (w_jvm world_string_refused) = JFail true
  /\ returned (cboxjni_open 1%nat world_string_refused) = Some NULL
  /\ w_engine (final (cboxjni_init_from_message 5 1%nat 2%nat world_string_refused))
     = w_engine world_string_refused.
Proof.
  pose proof (string_refused_no_engine_call 5 1%nat 2%nat true world_string_refused
                eq_refl eq_refl) as (Hopen & _ & _ & Hmsg).
  split; [reflexivity|]. split; [reflexivity|].
  split; [exact (proj1 Hopen) | exact (proj1 (proj2 Hmsg))].
Defined.

Section Strings.
Variables (h : Z) (s arr : jref).
Variables (pend : option Throwable) (heap : list JObj)
  (vecs : list (option (list byte))) (elems : list (option Borrow))
  (chars : list (option jref)) (pin : bool)
  (jvm : list JvmReply) (eng : list Reply) (tr : list Event).

Local Abbreviation W := (mkWorld pend heap vecs elems chars pin jvm eng tr).

(** The three ways an entry point can end, as [string_discipline]
    lists them. *)
Ltac untouched := left; split; reflexivity.
Ltac leaked := right; right; repeat split; reflexivity.
Ltac released framed :=
  right; left;
  match goal with
  | |- w_chars (final ?o) = _ =>
      let Hf := fresh in
      assert (Hf : exists w1, frame w1 (final o) /\ w_chars w1 = chars ++ [None])
        by (eexists; split; [framed | reflexivity]);
      destruct Hf as (w1 & Hf & Hc); now rewrite (fr_chars _ _ Hf)
  end.

Lemma open_string_discipline : string_discipline s W (cboxjni_open s W).
Proof.
  unfold string_discipline. cbn [w_chars w_engine has_pending w_pending].
  rewrite cboxjni_open_run.
  destruct (deref s heap) as [[]|]; try untouched.
  destruct (hd JOk jvm) as [|[]]; [destruct pend as [t|] | untouched ..].
  - leaked.
  - released ltac:(destruct (_ =? _); [apply wrap_box_frame | apply raise_and_fail_frame]).
Qed.

Lemma session_get_string_discipline :
  string_discipline s W (cboxjni_session_get h s W).
Proof.
  unfold string_discipline. cbn [w_chars w_engine has_pending w_pending].
  rewrite cboxjni_session_get_run.
  destruct (deref s heap) as [[]|]; try untouched.
  destruct (hd JOk jvm) as [|[]]; [destruct pend as [t|] | untouched ..].
  - leaked.
  - released ltac:(destruct (_ =? _);
                   [apply cboxjni_new_session_frame | apply raise_and_fail_frame]).
Qed.

Lemma init_from_prekey_string_discipline :
  is_Some (array_bytes arr W) ->
  string_discipline s W (cboxjni_init_from_prekey h s arr W).
Proof.
  unfold string_discipline, array_bytes.
  cbn [w_chars w_engine has_pending w_pending w_heap]. intros Harr.
  rewrite cboxjni_init_from_prekey_run. cbv zeta.
  destruct (deref s heap) as [[]|]; try untouched.
  destruct (hd JOk jvm) as [|[]]; [destruct pend as [t|] | untouched ..].
  - leaked.
  - destruct (deref arr heap) as [[]|]; try (destruct Harr; discriminate).
    destruct (hd JOk (tl jvm)) as [|[]]; [ | right; left; reflexivity ..].
    released ltac:(destruct (_ =? _);
                   [apply cboxjni_new_session_frame | apply raise_and_fail_frame]).
Qed.

Lemma init_from_message_string_discipline :
  is_Some (array_bytes arr W) ->
  string_discipline s W (cboxjni_init_from_message h s arr W).
Proof.
  unfold string_discipline, array_bytes.
  cbn [w_chars w_engine has_pending w_pending w_heap]. intros Harr.
  rewrite cboxjni_init_from_message_run. cbv zeta.
  destruct (deref s heap) as [[]|]; try untouched.
  destruct (hd JOk jvm) as [|[]]; [destruct pend as [t|] | untouched ..].
  - leaked.
  - destruct (deref arr heap) as [[]|]; try (destruct Harr; discriminate).
    destruct (hd JOk (tl jvm)) as [|[]]; [ | right; left; reflexivity ..].
    released ltac:(destruct (_ =? _);
                   [apply build_session_message_frame | apply raise_and_fail_frame]).
Qed.
End Strings.

(** [X7] Opening a store and loading a session never leave the
    characters of their string borrowed, with one exception.  In every
    world, either the characters were not acquired and the engine was
    not called, or they were acquired and released again; they stay
    borrowed only when an exception was already pending when the entry
    point was called, in which case it returns the null sentinel right
    after acquiring them, without calling the engine. *)
Theorem store_entry_points_release_string (h : Z) (s : jref) (w : World) :
  string_discipline s w (cboxjni_open s w)
  /\ string_discipline s w (cboxjni_session_get h s w).
Proof.
  destruct w as [pend heap vecs elems chars pin jvm eng tr].
  split; [apply open_string_discipline | apply session_get_string_discipline].
Qed.

(** [X8] The same holds for the two session constructors, which borrow
    a byte array after the string: whenever the array argument is a
    byte array, the characters of the session id are released on every
    path on which they were acquired, also when the array cannot be
    borrowed or the engine fails, unless an exception was already
    pending on entry. *)
Theorem session_constructors_release_string (h : Z) (s arr : jref) (w : World) :
  is_Some (array_bytes arr w) ->
  string_discipline s w (cboxjni_init_from_prekey h s arr w)
  /\ string_discipline s w (cboxjni_init_from_message h s arr w).
Proof.
  destruct w as [pend heap vecs elems chars pin jvm eng tr]. intros Harr.
  split; [now apply init_from_prekey_string_discipline
         | now apply init_from_message_string_discipline].
Qed.

Lemma session_constructors_release_string_witness :
  is_Some (array_bytes 2%nat world_pending)
  /\ string_discipline 1%nat world_pending (cboxjni_init_from_prekey 5 1%nat 2%nat world_pending).
Proof.
  assert (H : is_Some (array_bytes 2%nat world_pending)) by (eexists; reflexivity).
  split; [exact H|].
  exact (proj1 (session_constructors_release_string 5 1%nat 2%nat world_pending H)).
Defined.

(** ** What the session constructors return *)

(** [X9] Session-from-prekey, when the session id and the prekey array
    can be borrowed and the runtime constructs what it is asked for.
    The engine is called once and both borrows are released.  On the
    success code the entry point returns a new [CryptoSession] object
    wrapping the handle the engine handed out and the id string; on any
    other code it returns the null sentinel with a Failure Object
    carrying the code pending. *)
Theorem init_from_prekey_wraps_handle_or_raises
    (h : Z) (j_sid arr : jref) (r : Reply) (rest : list Reply) (w : World) :
  is_string j_sid w = true ->
  is_Some (array_bytes arr w) ->
  w_pending w = None ->
  next_ok 3 (w_jvm w) = true ->
  let o := cboxjni_init_from_prekey h j_sid arr (set_engine (r :: rest) w) in
  w_engine (final o) = rest
  /\ w_chars (final o) = w_chars w ++ [None]
  /\ w_elems (final o) = w_elems w ++ [None]
  /\ (rc r = CBOX_SUCCESS ->
      exists obj,
        returned o = Some obj /\ obj <> NULL
        /\ deref obj (w_heap (final o)) = Some (OSession (out_sess r) j_sid)
        /\ w_pending (final o) = None)
  /\ (rc r <> CBOX_SUCCESS ->
      returned o = Some NULL /\ failure_code (final o) = Some (rc r)).
Proof.
  destruct w as [pend heap vecs elems chars pin jvm eng tr], r as [rc0 ov os sc].
  unfold is_string, array_bytes, set_engine.
  cbn [w_pending w_heap w_vecs w_elems w_chars w_pinning w_jvm w_engine w_trace rc out_sess].
  intros Hsid Harr -> Hjvm. cbv zeta. rewrite cboxjni_init_from_prekey_run.
  destruct (deref j_sid heap) as [[]|]; try discriminate.
  destruct (deref arr heap) as [[| old | | | | | |]|]; try (destruct Harr; discriminate).
  pose proof (next_ok_hd _ _ Hjvm) as E1.
  pose proof (next_ok_hd _ _ (next_ok_tl _ _ Hjvm)) as E2.
  pose proof (next_ok_hd _ _ (next_ok_tl _ _ (next_ok_tl _ _ Hjvm))) as E3.
  rewrite E1, E2. cbn [hd tl rc out_sess scribble]. cbv zeta.
  set (heap1 := if pin then _ else heap).
  destruct (Z.eqb_spec rc0 CBOX_SUCCESS) as [Heq|Hne].
  - rewrite cboxjni_new_session_run. cbn [w_jvm hd tl]. rewrite E3.
    cbn [final returned w_engine w_chars w_elems w_heap w_pending].
    repeat (split; [reflexivity|]). split; [|intros H; contradiction].
    intros _. exists (fresh_ref heap1). split; [reflexivity|]. split; [discriminate|].
    split; [apply deref_fresh | reflexivity].
  - rewrite raise_and_fail_run. cbn [w_jvm hd tl]. rewrite E3.
    unfold failure_code. cbn [final returned w_engine w_chars w_elems w_heap w_pending].
    rewrite deref_fresh.
    repeat (split; [reflexivity|]). split; [intros H; contradiction|].
    intros _. auto.
Qed.

Lemma init_from_prekey_wraps_handle_or_raises_witness :
  is_string 1%nat world_bob = true
  /\ is_Some (array_bytes 2%nat world_bob)
  /\ next_ok 3 (w_jvm world_bob) = true
  /\ exists obj,
       returned (cboxjni_init_from_prekey 5 1%nat 2%nat (set_engine [handle_granted] world_bob))
       = Some obj
       /\ obj <> NULL
       /\ deref obj (w_heap (final (cboxjni_init_from_prekey 5 1%nat 2%nat
                                      (set_engine [handle_granted] world_bob))))
          = Some (OSession 77 1%nat)
       /\ w_pending (final (cboxjni_init_from_prekey 5 1%nat 2%nat
                              (set_engine [handle_granted] world_bob))) = None.
Proof.
  assert (H : is_Some (array_bytes 2%nat world_bob)) by (eexists; reflexivity).
  split; [reflexivity|]. split; [exact H|]. split; [reflexivity|].
  exact (proj1 (proj2 (proj2 (proj2 (init_from_prekey_wraps_handle_or_raises 5 1%nat 2%nat
                                       handle_granted [] world_bob eq_refl H eq_refl eq_refl))))
               eq_refl).
Defined.

(** [X10] Session-from-message on its regular paths, when the session
    id and the message array can be borrowed and the runtime constructs
    what it is asked for.  If the engine succeeds and hands back a
    plaintext buffer, the entry point returns a new [SessionMessage]
    whose first component is a [CryptoSession] wrapping the engine's
    handle and the id string, and whose second component is a byte
    array holding exactly the plaintext; the native buffer is freed and
    nothing is pending.  If the engine fails, the entry point returns
    the null sentinel with a Failure Object carrying the code pending,
    and builds neither session nor pair. *)
Theorem init_from_message_returns_pair
    (h : Z) (j_sid arr : jref) (r : Reply) (rest : list Reply) (w : World) :
  is_string j_sid w = true ->
  is_Some (array_bytes arr w) ->
  w_pending w = None ->
  let o := cboxjni_init_from_message h j_sid arr (set_engine (r :: rest) w) in
  (rc r = CBOX_SUCCESS ->
   forall bytes,
     out_vec r = Some bytes ->
     fits_array bytes = true ->
     next_ok 6 (w_jvm w) = true ->
     exists pair j_sess j_plaintext,
       returned o = Some pair
       /\ deref pair (w_heap (final o)) = Some (OSessionMessage j_sess j_plaintext)
       /\ deref j_sess (w_heap (final o)) = Some (OSession (out_sess r) j_sid)
       /\ array_bytes j_plaintext (final o) = Some bytes
       /\ w_vecs (final o) = w_vecs w ++ [None]
       /\ w_pending (final o) = None)
  /\ (rc r <> CBOX_SUCCESS ->
      next_ok 3 (w_jvm w) = true ->
      returned o = Some NULL
      /\ failure_code (final o) = Some (rc r)
      /\ length (w_heap (final o)) = S (length (w_heap w))).
Proof.
  destruct w as [pend heap vecs elems chars pin jvm eng tr], r as [rc0 ov os sc].
  unfold is_string, array_bytes, set_engine.
  cbn [w_pending w_heap w_vecs w_elems w_chars w_pinning w_jvm w_engine w_trace
       rc out_sess out_vec].
  intros Hsid Harr ->. cbv zeta. rewrite cboxjni_init_from_message_run.
  destruct (deref j_sid heap) as [[]|]; try discriminate.
  destruct (deref arr heap) as [[| old | | | | | |]|]; try (destruct Harr; discriminate).
  cbn [hd tl rc out_sess out_vec scribble]. cbv zeta.
  set (heap1 := if pin then _ else heap).
  split.
  - intros -> bytes -> Hfit Hjvm.
    pose proof (next_ok_hd _ _ Hjvm) as E1. apply next_ok_tl in Hjvm.
    pose proof (next_ok_hd _ _ Hjvm) as E2. apply next_ok_tl in Hjvm.
    pose proof (next_ok_hd _ _ Hjvm) as E3. apply next_ok_tl in Hjvm.
    rewrite E1, E2. change (CBOX_SUCCESS =? CBOX_SUCCESS) with true. cbv iota.
    unfold build_session_message, bind.
    rewrite cboxjni_new_session_run. cbn [hd tl]. rewrite E3.
    rewrite (cboxjni_vec2arr_ok _ bytes);
      [ | apply deref_fresh | assumption | reflexivity
        | apply (next_ok_le 3); [lia | exact Hjvm] ].
    change (is_null (fresh_ref (heap1 ++ [OSession os j_sid]))) with false. cbv beta iota.
    rewrite NewObject_run, store_set_fresh.
    do 2 apply next_ok_tl in Hjvm. rewrite (next_ok_hd _ _ Hjvm).
    cbn [ret final returned w_heap w_vecs w_pending].
    eexists _, _, _. split; [reflexivity|].
    split; [apply deref_fresh|].
    unfold array_bytes. cbn [w_heap].
    split; [apply deref_app, deref_app, deref_fresh|].
    rewrite (deref_app _ _ (OByteArray bytes)) by apply deref_fresh. auto.
  - intros Hne Hjvm.
    pose proof (next_ok_hd _ _ Hjvm) as E1. apply next_ok_tl in Hjvm.
    pose proof (next_ok_hd _ _ Hjvm) as E2. apply next_ok_tl in Hjvm.
    pose proof (next_ok_hd _ _ Hjvm) as E3.
    rewrite E1, E2.
    destruct (Z.eqb_spec rc0 CBOX_SUCCESS) as [Heq|_]; [contradiction|].
    rewrite raise_and_fail_run. cbn [w_jvm hd tl]. rewrite E3.
    unfold failure_code. cbn [final returned w_heap w_pending].
    rewrite deref_fresh. split; [reflexivity|]. split; [reflexivity|].
    rewrite length_app. cbn [length]. subst heap1.
    destruct pin, sc; rewrite ?length_store_set; lia.
Qed.

Lemma init_from_message_returns_pair_witness :
  is_string 1%nat world_bob = true
  /\ is_Some (array_bytes 2%nat world_bob)
  /\ next_ok 6 (w_jvm world_bob) = true
  /\ exists pair j_sess j_plaintext,
       returned (cboxjni_init_from_message 5 1%nat 2%nat
                   (set_engine [session_opened] world_bob)) = Some pair
       /\ deref pair
            (w_heap (final (cboxjni_init_from_message 5 1%nat 2%nat
                              (set_engine [session_opened] world_bob))))
          = Some (OSessionMessage j_sess j_plaintext)
       /\ deref j_sess
            (w_heap (final (cboxjni_init_from_message 5 1%nat 2%nat
                              (set_engine [session_opened] world_bob))))
          = Some (OSession 42 1%nat)
       /\ array_bytes j_plaintext
            (final (cboxjni_init_from_message 5 1%nat 2%nat
                      (set_engine [session_opened] world_bob)))
          = Some [x68; x69]
       /\ w_vecs (final (cboxjni_init_from_message 5 1%nat 2%nat
                           (set_engine [session_opened] world_bob)))
          = w_vecs world_bob ++ [None]
       /\ w_pending (final (cboxjni_init_from_message 5 1%nat 2%nat
                              (set_engine [session_opened] world_bob)))
          = None.
Proof.
  assert (H : is_Some (array_bytes 2%nat world_bob)) by (eexists; reflexivity).
  split; [reflexivity|]. split; [exact H|]. split; [reflexivity|].
  exact (proj1 (init_from_message_returns_pair 5 1%nat 2%nat session_opened [] world_bob
                  eq_refl H eq_refl)
               eq_refl [x68; x69] eq_refl eq_refl eq_refl).
Defined.

(** ** Fingerprints, encrypt and decrypt: buffers and faults *)

(** [X11] Both fingerprint entry points return the contents of the
    buffer the engine hands back, whatever result code the engine
    reports: when nothing is pending and the runtime lets the
    allocation and the copy succeed, the result is a managed array
    holding exactly the bytes of the buffer, the buffer is freed and
    nothing is raised. *)
Theorem fingerprint_returns_engine_buffer
    (h code os : Z) (bytes : list byte) (sc : option (list byte)) (rest : list Reply)
    (w : World) :
  w_pending w = None ->
  next_ok 2 (w_jvm w) = true ->
  fits_array bytes = true ->
  let copied (o : Outcome jref) :=
    exists a,
      returned o = Some a /\ a <> NULL
      /\ array_bytes a (final o) = Some bytes
      /\ w_vecs (final o) = w_vecs w ++ [None]
      /\ w_engine (final o) = rest
      /\ w_pending (final o) = None in
  copied (cboxjni_local_fingerprint h (set_engine (mkReply code (Some bytes) os sc :: rest) w))
  /\ copied (cboxjni_remote_fingerprint h
               (set_engine (mkReply code (Some bytes) os sc :: rest) w)).
Proof.
  destruct w as [pend heap vecs elems chars pin jvm eng tr].
  unfold set_engine.
  cbn [w_pending w_heap w_vecs w_elems w_chars w_pinning w_jvm w_engine w_trace].
  intros -> Hjvm Hfit. cbv zeta.
  assert (Hrun : forall call,
    exists a,
      returned (cboxjni_vec2arr (fresh_ref vecs)
                  (mkWorld None heap (vecs ++ [Some bytes]) elems chars pin jvm rest
                     (EvNative call :: tr))) = Some a
      /\ a <> NULL
      /\ array_bytes a (final (cboxjni_vec2arr (fresh_ref vecs)
                  (mkWorld None heap (vecs ++ [Some bytes]) elems chars pin jvm rest
                     (EvNative call :: tr)))) = Some bytes
      /\ w_vecs (final (cboxjni_vec2arr (fresh_ref vecs)
                  (mkWorld None heap (vecs ++ [Some bytes]) elems chars pin jvm rest
                     (EvNative call :: tr)))) = vecs ++ [None]
      /\ w_engine (final (cboxjni_vec2arr (fresh_ref vecs)
                  (mkWorld None heap (vecs ++ [Some bytes]) elems chars pin jvm rest
                     (EvNative call :: tr)))) = rest
      /\ w_pending (final (cboxjni_vec2arr (fresh_ref vecs)
                  (mkWorld None heap (vecs ++ [Some bytes]) elems chars pin jvm rest
                     (EvNative call :: tr)))) = None).
  { intros call. rewrite (cboxjni_vec2arr_ok _ bytes) by auto using deref_fresh.
    rewrite store_set_fresh. cbn [returned final w_vecs w_engine w_pending].
    eexists. split; [reflexivity|]. split; [discriminate|].
    unfold array_bytes. cbn [w_heap]. rewrite deref_fresh. auto. }
  split.
  - replace (cboxjni_local_fingerprint h _) with
      (cboxjni_vec2arr (fresh_ref vecs)
         (mkWorld None heap (vecs ++ [Some bytes]) elems chars pin jvm rest
            (EvNative (CallFingerprintLocal h) :: tr)));
      [apply Hrun|].
    symmetry. unfold cboxjni_local_fingerprint. exec. reflexivity.
  - replace (cboxjni_remote_fingerprint h _) with
      (cboxjni_vec2arr (fresh_ref vecs)
         (mkWorld None heap (vecs ++ [Some bytes]) elems chars pin jvm rest
            (EvNative (CallFingerprintRemote h) :: tr)));
      [apply Hrun|].
    symmetry. unfold cboxjni_remote_fingerprint. exec. reflexivity.
Qed.

Lemma fingerprint_returns_engine_buffer_witness :
  w_pending world0 = None
  /\ next_ok 2 (w_jvm world0) = true
  /\ fits_array [x68; x69] = true
  /\ exists a,
       returned (cboxjni_local_fingerprint 5
                   (set_engine [mkReply 7 (Some [x68; x69]) 0 None] world0)) = Some a
       /\ a <> NULL
       /\ array_bytes a (final (cboxjni_local_fingerprint 5
                                  (set_engine [mkReply 7 (Some [x68; x69]) 0 None] world0)))
          = Some [x68; x69]
       /\ w_vecs (final (cboxjni_local_fingerprint 5
                           (set_engine [mkReply 7 (Some [x68; x69]) 0 None] world0)))
          = w_vecs world0 ++ [None]
       /\ w_engine (final (cboxjni_local_fingerprint 5
                             (set_engine [mkReply 7 (Some [x68; x69]) 0 None] world0)))
          = []
       /\ w_pending (final (cboxjni_local_fingerprint 5
                              (set_engine [mkReply 7 (Some [x68; x69]) 0 None] world0)))
          = None.
Proof.
  repeat (split; [reflexivity|]).
  exact (proj1 (fingerprint_returns_engine_buffer 5 7 0 [x68; x69] None [] world0
                  eq_refl eq_refl eq_refl)).
Defined.

(** [X12] Encrypt faults exactly when it has borrowed the plaintext and
    the engine leaves the output pointer null, as an engine that fails
    does: the result code is not looked at, the borrow is released, and
    the conversion then reads the length of the null buffer.  In every
    other world encrypt returns. *)
Theorem encrypt_faults_iff_no_buffer
    (h : Z) (arr : jref) (r : Reply) (rest : list Reply) (w : World) :
  is_Some (array_bytes arr w) ->
  let o := cboxjni_session_encrypt h arr (set_engine (r :: rest) w) in
  (is_done o = false <-> borrowable arr w = true /\ out_vec r = None)
  /\ (is_done o = false ->
      verdict o = inr NullDeref /\ w_elems (final o) = w_elems w ++ [None]).
Proof.
  destruct w as [pend heap vecs elems chars pin jvm eng tr], r as [rc0 ov os sc].
  unfold is_string, array_bytes, set_engine, borrowable, has_pending.
  cbn [w_pending w_heap w_vecs w_elems w_chars w_pinning w_jvm w_engine w_trace
       rc out_sess out_vec].
  intros Harr. cbv zeta. rewrite cboxjni_session_encrypt_run.
  unfold array_bytes. cbn [w_heap].
  destruct (deref arr heap) as [[| old | | | | | |]|]; try (destruct Harr; discriminate).
  cbn [hd tl rc out_sess out_vec scribble].
  destruct (hd JOk jvm) as [|b], pend as [t|]; cbn [is_done negb andb is_ok];
    try (split; [split; [discriminate | intros [H _]; discriminate H] | discriminate]).
  destruct ov as [bytes|].
  - rewrite (cboxjni_vec2arr_done _ bytes) by apply deref_fresh.
    split; [split; [discriminate | intros [_ H]; discriminate H] | discriminate].
  - rewrite cboxjni_vec2arr_null. cbn [is_done verdict final w_elems].
    split; [split; [auto | reflexivity] | auto].
Qed.

Lemma encrypt_faults_iff_no_buffer_witness :
  is_Some (array_bytes 2%nat world_bob)
  /\ borrowable 2%nat world_bob = true
  /\ out_vec encrypt_failed = None
  /\ is_done (cboxjni_session_encrypt 5 2%nat (set_engine [encrypt_failed] world_bob)) = false.
Proof.
  assert (H : is_Some (array_bytes 2%nat world_bob)) by (eexists; reflexivity).
  split; [exact H|]. split; [reflexivity|]. split; [reflexivity|].
  exact (proj2 (proj1 (encrypt_faults_iff_no_buffer 5 2%nat encrypt_failed [] world_bob H))
               (conj eq_refl eq_refl)).
Defined.

(** [X13] Decrypt tests the result code before it touches the output
    buffer, so a failing engine cannot make it fault: decrypt faults
    exactly when it has borrowed the ciphertext and the engine reports
    success without handing back a plaintext buffer.  In every other
    world it returns. *)
Theorem decrypt_faults_iff_success_without_buffer
    (h : Z) (arr : jref) (r : Reply) (rest : list Reply) (w : World) :
  is_Some (array_bytes arr w) ->
  let o := cboxjni_session_decrypt h arr (set_engine (r :: rest) w) in
  (is_done o = false
   <-> borrowable arr w = true /\ rc r = CBOX_SUCCESS /\ out_vec r = None)
  /\ (is_done o = false ->
      verdict o = inr NullDeref /\ w_elems (final o) = w_elems w ++ [None]).
Proof.
  destruct w as [pend heap vecs elems chars pin jvm eng tr], r as [rc0 ov os sc].
  unfold is_string, array_bytes, set_engine, borrowable, has_pending.
  cbn [w_pending w_heap w_vecs w_elems w_chars w_pinning w_jvm w_engine w_trace
       rc out_sess out_vec].
  intros Harr. cbv zeta. rewrite cboxjni_session_decrypt_run.
  unfold array_bytes. cbn [w_heap].
  destruct (deref arr heap) as [[| old | | | | | |]|]; try (destruct Harr; discriminate).
  cbn [hd tl rc out_sess out_vec scribble]. cbv zeta.
  destruct (hd JOk jvm) as [|b], pend as [t|]; cbn [is_done negb andb is_ok];
    try (split; [split; [discriminate | intros [H _]; discriminate H] | discriminate]).
  destruct (Z.eqb_spec rc0 CBOX_SUCCESS) as [Heq|Hne].
  - destruct ov as [bytes|].
    + rewrite (cboxjni_vec2arr_done _ bytes) by apply deref_fresh.
      split; [split; [discriminate | intros (_ & _ & H); discriminate H] | discriminate].
    + rewrite cboxjni_vec2arr_null. cbn [is_done verdict final w_elems].
      split; [split; [auto | reflexivity] | auto].
  - rewrite raise_and_fail_run.
    cbn [w_jvm hd tl]. destruct (hd JOk (tl jvm)) as [|[]]; cbn [is_done];
      (split; [split; [discriminate | intros (_ & H & _); contradiction] | discriminate]).
Qed.

Lemma decrypt_faults_iff_success_without_buffer_witness :
  is_Some (array_bytes 2%nat world_bob)
  /\ borrowable 2%nat world_bob = true
  /\ is_done (cboxjni_session_decrypt 5 2%nat (set_engine [success_without_buffer] world_bob))
     = false
  /\ is_done (cboxjni_session_decrypt 5 2%nat (set_engine [encrypt_failed] world_bob)) = true.
Proof.
  assert (H : is_Some (array_bytes 2%nat world_bob)) by (eexists; reflexivity).
  split; [exact H|]. split; [reflexivity|]. split.
  - exact (proj2 (proj1 (decrypt_faults_iff_success_without_buffer 5 2%nat
                           success_without_buffer [] world_bob H))
                 (conj eq_refl (conj eq_refl eq_refl))).
  - reflexivity.
Defined.

(** ** Generating prekeys: calls, buffers, failures *)

Lemma drop_tl {A : Type} n (l : list A) : drop n (tl l) = drop (S n) l.
Proof. destruct l; [now destruct n | reflexivity]. Qed.

Lemma tl_drop {A : Type} n (l : list A) : tl (drop n l) = drop (S n) l.
Proof.
  revert l. induction n as [|n IH]; intros [|x l]; try reflexivity. apply IH.
Qed.

Lemma prekey_calls_S cbox start n :
  prekey_calls cbox start (S n)
  = CallNewPrekey cbox (Int.to_jint (start + 0)) :: prekey_calls cbox (start + 1) n.
Proof.
  unfold prekey_calls. cbn [seq map]. f_equal.
  rewrite <- seq_shift, map_map. apply map_ext. intros k. do 2 f_equal. lia.
Qed.

Lemma prekey_calls_snoc cbox start n :
  prekey_calls cbox start (S n)
  = prekey_calls cbox start n ++ [CallNewPrekey cbox (Int.to_jint (start + Z.of_nat n))].
Proof. unfold prekey_calls. now rewrite seq_S, map_app. Qed.

Section PrekeyPrefix.
Variables (cbox j_start : Z) (bundles : jref).
Variables (elems : list (option Borrow)) (chars : list (option jref)) (pin : bool).

(** The first [k] iterations of the loop when each of them succeeds:
    [k] calls into the engine, [k] buffers converted and freed, four
    JNI calls per iteration. *)
Lemma new_prekeys_loop_prefix k :
  forall todo i els heap vecs jvm eng tr,
    next_ok (4 * k) jvm = true ->
    engine_next_ok k eng = true ->
    deref bundles heap = Some (OObjArray els) ->
    0 <= i ->
    (Z.to_nat i + k <= length els)%nat ->
    exists heap' els' evs,
      new_prekeys_loop (k + todo) cbox j_start bundles i
        (mkWorld None heap vecs elems chars pin jvm eng tr)
      = new_prekeys_loop todo cbox j_start bundles (i + Z.of_nat k)
          (mkWorld None heap' (vecs ++ replicate k None) elems chars pin
             (drop (4 * k) jvm) (drop k eng) (evs ++ tr))
      /\ deref bundles heap' = Some (OObjArray els')
      /\ length els' = length els
      /\ native_calls evs = rev (prekey_calls cbox (j_start + i) k).
Proof.
  induction k as [|k IH]; intros todo i els heap vecs jvm eng tr Hjvm Heng Hb Hi Hlen.
  - exists heap, els, []. cbn [plus replicate drop Nat.mul app Z.of_nat].
    rewrite app_nil_r. change (Z.of_nat 0) with 0. rewrite Z.add_0_r. auto.
  - assert (Hjvm4 : next_ok 4 jvm = true)
      by (apply (next_ok_le (4 * S k)); [lia | exact Hjvm]).
    cbn [engine_next_ok] in Heng. apply andb_true_iff in Heng as [Heng1 Heng2].
    cbn [plus].
    destruct (new_prekeys_loop_step cbox j_start bundles elems chars pin (k + todo) i els
                heap vecs jvm eng tr Hjvm4 Heng1 Hb)
      as (bytes & Hstep); [lia|].
    rewrite Hstep. clear Hstep.
    set (ref := fresh_ref (heap ++ [OByteArray bytes])).
    set (heap2 := (heap ++ [OByteArray bytes])
                  ++ [OPreKey (Int.to_jint (j_start + i)) (fresh_ref heap)]).
    assert (Hjvm' : next_ok (4 * k) (tl (tl (tl (tl jvm)))) = true).
    { replace (4 * S k)%nat with (S (S (S (S (4 * k))))) in Hjvm by lia.
      now do 4 apply next_ok_tl in Hjvm. }
    destruct (IH todo (i + 1) (<[Z.to_nat i := ref]> els)
                (store_set bundles (OObjArray (<[Z.to_nat i := ref]> els)) heap2)
                (vecs ++ [None]) (tl (tl (tl (tl jvm)))) (tl eng)
                (EvVecFree (fresh_ref vecs)
                 :: EvNative (CallNewPrekey cbox (Int.to_jint (j_start + i))) :: tr))
      as (heap' & els' & evs & Hrun & Hb' & Hlen' & Hcalls).
    + exact Hjvm'.
    + exact Heng2.
    + eapply deref_store_set_eq. apply deref_app, deref_app, Hb.
    + lia.
    + rewrite length_insert. lia.
    + exists heap', els',
        (evs ++ [EvVecFree (fresh_ref vecs);
                 EvNative (CallNewPrekey cbox (Int.to_jint (j_start + i)))]).
      split; [|split; [exact Hb' | split]].
      * rewrite Hrun. f_equal; [lia|].
        rewrite <- !app_assoc, !drop_tl. cbn [replicate app].
        replace (4 * S k)%nat with (S (S (S (S (4 * k))))) by lia. reflexivity.
      * now rewrite Hlen', length_insert.
      * rewrite native_calls_app, Hcalls, prekey_calls_S. cbn [native_calls rev].
        rewrite Z.add_0_r. do 3 f_equal. lia.
Qed.
End PrekeyPrefix.

(** An iteration in which the engine fails. *)
Lemma new_prekeys_loop_fails cbox j_start bundles todo i heap vecs elems chars pin jvm eng tr :
  rc (hd default_reply eng) <> CBOX_SUCCESS ->
  hd JOk jvm = JOk ->
  new_prekeys_loop (S todo) cbox j_start bundles i
    (mkWorld None heap vecs elems chars pin jvm eng tr)
  = Done NULL
      (mkWorld (Some (Thrown (fresh_ref heap)))
         (heap ++ [OException (rc (hd default_reply eng))])
         (vecs ++ stray_buffer (hd default_reply eng)) elems chars pin (tl jvm) (tl eng)
         (EvThrow (fresh_ref heap)
          :: EvNative (CallNewPrekey cbox (Int.to_jint (j_start + i))) :: tr)).
Proof.
  intros Hrc E1. unfold stray_buffer.
  destruct (hd default_reply eng) as [rc0 ov os sc] eqn:Er. cbn [rc out_vec] in *.
  cbn [new_prekeys_loop]. cbv zeta. exec.
  destruct ov as [bytes|]; exec;
    (destruct (Z.eqb_spec rc0 CBOX_SUCCESS) as [Heq|_]; [contradiction|]);
    exec; rewrite cboxjni_throw_run, E1; rewrite ?app_nil_r; reflexivity.
Qed.

(** Entering the loop: the array of [count] null references is
    allocated. *)
Lemma new_prekeys_enter cbox start count heap vecs elems chars pin jvm eng tr :
  0 <= count ->
  hd JOk jvm = JOk ->
  cboxjni_new_prekeys cbox start count
    (mkWorld None heap vecs elems chars pin jvm eng tr)
  = new_prekeys_loop (Z.to_nat count) cbox start (fresh_ref heap) 0
      (mkWorld None (heap ++ [OObjArray (replicate (Z.to_nat count) NULL)])
         vecs elems chars pin (tl jvm) eng tr).
Proof.
  intros Hcount E1. unfold cboxjni_new_prekeys. cbv zeta. exec.
  destruct (Z.ltb_spec count 0) as [?|_]; [lia|]. exec. reflexivity.
Qed.

(** [X14] Generate-prekeys with a negative count returns the null
    sentinel without calling the engine: the allocation of the result
    array fails, so no prekey is generated, no native buffer is
    allocated and no object is built; when the runtime answers the
    allocation at all, it leaves its own exception pending. *)
Theorem new_prekeys_negative_count (cbox start count : Z) (w : World) :
  count < 0 ->
  let o := cboxjni_new_prekeys cbox start count w in
  returned o = Some NULL
  /\ w_engine (final o) = w_engine w
  /\ w_vecs (final o) = w_vecs w
  /\ w_heap (final o) = w_heap w
  /\ w_trace (final o) = w_trace w
  /\ (hd JOk (w_jvm w) = JOk -> w_pending (final o) = Some RuntimeFailure).
Proof.
  intros Hneg. destruct w as [pend heap vecs elems chars pin jvm eng tr]. cbv zeta.
  cbn [w_engine w_vecs w_heap w_trace w_jvm].
  assert (Hrun :
    cboxjni_new_prekeys cbox start count
      (mkWorld pend heap vecs elems chars pin jvm eng tr)
    = Done NULL
        (mkWorld match hd JOk jvm with
                 | JFail false => pend
                 | _ => Some RuntimeFailure
                 end
                 heap vecs elems chars pin (tl jvm) eng tr)).
  { unfold cboxjni_new_prekeys. cbv zeta. exec.
    destruct (hd JOk jvm) as [|[]] eqn:E1; exec.
    - destruct (Z.ltb_spec count 0) as [_|?]; [|lia]. exec. reflexivity.
    - reflexivity.
    - destruct pend; exec; reflexivity. }
  rewrite Hrun. cbn [returned final w_engine w_vecs w_heap w_trace w_pending].
  repeat split; try reflexivity. now intros ->.
Qed.

Lemma new_prekeys_negative_count_witness :
  -1 < 0
  /\ returned (cboxjni_new_prekeys 7 1 (-1) world0) = Some NULL
  /\ w_pending (final (cboxjni_new_prekeys 7 1 (-1) world0)) = Some RuntimeFailure.
Proof.
  assert (H : -1 < 0) by lia.
  pose proof (new_prekeys_negative_count 7 1 (-1) world0 H) as (H1 & _ & _ & _ & _ & H2).
  split; [exact H|]. split; [exact H1 | exact (H2 eq_refl)].
Defined.

(** [X15] Generate-prekeys, when every step succeeds, calls the engine
    exactly [count] times, once per id in ascending order, each id
    being [start + i] computed in 32 bits; every buffer the engine
    hands back is freed, none is left behind, and the entry point
    consumes exactly [count] answers of the engine and [1 + 4 * count]
    answers of the runtime. *)
Theorem new_prekeys_calls_and_frees (cbox start count : Z) (w : World) :
  0 <= count ->
  all_succeed (Z.to_nat count) w = true ->
  let o := cboxjni_new_prekeys cbox start count w in
  let n := Z.to_nat count in
  is_done o = true
  /\ native_calls (w_trace (final o))
     = rev (prekey_calls cbox start n) ++ native_calls (w_trace w)
  /\ w_vecs (final o) = w_vecs w ++ replicate n None
  /\ w_engine (final o) = drop n (w_engine w)
  /\ w_jvm (final o) = drop (1 + 4 * n) (w_jvm w).
Proof.
  intros Hcount Hok.
  destruct w as [pend heap vecs elems chars pin jvm eng tr].
  unfold all_succeed, has_pending in Hok. cbn [w_pending w_jvm w_engine] in Hok.
  apply andb_true_iff in Hok as [Hok Heng]. apply andb_true_iff in Hok as [Hpend Hjvm].
  destruct pend; [discriminate|]. clear Hpend.
  pose proof (next_ok_hd _ _ Hjvm) as E1. apply next_ok_tl in Hjvm.
  cbv zeta. cbn [w_trace w_vecs w_engine w_jvm].
  rewrite new_prekeys_enter by assumption.
  set (n := Z.to_nat count) in *.
  destruct (new_prekeys_loop_prefix cbox start (fresh_ref heap) elems chars pin n 0%nat 0
              (replicate n NULL) (heap ++ [OObjArray (replicate n NULL)])
              vecs (tl jvm) eng tr)
    as (heap' & els' & evs & Hrun & _ & _ & Hcalls).
  - exact Hjvm.
  - exact Heng.
  - apply deref_fresh.
  - lia.
  - rewrite length_replicate. change (Z.to_nat 0) with 0%nat. lia.
  - rewrite Nat.add_0_r in Hrun. rewrite Hrun.
    cbn [new_prekeys_loop ret is_done final w_trace w_vecs w_engine w_jvm].
    rewrite native_calls_app, Hcalls, Z.add_0_r, drop_tl.
    repeat split; reflexivity.
Qed.

Lemma new_prekeys_calls_and_frees_witness :
  0 <= 2
  /\ all_succeed (Z.to_nat 2) world0 = true
  /\ native_calls (w_trace (final (cboxjni_new_prekeys 7 2147483647 2 world0)))
     = rev (prekey_calls 7 2147483647 (Z.to_nat 2)) ++ native_calls (w_trace world0)
  /\ w_vecs (final (cboxjni_new_prekeys 7 2147483647 2 world0))
     = w_vecs world0 ++ replicate (Z.to_nat 2) None.
Proof.
  assert (H : 0 <= 2) by lia.
  pose proof (new_prekeys_calls_and_frees 7 2147483647 2 world0 H eq_refl)
    as (_ & H1 & H2 & _).
  split; [exact H|]. split; [reflexivity|]. split; [exact H1 | exact H2].
Defined.

(** [X16] Generate-prekeys stops at the first prekey the engine fails
    to generate.  If the first [k] prekeys succeed and the engine then
    reports a code other than success, the entry point returns the null
    sentinel with a Failure Object carrying that code pending; the
    engine has been called [k + 1] times and is not called again; the
    [k] buffers of the prekeys generated so far have all been freed.  A
    buffer the engine hands back together with the failure code is not
    freed. *)
Theorem new_prekeys_stops_at_first_failure
    (cbox start count : Z) (k : nat) (r : Reply) (w : World) :
  (k < Z.to_nat count)%nat ->
  w_pending w = None ->
  next_ok (2 + 4 * k) (w_jvm w) = true ->
  engine_next_ok k (w_engine w) = true ->
  hd default_reply (drop k (w_engine w)) = r ->
  rc r <> CBOX_SUCCESS ->
  let o := cboxjni_new_prekeys cbox start count w in
  returned o = Some NULL
  /\ failure_code (final o) = Some (rc r)
  /\ native_calls (w_trace (final o))
     = rev (prekey_calls cbox start (S k)) ++ native_calls (w_trace w)
  /\ w_engine (final o) = drop (S k) (w_engine w)
  /\ w_vecs (final o) = w_vecs w ++ replicate k None ++ stray_buffer r.
Proof.
  intros Hk Hpend Hjvm Heng Hr Hrc.
  destruct w as [pend heap vecs elems chars pin jvm eng tr].
  cbn [w_pending w_jvm w_engine w_trace w_vecs] in *. subst pend.
  pose proof (next_ok_hd _ _ Hjvm) as E1. apply next_ok_tl in Hjvm.
  cbv zeta. rewrite new_prekeys_enter by (assumption || lia).
  set (n := Z.to_nat count) in *.
  assert (Hjvm' : next_ok (4 * k) (tl jvm) = true)
    by (apply (next_ok_le (1 + 4 * k)); [lia | exact Hjvm]).
  replace n with (k + S (n - S k))%nat by lia.
  destruct (new_prekeys_loop_prefix cbox start (fresh_ref heap) elems chars pin k
              (S (n - S k)) 0
              (replicate (k + S (n - S k)) NULL)
              (heap ++ [OObjArray (replicate (k + S (n - S k)) NULL)])
              vecs (tl jvm) eng tr)
    as (heap' & els' & evs & Hrun & _ & _ & Hcalls).
  - exact Hjvm'.
  - exact Heng.
  - apply deref_fresh.
  - lia.
  - rewrite length_replicate. change (Z.to_nat 0) with 0%nat. lia.
  - rewrite Hrun. clear Hrun.
    assert (E2 : hd JOk (drop (4 * k) (tl jvm)) = JOk).
    { clear -Hjvm. revert Hjvm. generalize (tl jvm) as l. generalize (4 * k)%nat as m.
      induction m as [|m IH]; intros l H.
      - now apply next_ok_hd in H.
      - rewrite <- drop_tl. apply IH. now apply next_ok_tl in H. }
    subst r. rewrite new_prekeys_loop_fails by assumption.
    unfold failure_code.
    cbn [returned final w_pending w_heap w_trace w_engine w_vecs native_calls].
    rewrite deref_fresh, native_calls_app, Hcalls, tl_drop, <- app_assoc.
    repeat split; try reflexivity.
    rewrite prekey_calls_snoc, rev_app_distr, Z.add_0_r. reflexivity.
Qed.

Lemma new_prekeys_stops_at_first_failure_witness :
  (2 < Z.to_nat 5)%nat
  /\ engine_next_ok 2 (w_engine world_third_prekey_fails) = true
  /\ rc prekey_failure <> CBOX_SUCCESS
  /\ returned (cboxjni_new_prekeys 7 10 5 world_third_prekey_fails) = Some NULL
  /\ failure_code (final (cboxjni_new_prekeys 7 10 5 world_third_prekey_fails)) = Some 3
  /\ native_calls (w_trace (final (cboxjni_new_prekeys 7 10 5 world_third_prekey_fails)))
     = rev (prekey_calls 7 10 3) ++ native_calls (w_trace world_third_prekey_fails)
  /\ w_engine (final (cboxjni_new_prekeys 7 10 5 world_third_prekey_fails))
     = drop 3 (w_engine world_third_prekey_fails)
  /\ w_vecs (final (cboxjni_new_prekeys 7 10 5 world_third_prekey_fails))
     = w_vecs world_third_prekey_fails ++ replicate 2 None ++ stray_buffer prekey_failure.
Proof.
  assert (Hk : (2 < Z.to_nat 5)%nat) by (vm_compute; lia).
  assert (Hrc : rc prekey_failure <> CBOX_SUCCESS) by discriminate.
  split; [exact Hk|]. split; [reflexivity|]. split; [exact Hrc|].
  exact (new_prekeys_stops_at_first_failure 7 10 5 2 prekey_failure world_third_prekey_fails
           Hk eq_refl eq_refl eq_refl eq_refl Hrc).
Defined.

(** ** Loading and unloading: the whole picture *)

Section OnLoadStatus.
Import Load Bookkeeping.
Local Open Scope string_scope.

Variable rt : Runtime.

Ltac whnf_load_lhs :=
  match goal with
  | |- ?t = _ =>
      let t' := eval lazy head beta iota zeta delta [JNI_OnLoad] in t in
      change t with t'
  end.

Ltac eval_test :=
  match goal with
  | |- context [bool_decide ?p] =>
      let b := eval vm_compute in (bool_decide p) in
      change (bool_decide p) with b
  end.

Ltac class_resolved name :=
  whnf_load_lhs;
  rewrite (load_class_resolved rt _ name)
    by (first [reflexivity | assumption | apply andb_true_iff; split; assumption]);
  eval_test.

Ltac ctor_resolved c sig :=
  whnf_load_lhs;
  rewrite (load_ctor_resolved rt _ _ c sig) by (first [reflexivity | assumption]);
  eval_test.

Lemma load_ctor_unresolved_eq x cls c sig s :
  s_class s cls = Some c ->
  rt_get_method rt c "<init>" sig = false ->
  load_ctor rt x cls sig s = assign_ctor x None (Load.set_pending s).
Proof.
  intros Hc H. unfold load_ctor, cboxjni_find_method, GetMethodID.
  now rewrite Hc, H.
Qed.

(** When the ten tested resolutions succeed, what is left of the load
    is the resolution of the [PreKey] constructor, whose outcome is not
    looked at, and the two registrations. *)
Lemma JNI_OnLoad_when_checked :
  rt_get_env rt = JNI_OK ->
  resolves_checked rt = true ->
  JNI_OnLoad rt unloaded
  = register_tables rt
      (load_ctor rt cboxjni_pkbundle_ctor cboxjni_pkbundle_class "(I[B)V" checked_cache).
Proof.
  intros Henv Hres.
  unfold resolves_checked in Hres. cbn [forallb] in Hres.
  repeat match type of Hres with
         | _ && _ = true => apply andb_true_iff in Hres as [Hres ?]
         end.
  repeat match goal with
         | H : _ && _ = true |- _ => apply andb_true_iff in H as [? ?]
         end.
  whnf_load_lhs. rewrite Henv. change (negb (JNI_OK =? JNI_OK)%Z) with false.
  class_resolved "org/pkaboo/cryptobox/CryptoException".
  class_resolved "org/pkaboo/cryptobox/CryptoBox".
  class_resolved "org/pkaboo/cryptobox/CryptoSession".
  class_resolved "org/pkaboo/cryptobox/SessionMessage".
  class_resolved "[B".
  class_resolved "org/pkaboo/cryptobox/PreKey".
  ctor_resolved "org/pkaboo/cryptobox/CryptoException" "(I)V".
  ctor_resolved "org/pkaboo/cryptobox/CryptoSession" "(JLjava/lang/String;)V".
  ctor_resolved "org/pkaboo/cryptobox/CryptoBox" "(J)V".
  ctor_resolved "org/pkaboo/cryptobox/SessionMessage" "(Lorg/pkaboo/cryptobox/CryptoSession;[B)V".
  whnf_load_lhs. unfold checked_cache.
  destruct (rt_get_method rt "org/pkaboo/cryptobox/PreKey" "<init>" "(I[B)V") eqn:Hpk.
  - rewrite (load_ctor_resolved rt _ _ "org/pkaboo/cryptobox/PreKey" "(I[B)V")
      by (first [reflexivity | assumption]).
    eval_test. cbv beta iota delta [register_tables]. reflexivity.
  - rewrite (load_ctor_unresolved_eq _ _ "org/pkaboo/cryptobox/PreKey" "(I[B)V")
      by (first [reflexivity | assumption]).
    eval_test. cbv beta iota delta [register_tables]. reflexivity.
Qed.

Lemma load_ctor_class x cls sig s y :
  s_class (load_ctor rt x cls sig s) y = s_class s y.
Proof.
  unfold load_ctor, cboxjni_find_method, GetMethodID.
  destruct (s_class s cls) as [c|]; [destruct (rt_get_method rt c "<init>" sig)|];
    cbn; try reflexivity; now destruct (s_pending s).
Qed.

Lemma load_ctor_registered x cls sig s :
  s_registered (load_ctor rt x cls sig s) = s_registered s.
Proof.
  unfold load_ctor, cboxjni_find_method, GetMethodID.
  destruct (s_class s cls) as [c|]; [destruct (rt_get_method rt c "<init>" sig)|];
    cbn; try reflexivity; now destruct (s_pending s).
Qed.

Lemma load_ctor_other x cls sig s y :
  y <> x -> s_ctor (load_ctor rt x cls sig s) y = s_ctor s y.
Proof.
  intros Hne. unfold load_ctor, cboxjni_find_method, GetMethodID.
  destruct (s_class s cls) as [c|]; [destruct (rt_get_method rt c "<init>" sig)|];
    cbn; try destruct (s_pending s); cbn; now destruct (decide (y = x)).
Qed.

Lemma register_tables_run s cb cs :
  s_class s cboxjni_box_class = Some cb ->
  s_class s cboxjni_sess_class = Some cs ->
  register_tables rt s
  = if rt_register rt cb
    then if rt_register rt cs
         then (JNI_VERSION_1_6,
               mkState (s_pending s) (s_class s) (s_ctor s)
                 ((s_registered s ++ map (fun m => (cb, m)) cboxjni_box_methods)
                  ++ map (fun m => (cs, m)) cboxjni_sess_methods))
         else (JNI_ERR,
               mkState (s_pending s) (s_class s) (s_ctor s)
                 (s_registered s ++ map (fun m => (cb, m)) cboxjni_box_methods))
    else (JNI_ERR, s).
Proof.
  intros Hb Hs. unfold register_tables, RegisterNatives. rewrite Hb.
  destruct (rt_register rt cb); [|reflexivity].
  cbn [s_class]. rewrite Hs.
  destruct (rt_register rt cs); reflexivity.
Qed.

Lemma JNI_OnLoad_wrong_version s :
  rt_get_env rt <> JNI_OK -> JNI_OnLoad rt s = (JNI_EVERSION, s).
Proof.
  intros Henv. whnf_load_lhs.
  destruct (Z.eqb_spec (rt_get_env rt) JNI_OK); [contradiction | reflexivity].
Qed.

(** The load once the ten tested resolutions have succeeded, by the
    answers to the two registrations. *)
Lemma JNI_OnLoad_registration :
  rt_get_env rt = JNI_OK ->
  resolves_checked rt = true ->
  let s11 := load_ctor rt cboxjni_pkbundle_ctor cboxjni_pkbundle_class "(I[B)V"
               checked_cache in
  JNI_OnLoad rt unloaded
  = if rt_register rt "org/pkaboo/cryptobox/CryptoBox"
    then if rt_register rt "org/pkaboo/cryptobox/CryptoSession"
         then (JNI_VERSION_1_6,
               mkState (s_pending s11) (s_class s11) (s_ctor s11) all_entry_points)
         else (JNI_ERR,
               mkState (s_pending s11) (s_class s11) (s_ctor s11)
                 (map (fun m => ("org/pkaboo/cryptobox/CryptoBox", m)) cboxjni_box_methods))
    else (JNI_ERR, s11).
Proof.
  intros Henv Hres. cbv zeta. rewrite JNI_OnLoad_when_checked by assumption.
  rewrite (register_tables_run _ "org/pkaboo/cryptobox/CryptoBox"
             "org/pkaboo/cryptobox/CryptoSession")
    by (rewrite load_ctor_class; reflexivity).
  rewrite load_ctor_registered. reflexivity.
Qed.

(** A load that returns [JNI_VERSION_1_6] has passed every test. *)
Lemma JNI_OnLoad_version_inv :
  fst (JNI_OnLoad rt unloaded) = JNI_VERSION_1_6 ->
  rt_get_env rt = JNI_OK
  /\ resolves_checked rt = true
  /\ rt_register rt "org/pkaboo/cryptobox/CryptoBox" = true
  /\ rt_register rt "org/pkaboo/cryptobox/CryptoSession" = true.
Proof.
  destruct (Z.eq_dec (rt_get_env rt) JNI_OK) as [Henv|Henv].
  2:{ rewrite JNI_OnLoad_wrong_version by exact Henv. discriminate. }
  destruct (resolves_checked rt) eqn:Hres.
  2:{ destruct (JNI_OnLoad_fail_fast_when_checked rt Henv Hres) as [Herr _].
      rewrite Herr. discriminate. }
  rewrite (JNI_OnLoad_registration Henv Hres). cbv zeta.
  destruct (rt_register rt "org/pkaboo/cryptobox/CryptoBox");
    [destruct (rt_register rt "org/pkaboo/cryptobox/CryptoSession")|]; cbn [fst];
    try discriminate. auto.
Qed.

(** The cache after a load that returned [JNI_VERSION_1_6]. *)
Lemma JNI_OnLoad_version_cache :
  fst (JNI_OnLoad rt unloaded) = JNI_VERSION_1_6 ->
  s_registered (snd (JNI_OnLoad rt unloaded)) = all_entry_points
  /\ map (s_class (snd (JNI_OnLoad rt unloaded))) class_vars = map Some class_names
  /\ (forall y, y <> cboxjni_pkbundle_ctor -> s_ctor (snd (JNI_OnLoad rt unloaded)) y <> None).
Proof.
  intros Hv. destruct (JNI_OnLoad_version_inv Hv) as (Henv & Hres & Hb & Hs).
  rewrite (JNI_OnLoad_registration Henv Hres). cbv zeta. rewrite Hb, Hs.
  cbn [snd s_registered s_class s_ctor].
  split; [reflexivity|]. split.
  - unfold class_vars. cbn [map]. rewrite !load_ctor_class. reflexivity.
  - intros y Hy. rewrite load_ctor_other by exact Hy.
    destruct y; try discriminate. contradiction.
Qed.

Lemma unload_class_run s x deleted :
  unload_class s x deleted = (deleted ++ option_list (s_class s x))%list.
Proof.
  unfold unload_class, DeleteGlobalRef.
  destruct (s_class s x) as [c|]; case_bool_decide; cbn [option_list];
    rewrite ?app_nil_r; first [reflexivity | discriminate | congruence].
Qed.

(** [JNI_OnUnload] deletes the reference held by each class variable
    that is not null, in the order of the variables. *)
Lemma JNI_OnUnload_run s :
  rt_get_env rt = JNI_OK ->
  JNI_OnUnload rt s = omap (s_class s) class_vars.
Proof.
  intros Henv. unfold JNI_OnUnload.
  rewrite Henv. change (negb (JNI_OK =? JNI_OK)%Z) with false. cbv iota zeta.
  rewrite !unload_class_run. unfold class_vars. cbn [omap list_omap].
  destruct (s_class s cboxjni_ex_class), (s_class s cboxjni_box_class),
    (s_class s cboxjni_sess_class), (s_class s cboxjni_sessmsg_class),
    (s_class s cboxjni_bytearr_class), (s_class s cboxjni_pkbundle_class);
    reflexivity.
Qed.
End OnLoadStatus.

Section OnLoadTheorems.
Import Load Bookkeeping.
Local Open Scope string_scope.

(** [X17] The status of a load.  [JNI_OnLoad] returns [JNI_EVERSION],
    leaving the cache as it was, when [GetEnv] fails.  It returns
    [JNI_VERSION_1_6] exactly when [GetEnv] succeeds, the six classes
    and the constructors of the exception, the session, the box and the
    session message are resolved, and the runtime accepts both tables;
    all twelve entry points are then registered, every class variable
    holds its class and every constructor variable except that of
    [PreKey] is set.  Whether the constructor of [PreKey] was resolved
    plays no part. *)
Theorem JNI_OnLoad_succeeds_iff (rt : Runtime) :
  let o := JNI_OnLoad rt unloaded in
  (rt_get_env rt <> JNI_OK -> o = (JNI_EVERSION, unloaded))
  /\ (fst o = JNI_VERSION_1_6
      <-> rt_get_env rt = JNI_OK
          /\ resolves_checked rt = true
          /\ rt_register rt "org/pkaboo/cryptobox/CryptoBox" = true
          /\ rt_register rt "org/pkaboo/cryptobox/CryptoSession" = true)
  /\ (fst o = JNI_VERSION_1_6 ->
      s_registered (snd o) = all_entry_points
      /\ map (s_class (snd o)) class_vars = map Some class_names
      /\ (forall y, y <> cboxjni_pkbundle_ctor -> s_ctor (snd o) y <> None)).
Proof.
  cbv zeta. split; [apply JNI_OnLoad_wrong_version|].
  split; [|apply JNI_OnLoad_version_cache].
  split; [apply JNI_OnLoad_version_inv|].
  intros (Henv & Hres & Hb & Hs).
  now rewrite (JNI_OnLoad_registration rt Henv Hres), Hb, Hs.
Qed.

Lemma JNI_OnLoad_succeeds_iff_witness :
  fst (JNI_OnLoad complete_runtime unloaded) = JNI_VERSION_1_6
  /\ s_registered (snd (JNI_OnLoad complete_runtime unloaded)) = all_entry_points.
Proof.
  pose proof (JNI_OnLoad_succeeds_iff complete_runtime) as (_ & Hiff & Hcache).
  pose proof (proj2 Hiff (conj eq_refl (conj eq_refl (conj eq_refl eq_refl)))) as Hv.
  exact (conj Hv (proj1 (Hcache Hv))).
Defined.

(** [X18] A failed registration.  Once everything tested is resolved,
    a runtime that rejects the table of [CryptoBox] makes the load
    abort with [JNI_ERR] and nothing registered.  A runtime that
    accepts that table and rejects the table of [CryptoSession] makes
    the load report [JNI_ERR] as well, but the seven entry points of
    [CryptoBox] stay registered: the load fails with part of the
    binding in place. *)
Theorem JNI_OnLoad_registration_failure (rt : Runtime) :
  rt_get_env rt = JNI_OK ->
  resolves_checked rt = true ->
  let o := JNI_OnLoad rt unloaded in
  (rt_register rt "org/pkaboo/cryptobox/CryptoBox" = false -> aborted o)
  /\ (rt_register rt "org/pkaboo/cryptobox/CryptoBox" = true ->
      rt_register rt "org/pkaboo/cryptobox/CryptoSession" = false ->
      fst o = JNI_ERR
      /\ s_registered (snd o)
         = map (fun m => ("org/pkaboo/cryptobox/CryptoBox", m)) cboxjni_box_methods
      /\ length (s_registered (snd o)) = 7%nat).
Proof.
  intros Henv Hres. cbv zeta. rewrite (JNI_OnLoad_registration rt Henv Hres). cbv zeta.
  split.
  - intros ->. split; [reflexivity|]. cbn [snd]. now rewrite load_ctor_registered.
  - intros -> ->. cbn [fst snd s_registered]. auto.
Qed.

Lemma JNI_OnLoad_registration_failure_witness :
  rt_get_env runtime_rejecting_session_table = JNI_OK
  /\ resolves_checked runtime_rejecting_session_table = true
  /\ fst (JNI_OnLoad runtime_rejecting_session_table unloaded) = JNI_ERR
  /\ length (s_registered (snd (JNI_OnLoad runtime_rejecting_session_table unloaded)))
     = 7%nat.
Proof.
  pose proof (proj2 (JNI_OnLoad_registration_failure runtime_rejecting_session_table
                       eq_refl eq_refl) eq_refl eq_refl) as (H1 & _ & H2).
  split; [reflexivity|]. split; [reflexivity|]. exact (conj H1 H2).
Defined.

(** [X19] Fail-fast where the result of a resolution is tested.  If
    any one of the six classes cannot be found, or no global reference
    to it can be created, or any one of the constructors of the
    exception, the session, the box and the session message cannot be
    resolved, the load aborts: it returns [JNI_ERR] and registers no
    entry point. *)
Theorem JNI_OnLoad_aborts_on_unresolved (rt : Runtime) :
  rt_get_env rt = JNI_OK ->
  (forall name,
     In name class_names ->
     rt_find_class rt name = false \/ rt_new_global_ref rt name = false ->
     aborted (JNI_OnLoad rt unloaded))
  /\ (forall c sig,
        In (c, sig) checked_ctors ->
        rt_get_method rt c "<init>" sig = false ->
        aborted (JNI_OnLoad rt unloaded)).
Proof.
  intros Henv.
  assert (Hno : resolves_checked rt = false -> aborted (JNI_OnLoad rt unloaded))
    by (apply JNI_OnLoad_fail_fast_when_checked; exact Henv).
  assert (Hsplit : resolves_checked rt = true ->
    (forall name, In name class_names ->
       rt_find_class rt name = true /\ rt_new_global_ref rt name = true)
    /\ (forall c sig, In (c, sig) checked_ctors -> rt_get_method rt c "<init>" sig = true)).
  { unfold resolves_checked. cbn [forallb]. intros Hres.
    repeat match type of Hres with
           | _ && _ = true => apply andb_true_iff in Hres as [Hres ?]
           end.
    repeat match goal with
           | H : _ && _ = true |- _ => apply andb_true_iff in H as [? ?]
           end.
    split.
    - intros name Hin. unfold class_names in Hin. cbn [In] in Hin.
      repeat (destruct Hin as [<-|Hin]; [split; assumption|]). contradiction.
    - intros c sig Hin. unfold checked_ctors in Hin. cbn [In] in Hin.
      repeat (destruct Hin as [Heq|Hin]; [injection Heq as <- <-; assumption|]).
      contradiction. }
  split.
  - intros name Hin Hfail. apply Hno.
    destruct (resolves_checked rt); [|reflexivity].
    destruct (proj1 (Hsplit eq_refl) name Hin) as [H1 H2].
    destruct Hfail; congruence.
  - intros c sig Hin Hfail. apply Hno.
    destruct (resolves_checked rt); [|reflexivity].
    pose proof (proj2 (Hsplit eq_refl) c sig Hin). congruence.
Qed.

Lemma JNI_OnLoad_aborts_on_unresolved_witness :
  rt_get_env runtime_without_sessmsg_class = JNI_OK
  /\ In "org/pkaboo/cryptobox/SessionMessage" class_names
  /\ rt_find_class runtime_without_sessmsg_class "org/pkaboo/cryptobox/SessionMessage" = false
  /\ aborted (JNI_OnLoad runtime_without_sessmsg_class unloaded).
Proof.
  assert (Hin : In "org/pkaboo/cryptobox/SessionMessage" class_names)
    by (do 3 right; left; reflexivity).
  split; [reflexivity|]. split; [exact Hin|]. split; [reflexivity|].
  exact (proj1 (JNI_OnLoad_aborts_on_unresolved runtime_without_sessmsg_class eq_refl)
               "org/pkaboo/cryptobox/SessionMessage" Hin (or_introl eq_refl)).
Defined.

(** [X20] Unloading after a load.  [JNI_OnUnload] deletes the global
    reference held by each class variable that is not null, in the
    order of the variables, and nothing else.  After a load that
    returned [JNI_VERSION_1_6] these are the references to the six
    cached classes, each deleted exactly once.  When [GetEnv] fails at
    unload time nothing is deleted, and all six references stay
    behind. *)
Theorem JNI_OnUnload_deletes_cached_classes (rt rt' : Runtime) :
  fst (JNI_OnLoad rt unloaded) = JNI_VERSION_1_6 ->
  let s := snd (JNI_OnLoad rt unloaded) in
  (rt_get_env rt' = JNI_OK -> JNI_OnUnload rt' s = class_names)
  /\ (rt_get_env rt' <> JNI_OK -> JNI_OnUnload rt' s = [])
  /\ NoDup class_names
  /\ JNI_OnUnload rt' unloaded = [].
Proof.
  intros Hv. cbv zeta.
  destruct (JNI_OnLoad_version_cache rt Hv) as (_ & Hclasses & _).
  split; [|split; [|split]].
  - intros Henv. rewrite JNI_OnUnload_run by exact Henv.
    unfold class_vars, class_names in *. cbn [map] in Hclasses.
    injection Hclasses as H1 H2 H3 H4 H5 H6. cbn [omap list_omap].
    now rewrite H1, H2, H3, H4, H5, H6.
  - intros Henv. unfold JNI_OnUnload.
    destruct (Z.eqb_spec (rt_get_env rt') JNI_OK); [contradiction | reflexivity].
  - apply (bool_decide_unpack (NoDup class_names)). vm_compute. reflexivity.
  - unfold JNI_OnUnload. destruct (negb _); reflexivity.
Qed.

Lemma JNI_OnUnload_deletes_cached_classes_witness :
  fst (JNI_OnLoad complete_runtime unloaded) = JNI_VERSION_1_6
  /\ JNI_OnUnload complete_runtime (snd (JNI_OnLoad complete_runtime unloaded)) = class_names
  /\ JNI_OnUnload runtime_wrong_version (snd (JNI_OnLoad complete_runtime unloaded)) = [].
Proof.
  assert (Hv : fst (JNI_OnLoad complete_runtime unloaded) = JNI_VERSION_1_6)
    by (vm_compute; reflexivity).
  assert (Hne : rt_get_env runtime_wrong_version <> JNI_OK) by discriminate.
  split; [exact Hv|]. split.
  - exact (proj1 (JNI_OnUnload_deletes_cached_classes complete_runtime complete_runtime Hv)
                 eq_refl).
  - exact (proj1 (proj2 (JNI_OnUnload_deletes_cached_classes complete_runtime
                           runtime_wrong_version Hv)) Hne).
Defined.
End OnLoadTheorems.

(** ** Lengths of borrowed arrays *)

(** [X21] Encrypt, decrypt and session-from-message pass the engine the
    exact length of the array they borrowed, for every array a Java
    runtime can hold: unlike session-from-prekey they keep the length
    in 32 bits, which loses nothing. *)
Theorem borrowed_length_passed_exactly
    (h : Z) (j_sid arr : jref) (bytes : list byte) (w : World) :
  array_bytes arr w = Some bytes ->
  fits_array bytes = true ->
  w_pending w = None ->
  let len := Z.of_nat (length bytes) in
  let buf := fresh_ref (w_elems w) in
  (hd JOk (w_jvm w) = JOk ->
   native_calls (w_trace (final (cboxjni_session_encrypt h arr w)))
   = CallEncrypt h buf len :: native_calls (w_trace w)
   /\ native_calls (w_trace (final (cboxjni_session_decrypt h arr w)))
      = CallDecrypt h buf len :: native_calls (w_trace w))
  /\ (is_string j_sid w = true ->
      next_ok 2 (w_jvm w) = true ->
      native_calls (w_trace (final (cboxjni_init_from_message h j_sid arr w)))
      = CallInitFromMessage h (fresh_ref (w_chars w)) buf len :: native_calls (w_trace w)).
Proof.
  destruct w as [pend heap vecs elems chars pin jvm eng tr].
  unfold is_string, array_bytes.
  cbn [w_pending w_heap w_vecs w_elems w_chars w_pinning w_jvm w_engine w_trace].
  intros Harr Hfit ->. cbv zeta.
  destruct (deref arr heap) as [[| old | | | | | |]|] eqn:Hd; try discriminate.
  injection Harr as ->.
  assert (Hlen : Int.to_uint32 (Z.of_nat (length bytes)) = Z.of_nat (length bytes)).
  { apply Z.leb_le in Hfit.
    assert (Hmax : Int.max_jint = 2147483647) by reflexivity.
    apply Int.to_uint32_id. lia. }
  split.
  - intros E1.
    rewrite cboxjni_session_encrypt_run, cboxjni_session_decrypt_run, Hd, E1, Hlen.
    cbv zeta. split.
    + now rewrite (frame_native_calls _ _ (cboxjni_vec2arr_frame _ _)).
    + match goal with
      | |- native_calls (w_trace (final (if ?c then ?f ?w1 else ?g ?w1))) = _ =>
          assert (Hf : frame w1 (final (if c then f w1 else g w1)))
            by (destruct c; [apply cboxjni_vec2arr_frame | apply raise_and_fail_frame])
      end.
      now rewrite (frame_native_calls _ _ Hf).
  - intros Hsid Hjvm.
    rewrite cboxjni_init_from_message_run, Hd, Hlen.
    destruct (deref j_sid heap) as [[]|]; try discriminate.
    rewrite (next_ok_hd _ _ Hjvm), (next_ok_hd _ _ (next_ok_tl _ _ Hjvm)).
    cbv zeta.
    match goal with
    | |- native_calls (w_trace (final (if ?c then ?f ?w1 else ?g ?w1))) = _ =>
        assert (Hf : frame w1 (final (if c then f w1 else g w1)))
          by (destruct c; [apply build_session_message_frame | apply raise_and_fail_frame])
    end.
    now rewrite (frame_native_calls _ _ Hf).
Qed.

Lemma borrowed_length_passed_exactly_witness :
  array_bytes 2%nat world_bob = Some [x01; x02; x03]
  /\ fits_array [x01; x02; x03] = true
  /\ native_calls (w_trace (final (cboxjni_session_decrypt 5 2%nat world_bob)))
     = [CallDecrypt 5 1%nat 3].
Proof.
  split; [reflexivity|]. split; [reflexivity|].
  exact (proj2 (proj1 (borrowed_length_passed_exactly 5 1%nat 2%nat [x01; x02; x03] world_bob
                         eq_refl eq_refl eq_refl)
                      eq_refl)).
Defined.

(** ** Native buffers are not left behind *)

Lemma cboxjni_vec2arr_vecs v w :
  w_vecs (final (cboxjni_vec2arr v w))
  = match deref v (w_vecs w) with
    | Some (Some _) => store_set v None (w_vecs w)
    | _ => w_vecs w
    end.
Proof.
  destruct w as [pend heap vecs elems chars pin jvm eng tr]. cbn [w_vecs].
  rewrite cboxjni_vec2arr_run. cbv zeta.
  destruct (deref v vecs) as [[bytes|]|]; try reflexivity.
  destruct (hd JOk jvm) as [|[]]; [|reflexivity..].
  destruct (_ <? 0); [reflexivity|].
  destruct pend; [reflexivity|].
  destruct (hd JOk (tl jvm)); [destruct (_ && _)|]; reflexivity.
Qed.

Lemma cboxjni_throw_vecs code w : w_vecs (final (cboxjni_throw code w)) = w_vecs w.
Proof.
  destruct w as [pend heap vecs elems chars pin jvm eng tr]. rewrite cboxjni_throw_run.
  destruct (hd JOk jvm) as [|[]], pend; reflexivity.
Qed.

Lemma raise_and_fail_vecs code w : w_vecs (final (raise_and_fail code w)) = w_vecs w.
Proof.
  destruct w as [pend heap vecs elems chars pin jvm eng tr]. rewrite raise_and_fail_run.
  destruct (hd JOk jvm) as [|[]], pend; reflexivity.
Qed.

Lemma build_session_message_vecs sess j_sid plain w :
  w_vecs (final (build_session_message sess j_sid plain w))
  = match deref plain (w_vecs w) with
    | Some (Some _) => store_set plain None (w_vecs w)
    | _ => w_vecs w
    end.
Proof.
  destruct w as [pend heap vecs elems chars pin jvm eng tr]. cbn [w_vecs].
  assert (Hrest : forall j_sess w1,
    w_vecs w1 = vecs ->
    w_vecs (final
      (bind (cboxjni_vec2arr plain)
         (fun j_plaintext =>
            if is_null j_plaintext then ret NULL
            else bind (NewObject (OSessionMessage j_sess j_plaintext))
                      (fun j_swm => ret j_swm)) w1))
    = match deref plain vecs with
      | Some (Some _) => store_set plain None vecs
      | _ => vecs
      end).
  { intros j_sess w1 H1. pose proof (cboxjni_vec2arr_vecs plain w1) as Hv.
    rewrite H1 in Hv. unfold bind.
    destruct (cboxjni_vec2arr plain w1) as [a w'|f w']; [|exact Hv].
    cbn [final] in Hv. destruct (is_null a); [exact Hv|].
    destruct w' as [p' h' v' e' c' pin' j' g' t']. rewrite NewObject_run.
    destruct (hd JOk j') as [|[]]; exact Hv. }
  unfold build_session_message. unfold bind at 1. rewrite cboxjni_new_session_run.
  destruct (hd JOk jvm) as [|[]], pend; cbv beta iota; apply Hrest; reflexivity.
Qed.

(** [X22] Encrypt, decrypt, session-from-message and the two
    fingerprint entry points leave no native buffer behind.  In every
    world in which the engine hands back a buffer exactly when it
    reports success, the buffers that existed before the call are
    untouched afterwards and the one buffer the engine may have handed
    back during the call has been freed, whatever the runtime answered
    and whether the entry point returned an array, the null sentinel or
    faulted. *)
Theorem entry_points_free_engine_buffer (h : Z) (j_sid arr : jref) (w : World) :
  reply_consistent (hd default_reply (w_engine w)) = true ->
  let freed (o : Outcome jref) := buffers_freed 0 w o \/ buffers_freed 1 w o in
  freed (cboxjni_session_encrypt h arr w)
  /\ freed (cboxjni_session_decrypt h arr w)
  /\ freed (cboxjni_init_from_message h j_sid arr w)
  /\ freed (cboxjni_local_fingerprint h w)
  /\ freed (cboxjni_remote_fingerprint h w).
Proof.
  destruct w as [pend heap vecs elems chars pin jvm eng tr].
  unfold reply_consistent, buffers_freed.
  cbn [w_pending w_heap w_vecs w_elems w_chars w_pinning w_jvm w_engine w_trace replicate].
  intros Hr. cbv zeta. rewrite app_nil_r.
  assert (Hconv : forall bytes w1, w_vecs w1 = vecs ++ [Some bytes] ->
            w_vecs (final (cboxjni_vec2arr (fresh_ref vecs) w1)) = vecs ++ [None])
    by (intros bytes w1 H1; now rewrite cboxjni_vec2arr_vecs, H1, deref_fresh, store_set_fresh).
  assert (Hmsg : forall sess bytes w1, w_vecs w1 = vecs ++ [Some bytes] ->
            w_vecs (final (build_session_message sess j_sid (fresh_ref vecs) w1))
            = vecs ++ [None])
    by (intros sess bytes w1 H1;
        now rewrite build_session_message_vecs, H1, deref_fresh, store_set_fresh).
  split; [|split; [|split; [|split]]].
  - rewrite cboxjni_session_encrypt_run.
    destruct (deref arr heap) as [[| old | | | | | |]|]; auto.
    destruct (hd JOk jvm) as [|[]], pend; auto.
    destruct (out_vec (hd default_reply eng)) as [bytes|].
    + right. now apply (Hconv bytes).
    + left. now rewrite cboxjni_vec2arr_null.
  - rewrite cboxjni_session_decrypt_run. cbv zeta.
    destruct (deref arr heap) as [[| old | | | | | |]|]; auto.
    destruct (hd JOk jvm) as [|[]], pend; auto.
    destruct (out_vec (hd default_reply eng)) as [bytes|].
    + rewrite Hr. right. now apply (Hconv bytes).
    + apply negb_true_iff in Hr. rewrite Hr. left. now rewrite raise_and_fail_vecs.
  - rewrite cboxjni_init_from_message_run. cbv zeta.
    destruct (deref j_sid heap) as [[]|]; auto.
    destruct (hd JOk jvm) as [|[]], pend; auto.
    destruct (deref arr heap) as [[| old | | | | | |]|]; auto.
    destruct (hd JOk (tl jvm)) as [|[]]; auto.
    destruct (out_vec (hd default_reply eng)) as [bytes|].
    + rewrite Hr. right. now apply (Hmsg _ bytes).
    + apply negb_true_iff in Hr. rewrite Hr. left. now rewrite raise_and_fail_vecs.
  - assert (Hrun : cboxjni_local_fingerprint h
                     (mkWorld pend heap vecs elems chars pin jvm eng tr)
                   = cboxjni_vec2arr
                       match out_vec (hd default_reply eng) with
                       | Some _ => fresh_ref vecs
                       | None => NULL
                       end
                       (mkWorld pend heap
                          match out_vec (hd default_reply eng) with
                          | Some bytes => vecs ++ [Some bytes]
                          | None => vecs
                          end
                          elems chars pin jvm (tl eng)
                          (EvNative (CallFingerprintLocal h) :: tr))).
    { unfold cboxjni_local_fingerprint. exec.
      destruct (hd default_reply eng) as [rc0 [] os sc]; exec; reflexivity. }
    rewrite Hrun. destruct (out_vec (hd default_reply eng)) as [bytes|].
    + right. now apply (Hconv bytes).
    + left. now rewrite cboxjni_vec2arr_null.
  - assert (Hrun : cboxjni_remote_fingerprint h
                     (mkWorld pend heap vecs elems chars pin jvm eng tr)
                   = cboxjni_vec2arr
                       match out_vec (hd default_reply eng) with
                       | Some _ => fresh_ref vecs
                       | None => NULL
                       end
                       (mkWorld pend heap
                          match out_vec (hd default_reply eng) with
                          | Some bytes => vecs ++ [Some bytes]
                          | None => vecs
                          end
                          elems chars pin jvm (tl eng)
                          (EvNative (CallFingerprintRemote h) :: tr))).
    { unfold cboxjni_remote_fingerprint. exec.
      destruct (hd default_reply eng) as [rc0 [] os sc]; exec; reflexivity. }
    rewrite Hrun. destruct (out_vec (hd default_reply eng)) as [bytes|].
    + right. now apply (Hconv bytes).
    + left. now rewrite cboxjni_vec2arr_null.
Qed.

Lemma entry_points_free_engine_buffer_witness :
  reply_consistent (hd default_reply (w_engine world_scribbling)) = true
  /\ (buffers_freed 0 world_scribbling (cboxjni_session_decrypt 5 2%nat world_scribbling)
      \/ buffers_freed 1 world_scribbling (cboxjni_session_decrypt 5 2%nat world_scribbling)).
Proof.
  split; [reflexivity|].
  exact (proj1 (proj2 (entry_points_free_engine_buffer 5 1%nat 2%nat world_scribbling
                         eq_refl))).
Defined.

(** ** Generating prekeys in any world *)

(** What the conversion of a live buffer leaves behind, whatever the
    runtime answers. *)
Lemma cboxjni_vec2arr_result v bytes w :
  deref v (w_vecs w) = Some (Some bytes) ->
  exists a w',
    cboxjni_vec2arr v w = Done a w'
    /\ w_vecs w' = store_set v None (w_vecs w)
    /\ frame w w'
    /\ (a <> NULL -> w_pending w' = None).
Proof.
  intros Hv.
  pose proof (cboxjni_vec2arr_done v bytes w Hv) as Hdone.
  pose proof (cboxjni_vec2arr_vecs v w) as Hvecs. rewrite Hv in Hvecs.
  pose proof (cboxjni_vec2arr_frame v w) as Hframe.
  assert (Hpend : forall a w', cboxjni_vec2arr v w = Done a w' ->
                               a <> NULL -> w_pending w' = None).
  { destruct w as [pend heap vecs elems chars pin jvm eng tr]. cbn [w_vecs] in Hv.
    rewrite cboxjni_vec2arr_run, Hv. cbv zeta. intros a w'.
    destruct (hd JOk jvm) as [|[]]; [|intros [= <- <-] H; now contradiction H..].
    destruct (_ <? 0); [intros [= <- <-] H; now contradiction H|].
    destruct pend; [intros [= <- <-] H; now contradiction H|].
    destruct (hd JOk (tl jvm)); [destruct (_ && _)|];
      intros [= <- <-] H; first [reflexivity | now contradiction H]. }
  destruct (cboxjni_vec2arr v w) as [a w'|f w']; [|discriminate Hdone].
  exists a, w'. eauto.
Qed.

Section PrekeySafety.
Variables (cbox j_start : Z) (bundles : jref).
Variables (elems : list (option Borrow)) (chars : list (option jref)) (pin : bool).

Lemma new_prekeys_loop_run todo i heap vecs jvm eng tr :
  new_prekeys_loop (S todo) cbox j_start bundles i
    (mkWorld None heap vecs elems chars pin jvm eng tr)
  = let r := hd default_reply eng in
    let j_id := Int.to_jint (j_start + i) in
    let w1 := mkWorld None heap
                match out_vec r with Some b => vecs ++ [Some b] | None => vecs end
                elems chars pin jvm (tl eng) (EvNative (CallNewPrekey cbox j_id) :: tr) in
    if rc r =? CBOX_SUCCESS
    then bind (cboxjni_vec2arr match out_vec r with Some _ => fresh_ref vecs | None => NULL end)
           (fun j_prekey =>
              if is_null j_prekey then ret NULL
              else store_prekey bundles i j_id j_prekey
                     (new_prekeys_loop todo cbox j_start bundles (i + 1))) w1
    else raise_and_fail (rc r) w1.
Proof.
  cbn [new_prekeys_loop]. unfold raise_and_fail. cbv zeta.
  unfold bind at 1. unfold cbox_new_prekey, bind at 1. rewrite engine_call_run.
  cbv zeta. rewrite scribbled_heap_null, scribbled_elems_null.
  destruct (hd default_reply eng) as [rc0 [b|] os sc]; cbn [rc out_vec out_sess ret fst snd];
    destruct (rc0 =? CBOX_SUCCESS); reflexivity.
Qed.

Lemma store_prekey_run i j_id j_prekey continue heap vecs jvm eng tr :
  store_prekey bundles i j_id j_prekey continue
    (mkWorld None heap vecs elems chars pin jvm eng tr)
  = match hd JOk jvm with
    | JFail raises =>
        Done NULL (mkWorld (if raises then Some RuntimeFailure else None) heap vecs elems
                     chars pin (tl jvm) eng tr)
    | JOk =>
        let heap1 := heap ++ [OPreKey j_id j_prekey] in
        match hd JOk (tl jvm) with
        | JFail _ =>
            Done NULL (mkWorld (Some RuntimeFailure) heap1 vecs elems chars pin
                         (tl (tl jvm)) eng tr)
        | JOk =>
            match deref bundles heap1 with
            | Some (OObjArray els) =>
                if (0 <=? i) && (i <? Z.of_nat (length els))
                then continue
                       (mkWorld None
                          (store_set bundles
                             (OObjArray (<[Z.to_nat i := fresh_ref heap]> els)) heap1)
                          vecs elems chars pin (tl (tl jvm)) eng tr)
                else Done NULL (mkWorld (Some RuntimeFailure) heap1 vecs elems chars pin
                                  (tl (tl jvm)) eng tr)
            | _ => Crash BadReference
                     (mkWorld None heap1 vecs elems chars pin (tl (tl jvm)) eng tr)
            end
        end
    end.
Proof.
  unfold store_prekey. cbv zeta. exec.
  destruct (hd JOk jvm) as [|[]] eqn:E1; exec; [ | reflexivity ..].
  destruct (hd JOk (tl jvm)) as [|[]] eqn:E2; exec; [ | reflexivity ..].
  destruct (deref bundles (heap ++ [OPreKey j_id j_prekey])) as [[| | els | | | | |]|] eqn:Hb;
    exec; try reflexivity.
  destruct (_ && _); exec; reflexivity.
Qed.

(** The outcome of the loop: it returned, the [m] buffers it was handed
    are dead, borrows are as before, and every object other than the
    result array is as before. *)
Local Abbreviation safe bound heap vecs o :=
  (is_done o = true
   /\ exists m, (m <= bound)%nat
      /\ w_vecs (final o) = vecs ++ replicate m None
      /\ w_elems (final o) = elems
      /\ w_chars (final o) = chars
      /\ forall r ob, r <> bundles -> deref r heap = Some ob ->
                      deref r (w_heap (final o)) = Some ob).

Lemma new_prekeys_loop_safe todo :
  forall i els heap vecs jvm eng tr,
    forallb reply_consistent eng = true ->
    deref bundles heap = Some (OObjArray els) ->
    safe todo heap vecs
      (new_prekeys_loop todo cbox j_start bundles i
         (mkWorld None heap vecs elems chars pin jvm eng tr)).
Proof.
  induction todo as [|todo IH]; intros i els heap vecs jvm eng tr Heng Hb.
  - cbn [new_prekeys_loop ret is_done final w_vecs w_elems w_chars w_heap].
    split; [reflexivity|]. exists 0%nat. cbn [replicate]. rewrite app_nil_r. auto.
  - assert (Hr : reply_consistent (hd default_reply eng) = true
                 /\ forallb reply_consistent (tl eng) = true).
    { destruct eng as [|r eng']; [split; reflexivity|].
      cbn [forallb hd tl] in *. now apply andb_true_iff in Heng. }
    destruct Hr as [Hr Htl]. rewrite new_prekeys_loop_run. cbv zeta.
    unfold reply_consistent in Hr.
    destruct (out_vec (hd default_reply eng)) as [bytes|].
    + rewrite Hr.
      destruct (cboxjni_vec2arr_result (fresh_ref vecs) bytes
                  (mkWorld None heap (vecs ++ [Some bytes]) elems chars pin jvm (tl eng)
                     (EvNative (CallNewPrekey cbox (Int.to_jint (j_start + i))) :: tr)))
        as (a & w' & Hrun & Hvecs & Hframe & Hpend); [apply deref_fresh|].
      unfold bind. rewrite Hrun. cbn [w_vecs] in Hvecs. rewrite store_set_fresh in Hvecs.
      pose proof (fr_elems _ _ Hframe) as He. pose proof (fr_chars _ _ Hframe) as Hc.
      pose proof (fr_engine _ _ Hframe) as Hg. pose proof (fr_pinning _ _ Hframe) as Hp.
      pose proof (fr_heap _ _ Hframe) as Hh.
      cbn [w_elems w_chars w_engine w_pinning w_heap] in He, Hc, Hg, Hp, Hh.
      assert (Hstop : forall p j t,
        safe (S todo) heap vecs
          (@Done jref NULL (mkWorld p (w_heap w') (w_vecs w') (w_elems w') (w_chars w')
                              (w_pinning w') j (w_engine w') t))).
      { intros p j t. cbn [is_done final w_vecs w_elems w_chars w_heap].
        split; [reflexivity|]. exists 1%nat. rewrite Hvecs, He, Hc.
        repeat split; auto. lia. }
      destruct a as [|n].
      * cbn [is_null NULL Nat.eqb ret]. destruct w'. apply Hstop.
      * specialize (Hpend ltac:(discriminate)).
        destruct w' as [p' h' v' e' c' pin' j' g' t'].
        cbn [w_pending w_heap w_vecs w_elems w_chars w_pinning w_engine] in *. subst.
        change (is_null (S n)) with false. cbv iota.
        rewrite store_prekey_run. cbv zeta.
        assert (Hstop' : forall p h1 j t,
          (forall r ob, r <> bundles -> deref r heap = Some ob -> deref r h1 = Some ob) ->
          safe (S todo) heap vecs
            (@Done jref NULL (mkWorld p h1 (vecs ++ [None]) elems chars pin j (tl eng) t))).
        { intros p h1 j t Hk. cbn [is_done final w_vecs w_elems w_chars w_heap].
          split; [reflexivity|]. exists 1%nat. repeat split; auto. lia. }
        destruct (hd JOk j') as [|b]; [|apply Hstop'; auto].
        destruct (hd JOk (tl j')); [|apply Hstop'; auto using deref_app].
        rewrite (deref_app _ _ _ _ (Hh _ _ Hb)).
        destruct (_ && _); [|apply Hstop'; auto using deref_app].
        destruct (IH (i + 1) (<[Z.to_nat i := fresh_ref h']> els)
                    (store_set bundles (OObjArray (<[Z.to_nat i := fresh_ref h']> els))
                       (h' ++ [OPreKey (Int.to_jint (j_start + i)) (S n)]))
                    (vecs ++ [None]) (tl (tl j')) (tl eng) t' Htl)
          as (Hdone & m & Hm & Hv' & He' & Hc' & Hk').
        { eapply deref_store_set_eq. apply deref_app, Hh, Hb. }
        split; [exact Hdone|]. exists (S m). split; [lia|].
        split; [rewrite Hv', <- app_assoc; reflexivity|].
        split; [exact He'|]. split; [exact Hc'|].
        intros r ob Hne Hd. apply Hk'; [exact Hne|].
        rewrite deref_store_set_ne by exact Hne. apply deref_app, Hh, Hd.
    + apply negb_true_iff in Hr. rewrite Hr.
      pose proof (raise_and_fail_frame (rc (hd default_reply eng))
                    (mkWorld None heap vecs elems chars pin jvm (tl eng)
                       (EvNative (CallNewPrekey cbox (Int.to_jint (j_start + i))) :: tr)))
        as Hframe.
      pose proof (raise_and_fail_vecs (rc (hd default_reply eng))
                    (mkWorld None heap vecs elems chars pin jvm (tl eng)
                       (EvNative (CallNewPrekey cbox (Int.to_jint (j_start + i))) :: tr)))
        as Hvecs.
      split.
      * rewrite raise_and_fail_run. destruct (hd JOk jvm) as [|[]]; reflexivity.
      * exists 0%nat. cbn [replicate]. rewrite app_nil_r.
        split; [lia|]. split; [exact Hvecs|].
        split; [exact (fr_elems _ _ Hframe)|]. split; [exact (fr_chars _ _ Hframe)|].
        intros r ob _ Hd. exact (fr_heap _ _ Hframe _ _ Hd).
Qed.
End PrekeySafety.

Lemma cboxjni_new_prekeys_run cbox start count pend heap vecs elems chars pin jvm eng tr :
  cboxjni_new_prekeys cbox start count
    (mkWorld pend heap vecs elems chars pin jvm eng tr)
  = match hd JOk jvm with
    | JFail raises =>
        Done NULL (mkWorld (if raises then Some RuntimeFailure else pend) heap vecs elems
                     chars pin (tl jvm) eng tr)
    | JOk =>
        if count <? 0
        then Done NULL (mkWorld (Some RuntimeFailure) heap vecs elems chars pin (tl jvm)
                          eng tr)
        else
          let heap1 := heap ++ [OObjArray (replicate (Z.to_nat count) NULL)] in
          match pend with
          | Some _ => Done NULL (mkWorld pend heap1 vecs elems chars pin (tl jvm) eng tr)
          | None =>
              new_prekeys_loop (Z.to_nat count) cbox start (fresh_ref heap) 0
                (mkWorld None heap1 vecs elems chars pin (tl jvm) eng tr)
          end
    end.
Proof.
  unfold cboxjni_new_prekeys. cbv zeta. exec.
  destruct (hd JOk jvm) as [|[]] eqn:E1; exec.
  - destruct (count <? 0); exec; [reflexivity|]. destruct pend; exec; reflexivity.
  - reflexivity.
  - destruct pend; exec; reflexivity.
Qed.

(** [X23] Generate-prekeys leaves nothing behind in any world in which
    the engine hands back a buffer exactly when it reports success.
    Whatever the runtime answers and wherever the loop stops, every
    buffer the engine handed back has been freed, at most [count] of
    them; no borrow is taken; and every object that existed before the
    call is unchanged.  The buffer of an iteration is freed before the
    bundle is built around its copy, so this does not depend on what
    the runtime does with the constructor of [PreKey]. *)
Theorem new_prekeys_never_leaks (cbox start count : Z) (w : World) :
  forallb reply_consistent (w_engine w) = true ->
  let o := cboxjni_new_prekeys cbox start count w in
  exists m, (m <= Z.to_nat count)%nat
    /\ buffers_freed m w o
    /\ w_elems (final o) = w_elems w
    /\ w_chars (final o) = w_chars w
    /\ forall r ob, deref r (w_heap w) = Some ob -> deref r (w_heap (final o)) = Some ob.
Proof.
  destruct w as [pend heap vecs elems chars pin jvm eng tr].
  unfold buffers_freed.
  cbn [w_pending w_heap w_vecs w_elems w_chars w_pinning w_jvm w_engine w_trace].
  intros Heng. cbv zeta. rewrite cboxjni_new_prekeys_run. cbv zeta.
  assert (Hstop : forall p h1 j,
    (forall r ob, deref r heap = Some ob -> deref r h1 = Some ob) ->
    exists m, (m <= Z.to_nat count)%nat
      /\ w_vecs (final (@Done jref NULL (mkWorld p h1 vecs elems chars pin j eng tr)))
         = vecs ++ replicate m None
      /\ w_elems (final (@Done jref NULL (mkWorld p h1 vecs elems chars pin j eng tr)))
         = elems
      /\ w_chars (final (@Done jref NULL (mkWorld p h1 vecs elems chars pin j eng tr)))
         = chars
      /\ forall r ob, deref r heap = Some ob ->
           deref r (w_heap (final (@Done jref NULL
                                     (mkWorld p h1 vecs elems chars pin j eng tr))))
           = Some ob).
  { intros p h1 j Hk. cbn [final w_vecs w_elems w_chars w_heap].
    exists 0%nat. cbn [replicate]. rewrite app_nil_r.
    repeat split; auto. lia. }
  destruct (hd JOk jvm) as [|b]; [|apply Hstop; auto].
  destruct (count <? 0); [apply Hstop; auto|].
  destruct pend; [apply Hstop; auto using deref_app|].
  destruct (new_prekeys_loop_safe cbox start (fresh_ref heap) elems chars pin
              (Z.to_nat count) 0 (replicate (Z.to_nat count) NULL)
              (heap ++ [OObjArray (replicate (Z.to_nat count) NULL)])
              vecs (tl jvm) eng tr Heng (deref_fresh _ _))
    as (_ & m & Hm & Hv & He & Hc & Hk).
  exists m. repeat (split; [assumption|]).
  intros r ob Hd. apply Hk; [now apply deref_Some_not_fresh in Hd | now apply deref_app].
Qed.

Lemma new_prekeys_never_leaks_witness :
  forallb reply_consistent (w_engine world_runtime_gives_up) = true
  /\ exists m, (m <= Z.to_nat 3)%nat
       /\ buffers_freed m world_runtime_gives_up
            (cboxjni_new_prekeys 7 1 3 world_runtime_gives_up)
       /\ w_elems (final (cboxjni_new_prekeys 7 1 3 world_runtime_gives_up))
          = w_elems world_runtime_gives_up
       /\ w_chars (final (cboxjni_new_prekeys 7 1 3 world_runtime_gives_up))
          = w_chars world_runtime_gives_up
       /\ forall r ob,
            deref r (w_heap world_runtime_gives_up) = Some ob ->
            deref r (w_heap (final (cboxjni_new_prekeys 7 1 3 world_runtime_gives_up)))
            = Some ob.
Proof.
  split; [reflexivity|].
  exact (new_prekeys_never_leaks 7 1 3 world_runtime_gives_up eq_refl).
Defined.
